(** * PHPStan Docker Runner: the report interpreter and the command executor

    A shallow embedding of [src/extension.ts]: [runPhpstan] composes the
    analyzer command and hands the captured output to
    [processPhpstanOutput], which scans the report line by line and builds
    the object [diagnostics], a map from local file paths to the
    diagnostics of that file.

    Conventions of the embedding.
    - A JavaScript string is a [string]; each [ascii] stands for one code
      unit below 256, so the character classes of the regular expressions
      are the ones of ECMAScript restricted to that range.
    - Numbers are [Z] up to 2^53, where JavaScript holds integers
      exactly; a line number above that ends the embedded call in
      [Inexact] instead of a rounded double.
    - The object [diagnostics] is a [gmap string (list Diagnostic)]; the
      keys the scan writes are paths (never a property name of
      [Object.prototype]).
    - The [fs] module is the oracle of a [Host]; a call that throws makes
      the whole function [Throw].
    - The constructors of the editor throw as the editor's do:
      [vscode.Range] on a negative line or character, [vscode.Diagnostic]
      on an empty message.
    - [path] is Node's POSIX implementation. *)

From Stdlib Require Import ZArith Ascii String List Bool Lia.
From stdpp Require Import base option list gmap strings pretty.

Local Open Scope string_scope.
Local Open Scope list_scope.
Local Open Scope Z_scope.

(** ** JavaScript strings *)

Module JSString.

Definition code (c : ascii) : N := N_of_ascii c.

(** [\s] of ECMAScript (WhiteSpace and LineTerminator) below 256:
    TAB, LF, VT, FF, CR, SPACE and NBSP. *)
Definition isWhiteSpace (c : ascii) : bool :=
  match code c with
  | 9%N | 10%N | 11%N | 12%N | 13%N | 32%N | 160%N => true
  | _ => false
  end.

(** The characters [.] does not match: LF and CR below 256. *)
Definition isLineTerminator (c : ascii) : bool :=
  match code c with
  | 10%N | 13%N => true
  | _ => false
  end.

(** [\d] *)
Definition isDigit (c : ascii) : bool :=
  ((48 <=? code c) && (code c <=? 57))%N.

Definition notWhiteSpace (c : ascii) : bool := negb (isWhiteSpace c).
Definition notLineTerminator (c : ascii) : bool := negb (isLineTerminator c).

Fixpoint trimStart (s : string) : string :=
  match s with
  | String c s' => if isWhiteSpace c then trimStart s' else s
  | EmptyString => EmptyString
  end.

Fixpoint trimEnd (s : string) : string :=
  match s with
  | EmptyString => EmptyString
  | String c s' =>
      match trimEnd s' with
      | EmptyString => if isWhiteSpace c then EmptyString else String c EmptyString
      | t => String c t
      end
  end.

(** [s.trim()] *)
Definition trim (s : string) : string := trimEnd (trimStart s).

(** [s.startsWith(p)] *)
Fixpoint startsWith (p s : string) : bool :=
  match p, s with
  | EmptyString, _ => true
  | String a p', String b s' => if Ascii.eqb a b then startsWith p' s' else false
  | String _ _, EmptyString => false
  end.

(** [s.includes(p)] *)
Fixpoint includes (p s : string) : bool :=
  startsWith p s ||
  match s with
  | String _ s' => includes p s'
  | EmptyString => false
  end.

(** [s.endsWith(p)] *)
Fixpoint endsWith (p s : string) : bool :=
  String.eqb s p ||
  match s with
  | String _ s' => endsWith p s'
  | EmptyString => false
  end.

(** [s.substring(n)] *)
Fixpoint substring (n : nat) (s : string) : string :=
  match n, s with
  | O, _ => s
  | S n', String _ s' => substring n' s'
  | S _, EmptyString => EmptyString
  end.

(** [s.split(sep)] for a separator of one character; the result is
    never empty: the empty string splits into one empty piece. *)
Fixpoint split (sep : ascii) (s : string) : list string :=
  match s with
  | EmptyString => [EmptyString]
  | String c s' =>
      if Ascii.eqb c sep then EmptyString :: split sep s'
      else match split sep s' with
           | l :: ls => String c l :: ls
           | [] => [String c EmptyString]
           end
  end.

(** [s.replace(/^\//, '')] *)
Definition stripLeadingSlash (s : string) : string :=
  match s with
  | String "/" s' => s'
  | _ => s
  end.

(** [s.replace(/\\/g, '/')] *)
Fixpoint backslashToSlash (s : string) : string :=
  match s with
  | EmptyString => EmptyString
  | String c s' =>
      String (if Ascii.eqb c "\" then "/"%char else c) (backslashToSlash s')
  end.

(** Truthiness of a string: every string but the empty one. *)
Definition truthy (s : string) : bool :=
  match s with
  | EmptyString => false
  | String _ _ => true
  end.

Definition digitValue (c : ascii) : Z := Z.of_N (code c) - 48.

(** [parseInt(s)] for a run of decimal digits: the number the digits
    write. JavaScript holds it exactly up to 2^53 and as the nearest
    double above; the scan asks [heldExactly] before it relies on it. *)
Definition parseInt (s : string) : Z :=
  fold_left (fun acc c => acc * 10 + digitValue c) (list_ascii_of_string s) 0.

Fixpoint join (sep : string) (l : list string) : string :=
  match l with
  | [] => EmptyString
  | [x] => x
  | x :: rest => x +:+ sep +:+ join sep rest
  end.

End JSString.

(** ** Regular expressions

    The two regular expressions of the scan are sequences of atoms: an
    anchor, a literal, a greedy repetition of a character class, the start
    and the end of a capture group. [matchHere] is the backtracking
    matcher of ECMAScript for such sequences: a repetition first takes as
    many characters as it can and gives them back one at a time while the
    rest of the pattern fails. *)

Module RegExp.
Import JSString.

Inductive atom : Type :=
| Bol                                   (* ^ *)
| Eol                                   (* $ *)
| Lit (s : string)                      (* literal characters *)
| Many (min : nat) (cls : ascii -> bool) (* cls* (min 0) or cls+ (min 1) *)
| Open                                  (* ( *)
| Close.                                (* ) *)

Definition regexp := list atom.

(** The text consumed between an open position and the current one. *)
Definition consumed (from current : string) : string :=
  String.substring 0 (String.length from - String.length current) from.

Fixpoint stripLit (p s : string) : option string :=
  match p, s with
  | EmptyString, _ => Some s
  | String a p', String b s' => if Ascii.eqb a b then stripLit p' s' else None
  | String _ _, EmptyString => None
  end.

(** [matchHere r atStart s opens caps]: match [r] at the current
    position, [s] being the rest of the input; [atStart] tells whether
    the position is the start of the input; the result is the list of
    the captured groups, in the order they close. *)
Fixpoint matchHere (r : regexp) (atStart : bool) (s : string)
         (opens caps : list string) {struct r} : option (list string) :=
  match r with
  | [] => Some caps
  | Bol :: r' => if atStart then matchHere r' atStart s opens caps else None
  | Eol :: r' =>
      match s with
      | EmptyString => matchHere r' atStart s opens caps
      | String _ _ => None
      end
  | Lit p :: r' =>
      match stripLit p s with
      | Some s' => matchHere r' (atStart && negb (truthy p)) s' opens caps
      | None => None
      end
  | Open :: r' => matchHere r' atStart s (s :: opens) caps
  | Close :: r' =>
      match opens with
      | o :: os => matchHere r' atStart s os (caps ++ [consumed o s])
      | [] => None
      end
  | Many min cls :: r' =>
      (fix go (s : string) (n : nat) (b : bool) {struct s} : option (list string) :=
         let stop := match n with
                     | O => matchHere r' b s opens caps
                     | S _ => None
                     end in
         match s with
         | String c s' =>
             if cls c then
               match go s' (Nat.pred n) false with
               | Some res => Some res
               | None => stop
               end
             else stop
         | EmptyString => stop
         end) s min atStart
  end.

Fixpoint search (r : regexp) (atStart : bool) (s : string) : option (list string) :=
  match matchHere r atStart s [] [] with
  | Some caps => Some caps
  | None =>
      match s with
      | String _ s' => search r false s'
      | EmptyString => None
      end
  end.

(** [s.match(r)] for a regular expression without the [g] flag: the
    captured groups of the leftmost match, or [None] for [null]. *)
Definition exec (r : regexp) (s : string) : option (list string) :=
  search r true s.

End RegExp.

(** ** Node's [path] module (POSIX) *)

Module Path.
Import JSString.

Definition sep : ascii := "/"%char.

(** [path.isAbsolute(p)] *)
Definition isAbsolute (p : string) : bool :=
  match p with
  | String "/" _ => true
  | _ => false
  end.

(** One segment of [normalizeString]: empty and [.] segments vanish, a
    [..] removes the segment before it, or stays when there is none to
    remove and the path may climb above its root. *)
Definition normalizeSegment (allowAboveRoot : bool)
           (res : list string) (seg : string) : list string :=
  if String.eqb seg EmptyString || String.eqb seg "." then res
  else if String.eqb seg ".." then
    match rev res with
    | last :: before =>
        if String.eqb last ".."
        then (if allowAboveRoot then res ++ [".."] else res)
        else rev before
    | [] => if allowAboveRoot then [".."] else []
    end
  else res ++ [seg].

Definition normalizeSegments (allowAboveRoot : bool) (p : string) : list string :=
  fold_left (normalizeSegment allowAboveRoot) (split sep p) [].

Definition normalizeString (p : string) (allowAboveRoot : bool) : string :=
  join "/" (normalizeSegments allowAboveRoot p).

(** [path.normalize(p)] *)
Definition normalize (p : string) : string :=
  match p with
  | EmptyString => "."
  | _ =>
      let absolute := isAbsolute p in
      let trailingSeparator := endsWith "/" p in
      let body := normalizeString p (negb absolute) in
      match body with
      | EmptyString =>
          if absolute then "/" else if trailingSeparator then "./" else "."
      | _ =>
          let body := if trailingSeparator then body +:+ "/" else body in
          if absolute then "/" +:+ body else body
      end
  end.

(** [path.join(...args)] *)
Definition join (args : list string) : string :=
  match filter (fun a => truthy a = true) args with
  | [] => "."
  | parts => normalize (JSString.join "/" parts)
  end.

(** The loop of [path.resolve]: from the last argument to the first,
    until an absolute one is met. *)
Fixpoint resolveLoop (reversedArgs : list string) (resolvedPath : string)
  : string * bool :=
  match reversedArgs with
  | [] => (resolvedPath, false)
  | p :: rest =>
      if truthy p then
        let resolvedPath := p +:+ "/" +:+ resolvedPath in
        if isAbsolute p then (resolvedPath, true)
        else resolveLoop rest resolvedPath
      else resolveLoop rest resolvedPath
  end.

(** [path.resolve(...args)]; [cwd] is [process.cwd()], consulted after
    the arguments. *)
Definition resolve (cwd : string) (args : list string) : string :=
  let '(resolvedPath, resolvedAbsolute) :=
    resolveLoop (rev args ++ [cwd]) EmptyString in
  let body := normalizeString resolvedPath (negb resolvedAbsolute) in
  if resolvedAbsolute then "/" +:+ body
  else if truthy body then body else ".".

(** The segments of a resolved path. *)
Definition segments (p : string) : list string :=
  filter (fun s => truthy s = true) (split sep p).

Fixpoint dropCommon (a b : list string) : list string * list string :=
  match a, b with
  | x :: a', y :: b' => if String.eqb x y then dropCommon a' b' else (a, b)
  | _, _ => (a, b)
  end.

(** [path.relative(from, to)]: both ends are resolved, the segments
    they share are dropped, one [..] climbs out of each segment left in
    [from], and the segments left in [to] follow. *)
Definition relative (cwd from to : string) : string :=
  if String.eqb from to then EmptyString
  else
    let from := resolve cwd [from] in
    let to := resolve cwd [to] in
    if String.eqb from to then EmptyString
    else
      let '(up, down) := dropCommon (segments from) (segments to) in
      JSString.join "/" (map (fun _ => "..") up ++ down).

(** [path.basename(p)]: the last segment, trailing separators ignored. *)
Definition basename (p : string) : string :=
  match rev (segments p) with
  | last :: _ => last
  | [] => EmptyString
  end.

End Path.

(** ** The host: file system and working directory

    [statSync] answers whether the path is a directory and [readdirSync]
    lists a directory; [None] stands for the exception the call throws
    (a missing path, a path that is not a directory). *)

Record Host : Type := {
  cwd : string;
  existsSync : string -> bool;
  statSync : string -> option bool;
  readdirSync : string -> option (list string)
}.

(** What a call may end in: a value, an exception, the fuel of the
    directory walk running out, or a number above 2^53, which the code
    holds as a rounded double and the embedding does not compute. *)
Inductive outcome (A : Type) : Type :=
| Ok (a : A)
| Throw
| OutOfFuel
| Inexact.

Arguments Ok {A} a.
Arguments Throw {A}.
Arguments OutOfFuel {A}.
Arguments Inexact {A}.

Definition bind {A B : Type} (m : outcome A) (k : A -> outcome B) : outcome B :=
  match m with
  | Ok a => k a
  | Throw => Throw
  | OutOfFuel => OutOfFuel
  | Inexact => Inexact
  end.

Notation "'let*' x ':=' m 'in' k" := (bind m (fun x => k))
  (at level 10, x name, m at level 100, k at level 200).

(** ** The editor's data *)

Record Range : Type := {
  startLine : Z;
  startCharacter : Z;
  endLine : Z;
  endCharacter : Z
}.

Inductive DiagnosticSeverity : Type :=
| SeverityError
| SeverityWarning
| SeverityInformation
| SeverityHint.

Record Diagnostic : Type := {
  range : Range;
  message : string;
  severity : DiagnosticSeverity;
  source : string
}.

Abbreviation DiagnosticSet := (gmap string (list Diagnostic)).

(** The message shown when the scan is over. *)
Inductive Notification : Type :=
| showWarningMessage (text : string)
| showInformationMessage (text : string)
| showErrorMessage (text : string).

(** ** The report interpreter *)

Section Interpreter.
Import JSString RegExp.

Variable host : Host.

(** Fuel of one call of [findFileInWorkspace]: the number of turns its
    [while] loop may take. *)
Variable fuel : nat.

(** [/^\s*(\d+)\s+(.+)$/] *)
Definition errorRegex : regexp :=
  [Bol; Many 0 isWhiteSpace; Open; Many 1 isDigit; Close;
   Many 1 isWhiteSpace; Open; Many 1 notLineTerminator; Close; Eol].

(** [/([^\s]+\.php)/] *)
Definition fileRegex : regexp :=
  [Open; Many 1 notWhiteSpace; Lit ".php"; Close].

(** [m[i]] for a match [m]: group [i] of the match, [i >= 1]. *)
Definition group (i : nat) (m : list string) : string :=
  nth (Nat.pred i) m EmptyString.

(** *** [findFileInWorkspace] *)

(** [stack.pop()] on an array: the last element leaves. *)
Definition pop (stack : list string) : option (string * list string) :=
  match rev stack with
  | top :: below => Some (top, rev below)
  | [] => None
  end.

(** What the [for] loop over the entries of a directory ends in: the
    path it returns, or the stack it leaves to the [while] loop. *)
Inductive entries : Type :=
| Return (fullPath : string)
| Continue (stack : list string).

Fixpoint scanEntries (dir fileName : string) (files : list string)
         (stack : list string) : outcome entries :=
  match files with
  | [] => Ok (Continue stack)
  | file :: rest =>
      let fullPath := Path.join [dir; file] in
      match statSync host fullPath with
      | None => Throw
      | Some true => scanEntries dir fileName rest (stack ++ [fullPath])
      | Some false =>
          if String.eqb file fileName then Ok (Return fullPath)
          else scanEntries dir fileName rest stack
      end
  end.

Fixpoint searchLoop (n : nat) (fileName : string) (stack : list string)
  : outcome (option string) :=
  match pop stack with
  | None => Ok None
  | Some (dir, stack) =>
      match n with
      | O => OutOfFuel
      | S n' =>
          if negb (truthy dir) then searchLoop n' fileName stack
          else
            match readdirSync host dir with
            | None => Throw
            | Some files =>
                let* r := scanEntries dir fileName files stack in
                match r with
                | Return fullPath => Ok (Some fullPath)
                | Continue stack => searchLoop n' fileName stack
                end
            end
      end
  end.

Definition searchRootOf (root : string) (searchDir : option string)
  : outcome string :=
  match searchDir with
  | Some d =>
      if truthy d && existsSync host d then
        match statSync host d with
        | None => Throw
        | Some true => Ok d
        | Some false => Ok root
        end
      else Ok root
  | None => Ok root
  end.

Definition findFileInWorkspace (root fileName : string)
           (searchDir : option string) : outcome (option string) :=
  let* searchRoot := searchRootOf root searchDir in
  searchLoop fuel fileName [searchRoot].

(** *** The scan *)

Variables workspaceRoot workDirectory : string.
Variable targetPath : option string.

(** The file the command was launched on, when it is one existing
    [.php] file. *)
Definition knownFilePath : option string :=
  match targetPath with
  | Some t =>
      if truthy t && endsWith ".php" t && existsSync host t
      then Some t else None
  | None => None
  end.

(** The state of the [for] loop over the lines. *)
Record ScanState : Type := {
  diagnostics : DiagnosticSet;
  currentFile : string
}.

(** [new vscode.Range(startLine, startCharacter, endLine, endCharacter)]
    throws on a negative line or character, and puts the two positions in
    order. *)
Definition newRange (startLine startCharacter endLine endCharacter : Z)
  : outcome Range :=
  if (0 <=? startLine) && (0 <=? startCharacter)
     && (0 <=? endLine) && (0 <=? endCharacter) then
    if (startLine <? endLine)
       || ((startLine =? endLine) && (startCharacter <? endCharacter)) then
      Ok {| startLine := startLine; startCharacter := startCharacter;
            endLine := endLine; endCharacter := endCharacter |}
    else
      Ok {| startLine := endLine; startCharacter := endCharacter;
            endLine := startLine; endCharacter := startCharacter |}
  else Throw.

(** [new vscode.Diagnostic(range, message, severity)] throws on an empty
    message; the source is not set yet, which the empty string stands
    for. *)
Definition newDiagnostic (range : Range) (message : string)
           (severity : DiagnosticSeverity) : outcome Diagnostic :=
  if truthy message then
    Ok {| range := range; message := message; severity := severity;
          source := EmptyString |}
  else Throw.

(** [diagnostic.source = s] *)
Definition setSource (s : string) (d : Diagnostic) : Diagnostic :=
  {| range := range d; message := message d; severity := severity d;
     source := s |}.

(** The line numbers the code holds exactly: the number read from the
    row is at most 2^53. *)
Definition heldExactly (lineNumber : Z) : bool := lineNumber <? 2 ^ 53.

(** The diagnostic of a row: the range of its line, the diagnostic with
    its message, the source. The embedding follows the code up to the
    line numbers that are held exactly. *)
Definition buildDiagnostic (lineNumber : Z) (message : string)
  : outcome Diagnostic :=
  let* range := newRange lineNumber 0 lineNumber 1000 in
  let* diagnostic := newDiagnostic range message SeverityWarning in
  if heldExactly lineNumber then Ok (setSource "PHPStan" diagnostic)
  else Inexact.

(** The warning of PHPStan on the whole of a line. *)
Definition warningAt (lineNumber : Z) (message : string) : Diagnostic :=
  {| range := {| startLine := lineNumber; startCharacter := 0;
                 endLine := lineNumber; endCharacter := 1000 |};
     message := message;
     severity := SeverityWarning;
     source := "PHPStan" |}.

(** [diagnostics[file].push(d)], the list being created when absent. *)
Definition push (file : string) (d : Diagnostic) (ds : DiagnosticSet)
  : DiagnosticSet :=
  <[file := default [] (ds !! file) ++ [d]]> ds.

(** The chain that turns the path of a file line into a local path
    when no known file stands in for it. *)
Definition resolveContainerPath (containerFilePath : string) : outcome string :=
  if Path.isAbsolute containerFilePath && existsSync host containerFilePath
  then Ok containerFilePath
  else
    let resolvedPath :=
      if startsWith workDirectory containerFilePath then
        let relativePath :=
          stripLeadingSlash
            (substring (String.length workDirectory) containerFilePath) in
        Path.resolve (cwd host) [workspaceRoot; relativePath]
      else Path.resolve (cwd host) [workspaceRoot; containerFilePath] in
    if negb (existsSync host resolvedPath) then
      let fileName := Path.basename containerFilePath in
      let* found := findFileInWorkspace workspaceRoot fileName targetPath in
      match found with
      | Some f => if truthy f then Ok f else Ok resolvedPath
      | None => Ok resolvedPath
      end
    else Ok resolvedPath.

Definition resolveFile (containerFilePath : string) : outcome string :=
  match knownFilePath with
  | Some known =>
      if truthy known then Ok known
      else resolveContainerPath containerFilePath
  | None => resolveContainerPath containerFilePath
  end.

(** The separator test of the loop. *)
Definition isSeparator (line : string) : bool :=
  includes "------" line && includes "------" line.

(** The body of the loop over the lines. *)
Definition processLine (st : ScanState) (line : string) : outcome ScanState :=
  if String.eqb (trim line) EmptyString then Ok st
  else if isSeparator line then Ok st
  else
    match exec errorRegex line with
    | Some errorMatch =>
        let lineNumber := parseInt (group 1 errorMatch) - 1 in
        let message := trim (group 2 errorMatch) in
        if truthy (currentFile st) && (0 <=? lineNumber) then
          let* diagnostic := buildDiagnostic lineNumber message in
          Ok {| diagnostics :=
                  push (currentFile st) diagnostic (diagnostics st);
                currentFile := currentFile st |}
        else Ok st
    | None =>
        if includes ".php" line then
          match exec fileRegex line with
          | Some fileMatch =>
              let* resolvedPath := resolveFile (group 1 fileMatch) in
              Ok {| diagnostics := diagnostics st;
                    currentFile := resolvedPath |}
          | None => Ok st
          end
        else Ok st
    end.

Fixpoint scan (st : ScanState) (lines : list string) : outcome ScanState :=
  match lines with
  | [] => Ok st
  | line :: rest =>
      let* st := processLine st line in
      scan st rest
  end.

Definition initialState : ScanState :=
  {| diagnostics := ∅; currentFile := EmptyString |}.

(** The lines of the report, then the scan from the initial state. *)
Definition parseReport (stdout : string) : outcome DiagnosticSet :=
  let* st := scan initialState (split "010"%char stdout) in
  Ok (diagnostics st).

End Interpreter.

(** *** [processPhpstanOutput] *)

(** What a call of [processPhpstanOutput] leaves behind: the diagnostics
    handed to the collection of the editor, the summary shown to the user
    and the line written to the console when [stderr] is not empty. *)
Record Processed : Type := {
  applied : DiagnosticSet;
  summary : Notification;
  consoleError : option string
}.

Section Output.
Import JSString.

Variable host : Host.
Variable fuel : nat.

Definition totalErrors (ds : DiagnosticSet) : nat :=
  map_fold (fun _ diags sum => (sum + length diags)%nat) 0%nat ds.

Definition oAcute : ascii := "243"%char.

Definition problemsMessage (total files : nat) : string :=
  "PHPStan encontr" +:+ String oAcute EmptyString +:+ " " +:+ pretty total
    +:+ " problemas en " +:+ pretty files +:+ " archivos".

Definition noProblemsMessage : string :=
  "PHPStan no encontr" +:+ String oAcute EmptyString +:+ " problemas".

Definition summaryOf (ds : DiagnosticSet) : Notification :=
  if (0 <? totalErrors ds)%nat
  then showWarningMessage (problemsMessage (totalErrors ds) (size ds))
  else showInformationMessage noProblemsMessage.

Definition processPhpstanOutput (stdout stderr : string)
           (workspaceRoot workDirectory : string)
           (targetPath : option string) : outcome Processed :=
  let* ds := parseReport host fuel workspaceRoot workDirectory targetPath stdout in
  Ok {| applied := ds;
        summary := summaryOf ds;
        consoleError := if truthy stderr then Some stderr else None |}.

End Output.

(** ** The command executor *)

Record Config : Type := {
  containerName : string;
  workDirectory : string;
  configFile : string;
  level : string;
  phpstanPath : string
}.

(** [error.code] of a rejected [execAsync]: the exit code of the process,
    or something that is no number (the name of a system error, [null]
    for a process that was killed). *)
Inductive ErrorCode : Type :=
| ExitCode (n : Z)
| NoExitCode.

(** What [execAsync] settles with. *)
Inductive ExecResult : Type :=
| Resolved (stdout stderr : string)
| Rejected (code : ErrorCode) (stdout stderr : option string).

(** What a run ends in. *)
Inductive RunResult : Type :=
| NoWorkspace                  (* no workspace folder: nothing is launched *)
| Completed (r : Processed)    (* the report was interpreted *)
| ExecutionError               (* the error reached the outer [catch] *)
| Diverged
| InexactRun.                  (* a line number above 2^53 was met *)

Section Executor.
Import JSString.

Variable host : Host.
Variable fuel : nat.
Variable config : Config.

(** The path of the target inside the container. *)
Definition containerPath (workspaceRoot targetPath : string) : string :=
  let relativePath := Path.relative (cwd host) workspaceRoot targetPath in
  backslashToSlash (Path.join [workDirectory config; relativePath]).

(** The last argument of the analyzer command. *)
Definition pathArgument (workspaceRoot : string) (targetPath : option string)
  : string :=
  match targetPath with
  | Some t =>
      if truthy t then containerPath workspaceRoot t
      else workDirectory config
  | None => workDirectory config
  end.

Definition phpstanCommand (workspaceRoot : string) (targetPath : option string)
  : string :=
  let command := phpstanPath config +:+ " analyse --level=" +:+ level config in
  let command :=
    if truthy (configFile config)
       && existsSync host (Path.join [workspaceRoot; configFile config])
    then command +:+ " --configuration=" +:+ configFile config
    else command in
  command +:+ " " +:+ pathArgument workspaceRoot targetPath.

Definition dockerCommand (workspaceRoot : string) (targetPath : option string)
  : string :=
  "docker exec " +:+ containerName config +:+ " "
    +:+ phpstanCommand workspaceRoot targetPath.

Definition orEmpty (s : option string) : string := default EmptyString s.

Definition finish (r : outcome Processed) : RunResult :=
  match r with
  | Ok p => Completed p
  | Throw => ExecutionError
  | OutOfFuel => Diverged
  | Inexact => InexactRun
  end.

(** The [try] and its [catch] around [execAsync]. *)
Definition interpret (workspaceRoot : string) (targetPath : option string)
           (result : ExecResult) : RunResult :=
  match result with
  | Resolved stdout stderr =>
      finish (processPhpstanOutput host fuel stdout stderr workspaceRoot
                                   (workDirectory config) targetPath)
  | Rejected (ExitCode 1) stdout stderr =>
      finish (processPhpstanOutput host fuel (orEmpty stdout) (orEmpty stderr)
                                   workspaceRoot (workDirectory config)
                                   targetPath)
  | Rejected _ _ _ => ExecutionError
  end.

(** [runPhpstan]; [execAsync] answers the command it is given. *)
Definition runPhpstan (workspaceFolder : option string)
           (execAsync : string -> ExecResult) (targetPath : option string)
  : RunResult :=
  match workspaceFolder with
  | Some workspaceRoot =>
      if truthy workspaceRoot then
        interpret workspaceRoot targetPath
                  (execAsync (dockerCommand workspaceRoot targetPath))
      else NoWorkspace
  | None => NoWorkspace
  end.

End Executor.

(** ** The commands of the extension

    [activate] registers three commands and, when [autoRun] is set, a
    listener on saved documents. Each either shows a warning, starts a
    run with a target, or does nothing. *)

Inductive Command : Type :=
| Warn (text : string)
| Run (targetPath : option string)
| Idle.

Section Commands.
Import JSString.

(** [phpstan-docker-runner.runPhpstan] *)
Definition runPhpstanCommand : Command := Run None.

(** [phpstan-docker-runner.runPhpstanFile]; [activeEditor] is the file
    name of the document of the active editor, when there is one. *)
Definition runPhpstanFileCommand (activeEditor : option string) : Command :=
  match activeEditor with
  | Some fileName =>
      if endsWith ".php" fileName then Run (Some fileName)
      else Warn "Por favor, abre un archivo PHP primero"
  | None => Warn "Por favor, abre un archivo PHP primero"
  end.

(** [phpstan-docker-runner.runPhpstanDirectory]; [uri] is the path of
    the resource the command was called on, [workspaceFolder] the path of
    the first workspace folder. *)
Definition runPhpstanDirectoryCommand (uri workspaceFolder : option string)
  : Command :=
  let targetPath :=
    match uri with
    | Some fsPath => Some fsPath
    | None => workspaceFolder
    end in
  match targetPath with
  | Some p =>
      if truthy p then Run (Some p)
      else Warn "No se pudo determinar el directorio de trabajo"
  | None => Warn "No se pudo determinar el directorio de trabajo"
  end.

(** The listener of [onDidSaveTextDocument], registered when [autoRun]
    is set. *)
Definition onSaveListener (autoRun : bool) (fileName : string) : Command :=
  if autoRun then
    if endsWith ".php" fileName then Run (Some fileName) else Idle
  else Idle.

(** What a command leaves behind: the result of the run it starts. *)
Definition perform (host : Host) (fuel : nat) (config : Config)
           (workspaceFolder : option string)
           (execAsync : string -> ExecResult) (c : Command)
  : option RunResult :=
  match c with
  | Run targetPath =>
      Some (runPhpstan host fuel config workspaceFolder execAsync targetPath)
  | Warn _ | Idle => None
  end.

End Commands.

(** ** Reading the scan line by line *)

Section Lines.
Import JSString RegExp.

(** What the body of the loop takes a line for, in the order of its
    tests. *)
Inductive LineKind : Type :=
| Blank
| Separator
| Row (errorMatch : list string)
| FileLine (fileMatch : list string)
| Other.

Definition classify (line : string) : LineKind :=
  if String.eqb (trim line) EmptyString then Blank
  else if isSeparator line then Separator
  else
    match exec errorRegex line with
    | Some errorMatch => Row errorMatch
    | None =>
        if includes ".php" line then
          match exec fileRegex line with
          | Some fileMatch => FileLine fileMatch
          | None => Other
          end
        else Other
    end.

Definition isFileLine (line : string) : bool :=
  match classify line with
  | FileLine _ => true
  | _ => false
  end.

(** The diagnostic a line stands for, when it is a row with a number
    of at least 1 that is held exactly and a text that is not blank. *)
Definition rowOf (line : string) : option Diagnostic :=
  match classify line with
  | Row errorMatch =>
      let lineNumber := parseInt (group 1 errorMatch) - 1 in
      let message := trim (group 2 errorMatch) in
      if (0 <=? lineNumber) && heldExactly lineNumber && truthy message
      then Some (warningAt lineNumber message)
      else None
  | _ => None
  end.

(** The lines the loop gets through: every line but a row whose number
    is at least 1 and whose text is blank, on which the constructor of
    the diagnostic throws once a current file is set, or whose number is
    above 2^53. *)
Definition regular (line : string) : bool :=
  match classify line with
  | Row errorMatch =>
      let lineNumber := parseInt (group 1 errorMatch) - 1 in
      negb (0 <=? lineNumber)
      || (heldExactly lineNumber && truthy (trim (group 2 errorMatch)))
  | _ => true
  end.

(** The rows of a report, in the order of the report. *)
Definition reportRows (lines : list string) : list Diagnostic :=
  omap rowOf lines.

(** Follows the spec's words: a pure separator line is a row made of
    rule characters only, dashes laid out with blanks. *)
Definition pureSeparator (line : string) : bool :=
  truthy (trim line)
  && forallb (fun c => Ascii.eqb c "-" || isWhiteSpace c)
             (list_ascii_of_string line).

Definition lineFeed : ascii := "010"%char.

(** A report from its lines. *)
Definition report (lines : list string) : string :=
  JSString.join (String lineFeed EmptyString) lines.

(** Two hosts that answer every question alike. *)
Definition sameHost (h1 h2 : Host) : Prop :=
  cwd h1 = cwd h2
  /\ (forall p, existsSync h1 p = existsSync h2 p)
  /\ (forall p, statSync h1 p = statSync h2 p)
  /\ (forall p, readdirSync h1 p = readdirSync h2 p).

(** What the scan keeps true when a known file stands in for every file
    line: the current file is unset or the known file, and the object has
    no key but the known file. *)
Definition attributedToKnown (known : string) (st : ScanState) : Prop :=
  (currentFile st = EmptyString \/ currentFile st = known)
  /\ forall file, is_Some (diagnostics st !! file) -> file = known.

(** The file is what some file line of [lines] resolves to. *)
Definition namedBy (host : Host) (fuel : nat)
           (workspaceRoot remote : string) (targetPath : option string)
           (lines : list string) (file : string) : Prop :=
  exists line fileMatch,
    In line lines
    /\ classify line = FileLine fileMatch
    /\ resolveFile host fuel workspaceRoot remote targetPath (group 1 fileMatch)
       = Ok file.

(** What the scan of a report keeps true of its keys: the current file,
    once set, and every key of the object are named by the report, and
    no key is the empty string. *)
Definition keysNamedBy (host : Host) (fuel : nat)
           (workspaceRoot remote : string) (targetPath : option string)
           (lines : list string) (st : ScanState) : Prop :=
  (currentFile st = EmptyString
   \/ namedBy host fuel workspaceRoot remote targetPath lines (currentFile st))
  /\ forall file,
      is_Some (diagnostics st !! file) ->
      file <> EmptyString
      /\ namedBy host fuel workspaceRoot remote targetPath lines file.

(** The path the chain builds from the path of a file line when the
    path itself is no absolute path of the host: the working directory of
    the container taken off its front when it starts with it, the rest
    resolved against the workspace root. *)
Definition joinedPath (host : Host) (workspaceRoot remote : string)
           (containerFilePath : string) : string :=
  if startsWith remote containerFilePath then
    Path.resolve (cwd host)
                 [workspaceRoot;
                  stripLeadingSlash
                    (substring (String.length remote) containerFilePath)]
  else Path.resolve (cwd host) [workspaceRoot; containerFilePath].

(** Where the local path of a file line comes from, step by step: the
    known file, which exists; the path of the file line itself, absolute
    and existing; the joined path, existing; a file of the same name that
    the walk of the workspace found; and, when every step has failed, the
    joined path all the same, which does not exist. *)
Inductive located (host : Host) (fuel : nat) (workspaceRoot remote : string)
          (targetPath : option string) (containerFilePath : string)
  : string -> Prop :=
| located_known (known : string) :
    knownFilePath host targetPath = Some known ->
    existsSync host known = true ->
    located host fuel workspaceRoot remote targetPath containerFilePath known
| located_absolute :
    knownFilePath host targetPath = None ->
    Path.isAbsolute containerFilePath = true ->
    existsSync host containerFilePath = true ->
    located host fuel workspaceRoot remote targetPath containerFilePath
            containerFilePath
| located_joined :
    knownFilePath host targetPath = None ->
    Path.isAbsolute containerFilePath && existsSync host containerFilePath
    = false ->
    existsSync host (joinedPath host workspaceRoot remote containerFilePath)
    = true ->
    located host fuel workspaceRoot remote targetPath containerFilePath
            (joinedPath host workspaceRoot remote containerFilePath)
| located_found (found : string) :
    knownFilePath host targetPath = None ->
    Path.isAbsolute containerFilePath && existsSync host containerFilePath
    = false ->
    existsSync host (joinedPath host workspaceRoot remote containerFilePath)
    = false ->
    findFileInWorkspace host fuel workspaceRoot
                        (Path.basename containerFilePath) targetPath
    = Ok (Some found) ->
    statSync host found = Some false ->
    located host fuel workspaceRoot remote targetPath containerFilePath found
| located_nowhere :
    knownFilePath host targetPath = None ->
    Path.isAbsolute containerFilePath && existsSync host containerFilePath
    = false ->
    existsSync host (joinedPath host workspaceRoot remote containerFilePath)
    = false ->
    findFileInWorkspace host fuel workspaceRoot
                        (Path.basename containerFilePath) targetPath
    = Ok None ->
    located host fuel workspaceRoot remote targetPath containerFilePath
            (joinedPath host workspaceRoot remote containerFilePath).

(** A file line of the report gives the path, and the chain has located
    it. *)
Definition locatedBy (host : Host) (fuel : nat)
           (workspaceRoot remote : string) (targetPath : option string)
           (lines : list string) (file : string) : Prop :=
  exists line fileMatch,
    In line lines
    /\ classify line = FileLine fileMatch
    /\ resolveFile host fuel workspaceRoot remote targetPath (group 1 fileMatch)
       = Ok file
    /\ located host fuel workspaceRoot remote targetPath (group 1 fileMatch)
               file.

(** The lines the loop passes over: blank lines, lines with a run of
    dashes, and lines that are neither a row nor a file line. *)
Definition skipped (line : string) : bool :=
  match classify line with
  | Blank | Separator | Other => true
  | Row _ | FileLine _ => false
  end.

(** The shape of every diagnostic the scan builds: a warning of PHPStan
    that spans one line, from column 0 to column 1000. *)
Definition fullLineWarning (d : Diagnostic) : Prop :=
  severity d = SeverityWarning
  /\ source d = "PHPStan"
  /\ startCharacter (range d) = 0
  /\ endCharacter (range d) = 1000
  /\ endLine (range d) = startLine (range d)
  /\ 0 <= startLine (range d).

(** No key of the object holds an empty list. *)
Definition noEmptyList (ds : DiagnosticSet) : Prop :=
  forall file diags, ds !! file = Some diags -> diags <> [].


(** The directories the walk reaches from its root: the root, and every
    entry of a reached directory that [statSync] takes for a directory. *)
Inductive reachable (host : Host) (root : string) : string -> Prop :=
| reachable_root : reachable host root root
| reachable_entry (dir file : string) (files : list string) :
    reachable host root dir ->
    readdirSync host dir = Some files ->
    In file files ->
    statSync host (Path.join [dir; file]) = Some true ->
    reachable host root (Path.join [dir; file]).


(** Every character of the string is of the class. *)
Fixpoint every (cls : ascii -> bool) (s : string) : bool :=
  match s with
  | EmptyString => true
  | String c s' => cls c && every cls s'
  end.

(** The string does not go on with a character of the class. *)
Definition stopsAt (cls : ascii -> bool) (s : string) : bool :=
  match s with
  | EmptyString => true
  | String c _ => negb (cls c)
  end.

Definition carriageReturn : ascii := "013"%char.


(** A text in front of a path in which no file name starts: it holds
    no dot, and it ends with a blank unless it is empty. *)
Fixpoint leadsIn (s : string) : bool :=
  match s with
  | EmptyString => true
  | String c s' =>
      negb (Ascii.eqb c ".")
      && match s' with
         | EmptyString => isWhiteSpace c
         | String _ _ => leadsIn s'
         end
  end.

Definition notSlash (c : ascii) : bool := negb (Ascii.eqb c "/").

(** A character of a name that the mapping of paths leaves alone:
    neither a separator nor a backslash. *)
Definition plainChar (c : ascii) : bool :=
  negb (Ascii.eqb c "/") && negb (Ascii.eqb c "\").

(** A name of a file or directory: not empty, neither [.] nor [..],
    made of plain characters. *)
Definition plainName (s : string) : bool :=
  JSString.truthy s && negb (String.eqb s ".") && negb (String.eqb s "..")
  && every plainChar s.

(** The absolute path made of the names, in normal form. *)
Definition absolutePath (names : list string) : string :=
  "/" +:+ JSString.join "/" names.

End Lines.

(** ** Hosts to run the scan on *)

Module Hosts.

(** A workspace [/ws] that holds nothing. *)
Definition bare : Host :=
  {| cwd := "/";
     existsSync := fun p => String.eqb p "/ws";
     statSync := fun p => if String.eqb p "/ws" then Some true else None;
     readdirSync := fun p => if String.eqb p "/ws" then Some [] else None |}.

(** The workspace [/ws] with the one file [/ws/src/Foo.php]. *)
Definition project : Host :=
  {| cwd := "/";
     existsSync := fun p =>
       String.eqb p "/ws" || String.eqb p "/ws/src"
       || String.eqb p "/ws/src/Foo.php";
     statSync := fun p =>
       if String.eqb p "/ws" || String.eqb p "/ws/src" then Some true
       else if String.eqb p "/ws/src/Foo.php" then Some false
       else None;
     readdirSync := fun p =>
       if String.eqb p "/ws" then Some ["src"]
       else if String.eqb p "/ws/src" then Some ["Foo.php"]
       else None |}.

(** [project], each answer computed another way. *)
Definition projectAgain : Host :=
  {| cwd := cwd project;
     existsSync := fun p => existsSync project p || false;
     statSync := fun p => statSync project p;
     readdirSync := fun p => readdirSync project p |}.

Definition config : Config :=
  {| containerName := "phpstan";
     workDirectory := "/var/www/html";
     configFile := "phpstan.neon";
     level := "5";
     phpstanPath := "vendor/bin/phpstan" |}.


(** A workspace [/ws] whose directory cannot be listed. *)
Definition locked : Host :=
  {| cwd := "/";
     existsSync := fun p => String.eqb p "/ws";
     statSync := fun p => if String.eqb p "/ws" then Some true else None;
     readdirSync := fun _ => None |}.

End Hosts.

(** ** Reports and states to run the scan on *)

Module Reports.

(** Rows and a rule, and no file line. *)
Definition orphanLines : list string :=
  ["   12   Undefined method foo()."; " ------ ---------- "; "  7  Dead code."].

(** A scan that has met the file line of [/ws/src/Foo.php]. *)
Definition stateInFoo : ScanState :=
  {| diagnostics := ∅; currentFile := "/ws/src/Foo.php" |}.

(** The analyzer names the file by its path in the container. *)
Definition remoteLines : list string :=
  [" ------ ------------------------------ ";
   "  Line   /var/www/html/lib/Bar.php";
   " ------ ------------------------------ ";
   "  12     Undefined method foo().";
   "  30     Dead code.";
   " ------ ------------------------------ "].

(** A row and a file line that carry a run of dashes. *)
Definition dashedRow : string := "  12     Expected ------ here.".
Definition dashedFileLine : string := "------ src/Foo.php".

(** The file line of the analyzer's table, then the row with the dashes. *)
Definition dashedLines : list string :=
  ["  Line   src/Foo.php"; dashedRow].

(** The same report with the dashes of the message taken out. *)
Definition plainLines : list string :=
  ["  Line   src/Foo.php"; "  12     Expected here."].

(** The analyzer names a file by a path the workspace does not have. *)
Definition movedLines : list string :=
  ["  Line   lib/Foo.php"; "  12     Undefined method foo()."].


(** The report of [remoteLines] as a terminal writes it: each line ends
    with a carriage return before the line feed. *)
Definition terminalLines : list string :=
  map (fun line => line +:+ String carriageReturn EmptyString) remoteLines.

(** A file line, then a row whose text is two tabs. *)
Definition blankRow : string := " 13" +:+ String "009" (String "009" EmptyString).
Definition blankRowLines : list string := ["  Line   src/Foo.php"; blankRow].

End Reports.

(** ** Properties of the scan *)

Section ScanFacts.
Import JSString RegExp.

Variable host : Host.
Variable fuel : nat.
Variables workspaceRoot workDirectory : string.
Variable targetPath : option string.

Local Abbreviation processLine' := (processLine host fuel workspaceRoot workDirectory targetPath).
Local Abbreviation scan' := (scan host fuel workspaceRoot workDirectory targetPath).
Local Abbreviation resolveFile' := (resolveFile host fuel workspaceRoot workDirectory targetPath).
Local Abbreviation parseReport' := (parseReport host fuel workspaceRoot workDirectory targetPath).

Lemma buildDiagnostic_spec (lineNumber : Z) (message : string) :
  0 <= lineNumber ->
  buildDiagnostic lineNumber message
  = if truthy message then
      if heldExactly lineNumber then Ok (warningAt lineNumber message)
      else Inexact
    else Throw.
Proof.
  intros Hline. unfold buildDiagnostic, newRange, newDiagnostic.
  apply Z.leb_le in Hline. rewrite Hline. simpl.
  rewrite Z.ltb_irrefl, Z.eqb_refl. simpl.
  destruct (truthy message); [|reflexivity]. simpl.
  destruct (heldExactly lineNumber); reflexivity.
Qed.

(** The body of the loop, read through [classify]. *)
Lemma processLine_classify (st : ScanState) (line : string) :
  processLine' st line =
  match classify line with
  | Blank | Separator | Other => Ok st
  | Row errorMatch =>
      let lineNumber := parseInt (group 1 errorMatch) - 1 in
      let message := trim (group 2 errorMatch) in
      if truthy (currentFile st) && (0 <=? lineNumber) then
        if truthy message then
          if heldExactly lineNumber then
            Ok {| diagnostics :=
                    push (currentFile st) (warningAt lineNumber message)
                         (diagnostics st);
                  currentFile := currentFile st |}
          else Inexact
        else Throw
      else Ok st
  | FileLine fileMatch =>
      let* resolvedPath := resolveFile' (group 1 fileMatch) in
      Ok {| diagnostics := diagnostics st; currentFile := resolvedPath |}
  end.
Proof.
  unfold processLine, classify.
  destruct (String.eqb (trim line) EmptyString); [reflexivity|].
  destruct (isSeparator line); [reflexivity|].
  destruct (exec errorRegex line) as [errorMatch|].
  - cbv zeta.
    destruct (truthy (currentFile st) && (0 <=? parseInt (group 1 errorMatch) - 1))
      eqn:Hguard; [|reflexivity].
    apply andb_prop in Hguard as [_ Hline]. apply Z.leb_le in Hline.
    rewrite (buildDiagnostic_spec _ _ Hline).
    destruct (truthy (trim (group 2 errorMatch))); [|reflexivity].
    destruct (heldExactly (parseInt (group 1 errorMatch) - 1)); reflexivity.
  - destruct (includes ".php" line); [|reflexivity].
    destruct (exec fileRegex line); reflexivity.
Qed.

Lemma scan_app (st : ScanState) (l1 l2 : list string) :
  scan' st (l1 ++ l2) = let* st' := scan' st l1 in scan' st' l2.
Proof.
  revert st. induction l1 as [|line l1 IH]; intros st; simpl; [reflexivity|].
  destruct (processLine' st line); simpl; auto.
Qed.

(** A line that names no file leaves a scan' without current file as
    it is. *)
Lemma processLine_no_file (st : ScanState) (line : string) :
  currentFile st = EmptyString -> isFileLine line = false ->
  processLine' st line = Ok st.
Proof.
  intros Hcur Hfile. rewrite processLine_classify.
  unfold isFileLine in Hfile.
  destruct (classify line); try reflexivity; [|discriminate].
  rewrite Hcur. reflexivity.
Qed.

Lemma scan_no_file (st : ScanState) (lines : list string) :
  currentFile st = EmptyString ->
  Forall (fun line => isFileLine line = false) lines ->
  scan' st lines = Ok st.
Proof.
  intros Hcur Hall. induction Hall as [|line lines Hline _ IH]; simpl.
  - reflexivity.
  - rewrite (processLine_no_file st line Hcur Hline). simpl. exact IH.
Qed.

Lemma truthy_nonempty (s : string) : truthy s = true <-> s <> EmptyString.
Proof. destruct s; simpl; split; intros; congruence. Qed.

Lemma endsWith_truthy (p s : string) :
  truthy p = true -> endsWith p s = true -> truthy s = true.
Proof. destruct s, p; simpl; intros; congruence. Qed.

(** The keys of the object after a [push]. *)
Lemma push_is_Some (file key : string) (d : Diagnostic) (ds : DiagnosticSet) :
  is_Some (push file d ds !! key) -> key = file \/ is_Some (ds !! key).
Proof.
  unfold push. intros H. destruct (decide (file = key)) as [->|Hne].
  - left. reflexivity.
  - right. rewrite lookup_insert_ne in H by exact Hne. exact H.
Qed.

Lemma push_lookup (file key : string) (d : Diagnostic) (ds : DiagnosticSet) :
  default [] (push file d ds !! key) =
  default [] (ds !! key) ++ (if decide (file = key) then [d] else []).
Proof.
  unfold push. destruct (decide (file = key)) as [->|Hne].
  - rewrite lookup_insert_eq. reflexivity.
  - rewrite lookup_insert_ne by exact Hne. simpl. rewrite app_nil_r. reflexivity.
Qed.

End ScanFacts.


(** ** Rows without a file *)

(** C5. The lines that come before the first file line leave no trace:
    the scan goes through them without an exception and is, after them,
    in its initial state, so the report parses as if it started at the
    line after them; and a report none of whose lines is a file line
    parses to the empty diagnostic set, whatever rows it holds. *)
Theorem orphan_rows_are_dropped (host : Host) (fuel : nat)
        (workspaceRoot remote : string) (targetPath : option string) :
  (forall before rest : list string,
      Forall (fun line => isFileLine line = false) before ->
      scan host fuel workspaceRoot remote targetPath initialState before
      = Ok initialState
      /\ scan host fuel workspaceRoot remote targetPath initialState
              (before ++ rest)
         = scan host fuel workspaceRoot remote targetPath initialState rest)
  /\ (forall stdout : string,
        Forall (fun line => isFileLine line = false)
               (JSString.split lineFeed stdout) ->
        parseReport host fuel workspaceRoot remote targetPath stdout = Ok ∅).
Proof.
  split.
  - intros before rest Hall.
    assert (Hscan : scan host fuel workspaceRoot remote targetPath
                         initialState before = Ok initialState)
      by (apply scan_no_file; [reflexivity | exact Hall]).
    split; [exact Hscan|].
    rewrite scan_app, Hscan. reflexivity.
  - intros stdout Hall. unfold parseReport.
    fold lineFeed. rewrite scan_no_file; [reflexivity | reflexivity | exact Hall].
Qed.

Lemma orphan_rows_are_dropped_witness :
  rowOf "   12   Undefined method foo()."
    = Some (warningAt 11 "Undefined method foo().")
  /\ scan Hosts.bare 8 "/ws" "/var/www/html" None initialState Reports.orphanLines
     = Ok initialState
  /\ parseReport Hosts.bare 8 "/ws" "/var/www/html" None (report Reports.orphanLines)
     = Ok ∅.
Proof.
  split; [vm_compute; reflexivity|].
  destruct (orphan_rows_are_dropped Hosts.bare 8 "/ws" "/var/www/html" None)
    as [Hprefix Hwhole].
  split.
  - apply (Hprefix Reports.orphanLines []).
    repeat constructor.
  - apply Hwhole. vm_compute. repeat constructor.
Defined.

(** ** Rows numbered zero *)

(** C9. A row whose number reads 0 gets the line number -1 and is
    dropped: whatever the state of the scan, also with a current file,
    the line changes neither the diagnostics nor the current file. *)
Theorem zero_row_is_dropped (host : Host) (fuel : nat)
        (workspaceRoot workDirectory : string) (targetPath : option string)
        (st : ScanState) (line : string) (errorMatch : list string) :
  classify line = Row errorMatch ->
  JSString.parseInt (group 1 errorMatch) = 0 ->
  JSString.parseInt (group 1 errorMatch) - 1 = -1
  /\ rowOf line = None
  /\ processLine host fuel workspaceRoot workDirectory targetPath st line = Ok st.
Proof.
  intros Hrow Hzero. split; [lia|]. split.
  - unfold rowOf. rewrite Hrow, Hzero. reflexivity.
  - rewrite processLine_classify, Hrow. cbv zeta. rewrite Hzero.
    rewrite andb_false_r. reflexivity.
Qed.

Lemma zero_row_is_dropped_witness :
  JSString.truthy (currentFile Reports.stateInFoo) = true
  /\ processLine Hosts.project 8 "/ws" "/var/www/html" None Reports.stateInFoo
                 "  0   Class Foo not found."
     = Ok Reports.stateInFoo.
Proof.
  split; [reflexivity|].
  apply (zero_row_is_dropped Hosts.project 8 "/ws" "/var/www/html" None
           Reports.stateInFoo "  0   Class Foo not found."
           ["0"; "Class Foo not found."]).
  - vm_compute. reflexivity.
  - vm_compute. reflexivity.
Defined.

(** ** The known file *)

Section KnownFile.
Import JSString RegExp.

Variable host : Host.
Variable fuel : nat.
Variables workspaceRoot workDirectory : string.
Variable known : string.

Hypothesis known_php : endsWith ".php" known = true.
Hypothesis known_exists : existsSync host known = true.

Local Abbreviation processLine' := (processLine host fuel workspaceRoot workDirectory (Some known)).
Local Abbreviation scan' := (scan host fuel workspaceRoot workDirectory (Some known)).
Local Abbreviation resolveFile' := (resolveFile host fuel workspaceRoot workDirectory (Some known)).

Lemma known_truthy : truthy known = true.
Proof. exact (endsWith_truthy ".php" known eq_refl known_php). Qed.

Lemma knownFilePath_known : knownFilePath host (Some known) = Some known.
Proof.
  unfold knownFilePath. rewrite known_truthy, known_php, known_exists. reflexivity.
Qed.

Lemma resolveFile_known (containerFilePath : string) :
  resolveFile' containerFilePath = Ok known.
Proof.
  unfold resolveFile. rewrite knownFilePath_known, known_truthy.
  reflexivity.
Qed.

(** With a known file a line keeps the invariant, and fails only when
    it is a row the loop does not get through; it needs no directory
    walk. *)
Lemma processLine_known (st : ScanState) (line : string) :
  attributedToKnown known st ->
  match processLine' st line with
  | Ok st' => attributedToKnown known st'
  | Throw | Inexact => regular line = false
  | OutOfFuel => False
  end.
Proof.
  intros [Hcur Hkeys]. rewrite processLine_classify. unfold regular.
  destruct (classify line) as [| |errorMatch|fileMatch|];
    try (split; assumption).
  - cbv zeta.
    destruct (truthy (currentFile st) && (0 <=? parseInt (group 1 errorMatch) - 1))
      eqn:Hguard; [|split; assumption].
    apply andb_prop in Hguard as [Hfile Hline]. rewrite Hline. simpl.
    destruct (truthy (trim (group 2 errorMatch)));
      [|rewrite andb_false_r; reflexivity].
    destruct (heldExactly (parseInt (group 1 errorMatch) - 1)); [|reflexivity].
    split; [exact Hcur|]. simpl.
    intros file Hsome. apply push_is_Some in Hsome as [->|Hsome]; [|auto].
    destruct Hcur as [Hcur|Hcur]; [|exact Hcur].
    rewrite Hcur in Hfile. discriminate.
  - rewrite resolveFile_known. simpl.
    split; [right; reflexivity | exact Hkeys].
Qed.

Lemma scan_known (lines : list string) (st : ScanState) :
  attributedToKnown known st ->
  match scan' st lines with
  | Ok st' => attributedToKnown known st'
  | Throw | Inexact => ~ Forall (fun line => regular line = true) lines
  | OutOfFuel => False
  end.
Proof.
  revert st. induction lines as [|line lines IH]; intros st Hst; simpl.
  - exact Hst.
  - pose proof (processLine_known st line Hst) as Hstep.
    destruct (processLine' st line) as [st1| | |]; simpl.
    + specialize (IH st1 Hstep).
      destruct (scan' st1 lines); auto;
        intros Hall; apply IH; inversion Hall; assumption.
    + intros Hall. inversion Hall; congruence.
    + exact Hstep.
    + intros Hall. inversion Hall; congruence.
Qed.

End KnownFile.

(** C1. When the target of the run is one existing [.php] file, every
    file line of the report resolves to that file, whatever path it
    shows, and every key of a parsed diagnostic set is that file. The
    parse needs no directory walk, so it never runs out of fuel, and it
    yields a diagnostic set whenever the loop gets through every line of
    the report, that is unless a row has a blank text, on which the
    constructor of the diagnostic throws, or a number above 2^53. *)
Theorem known_file_gets_every_diagnostic (host : Host) (fuel : nat)
        (workspaceRoot workDirectory known : string) :
  JSString.endsWith ".php" known = true ->
  existsSync host known = true ->
  (forall containerFilePath : string,
      resolveFile host fuel workspaceRoot workDirectory (Some known)
                  containerFilePath = Ok known)
  /\ (forall (stdout : string) (ds : DiagnosticSet),
        parseReport host fuel workspaceRoot workDirectory (Some known) stdout
        = Ok ds ->
        forall file, is_Some (ds !! file) -> file = known)
  /\ (forall stdout : string,
        parseReport host fuel workspaceRoot workDirectory (Some known) stdout
        <> OutOfFuel)
  /\ (forall stdout : string,
        Forall (fun line => regular line = true)
               (JSString.split lineFeed stdout) ->
        exists ds : DiagnosticSet,
          parseReport host fuel workspaceRoot workDirectory (Some known) stdout
          = Ok ds).
Proof.
  intros Hphp Hexists.
  assert (Hinit : attributedToKnown known initialState).
  { split; [left; reflexivity|].
    intros file [ds Hds]. simpl in Hds. rewrite lookup_empty in Hds. discriminate. }
  assert (Hscan : forall stdout,
             match scan host fuel workspaceRoot workDirectory (Some known)
                        initialState (JSString.split lineFeed stdout) with
             | Ok st' => attributedToKnown known st'
             | Throw | Inexact =>
                 ~ Forall (fun line => regular line = true)
                          (JSString.split lineFeed stdout)
             | OutOfFuel => False
             end)
    by (intros stdout;
        exact (scan_known host fuel workspaceRoot workDirectory known
                 Hphp Hexists _ initialState Hinit)).
  split; [intros containerFilePath; apply resolveFile_known; assumption|].
  split; [|split].
  - intros stdout ds. unfold parseReport. fold lineFeed.
    specialize (Hscan stdout).
    destruct (scan host fuel workspaceRoot workDirectory (Some known)
                   initialState (JSString.split lineFeed stdout)) as [st| | |];
      simpl; try discriminate.
    intros [= <-]. exact (proj2 Hscan).
  - intros stdout. unfold parseReport. fold lineFeed.
    specialize (Hscan stdout).
    destruct (scan host fuel workspaceRoot workDirectory (Some known)
                   initialState (JSString.split lineFeed stdout)) as [st| | |];
      simpl; try discriminate. destruct Hscan.
  - intros stdout Hall. unfold parseReport. fold lineFeed.
    specialize (Hscan stdout).
    destruct (scan host fuel workspaceRoot workDirectory (Some known)
                   initialState (JSString.split lineFeed stdout)) as [st| | |];
      simpl; [eauto | | |]; contradiction.
Qed.

Lemma known_file_gets_every_diagnostic_witness :
  parseReport Hosts.project 0 "/ws" "/var/www/html" (Some "/ws/src/Foo.php")
              (report Reports.remoteLines)
  = Ok {[ "/ws/src/Foo.php" :=
            [warningAt 11 "Undefined method foo()."; warningAt 29 "Dead code."] ]}
  /\ (forall ds : DiagnosticSet,
        parseReport Hosts.project 0 "/ws" "/var/www/html"
                    (Some "/ws/src/Foo.php") (report Reports.remoteLines)
        = Ok ds ->
        forall file, is_Some (ds !! file) -> file = "/ws/src/Foo.php")
  /\ exists ds : DiagnosticSet,
      parseReport Hosts.project 0 "/ws" "/var/www/html" (Some "/ws/src/Foo.php")
                  (report Reports.remoteLines) = Ok ds.
Proof.
  split; [vm_compute; reflexivity|].
  destruct (known_file_gets_every_diagnostic Hosts.project 0 "/ws"
              "/var/www/html" "/ws/src/Foo.php" eq_refl eq_refl)
    as (_ & Hkeys & _ & Hruns).
  split; [exact (Hkeys (report Reports.remoteLines))|].
  apply Hruns.
  replace (JSString.split lineFeed (report Reports.remoteLines))
    with Reports.remoteLines by (vm_compute; reflexivity).
  repeat (constructor; [vm_compute; reflexivity|]). constructor.
Defined.

(** ** The separator rule *)

Section Separator.
Import JSString RegExp.

Lemma startsWith_spec (p s : string) :
  startsWith p s = true <-> exists post, s = p +:+ post.
Proof.
  revert s. induction p as [|a p IH]; intros s; simpl.
  - split; [intros _; exists s; reflexivity | reflexivity].
  - destruct s as [|b s].
    + split; [discriminate | intros [post Hpost]; discriminate].
    + destruct (Ascii.eqb a b) eqn:Hab.
      * apply Ascii.eqb_eq in Hab as ->. rewrite IH. split.
        -- intros [post ->]. exists post. reflexivity.
        -- intros [post Hpost]. injection Hpost as ->. exists post. reflexivity.
      * apply Ascii.eqb_neq in Hab. split; [discriminate|].
        intros [post Hpost]. injection Hpost as Hb _. congruence.
Qed.

Lemma includes_unfold (p s : string) :
  includes p s =
  startsWith p s || match s with
                    | String _ s' => includes p s'
                    | EmptyString => false
                    end.
Proof. destruct s; reflexivity. Qed.

Lemma includes_spec (p s : string) :
  includes p s = true <-> exists pre post, s = pre +:+ p +:+ post.
Proof.
  split.
  - induction s as [|c s IH]; rewrite includes_unfold; intros H;
      apply orb_prop in H as [H|H].
    + apply startsWith_spec in H as [post ->]. exists EmptyString, post. reflexivity.
    + discriminate.
    + apply startsWith_spec in H as [post ->]. exists EmptyString, post. reflexivity.
    + destruct (IH H) as (pre & post & ->). exists (String c pre), post. reflexivity.
  - intros (pre & post & ->). induction pre as [|c pre IH].
    + rewrite includes_unfold. apply orb_true_intro. left.
      apply startsWith_spec. exists post. reflexivity.
    + simpl (String c pre +:+ _). rewrite includes_unfold.
      apply orb_true_intro. right. exact IH.
Qed.

Lemma isSeparator_classify (line : string) :
  isSeparator line = true ->
  classify line = Blank \/ classify line = Separator.
Proof.
  intros H. unfold classify. rewrite H.
  destruct (String.eqb (trim line) EmptyString); auto.
Qed.

(** What the test of line 179 comes to. Its two operands are the same
    [includes('------')], so the test is that of a run of six dashes
    anywhere in the line: a line is taken for a separator only if it
    holds such a run, and every line that holds one is skipped, whatever
    else it holds: it yields no row, names no file and leaves the state
    of the scan as it is. *)
Theorem separator_rule_skips_any_dash_run (host : Host) (fuel : nat)
        (workspaceRoot workDirectory : string) (targetPath : option string)
        (st : ScanState) (line : string) :
  (isSeparator line = true <->
   exists pre post, line = pre +:+ "------" +:+ post)
  /\ (classify line = Separator -> isSeparator line = true)
  /\ ((exists pre post, line = pre +:+ "------" +:+ post) ->
      rowOf line = None
      /\ isFileLine line = false
      /\ processLine host fuel workspaceRoot workDirectory targetPath st line
         = Ok st).
Proof.
  assert (Hspec : isSeparator line = true <->
                  exists pre post, line = pre +:+ "------" +:+ post).
  { unfold isSeparator. rewrite andb_diag. apply includes_spec. }
  split; [exact Hspec|]. split.
  - unfold classify.
    destruct (String.eqb (trim line) EmptyString); [discriminate|].
    destruct (isSeparator line); [reflexivity|].
    destruct (exec errorRegex line); [discriminate|].
    destruct (includes ".php" line); [|discriminate].
    destruct (exec fileRegex line); discriminate.
  - intros Hrun. apply Hspec in Hrun.
    rewrite processLine_classify. unfold rowOf, isFileLine.
    destruct (isSeparator_classify line Hrun) as [-> | ->]; auto.
Qed.

End Separator.

(** C2. The code breaks the claim by a slip. The test under the comment
    "Detectar separador de archivo" is
    [line.includes('------') && line.includes('------')]: the same operand
    twice, and nothing that asks whether the line holds anything else. So
    a row whose message holds six dashes and a file line that follows a
    run of dashes are both taken for separators although neither is a
    pure separator line and each still matches its own regular
    expression, and the row is lost without a word: the report with the
    dashed message parses to nothing, the same report without the dashes
    to one diagnostic. *)
Lemma separator_rule_discards_other_content :
  classify Reports.dashedRow = Separator
  /\ pureSeparator Reports.dashedRow = false
  /\ RegExp.exec errorRegex Reports.dashedRow
     = Some ["12"; "Expected ------ here."]
  /\ classify Reports.dashedFileLine = Separator
  /\ pureSeparator Reports.dashedFileLine = false
  /\ RegExp.exec fileRegex Reports.dashedFileLine = Some ["src/Foo.php"]
  /\ parseReport Hosts.project 8 "/ws" "/var/www/html" None
                 (report Reports.dashedLines) = Ok ∅
  /\ parseReport Hosts.project 8 "/ws" "/var/www/html" None
                 (report Reports.plainLines)
     = Ok {[ "/ws/src/Foo.php" := [warningAt 11 "Expected here."] ]}.
Proof. vm_compute. repeat split; reflexivity. Qed.

(** ** The empty report *)

Lemma totalErrors_empty : totalErrors ∅ = 0%nat.
Proof. unfold totalErrors. apply map_fold_empty. Qed.

(** C8. An empty standard output parses to the empty diagnostic set,
    on every host and for every target, without an exception or a
    directory walk; the summary is the information message that no
    problems were found, and the run completes with it. *)
Theorem empty_report_finds_no_problems (host : Host) (fuel : nat)
        (config : Config) (stderr workspaceRoot : string)
        (targetPath : option string) :
  parseReport host fuel workspaceRoot (workDirectory config) targetPath
              EmptyString = Ok ∅
  /\ processPhpstanOutput host fuel EmptyString stderr workspaceRoot
                          (workDirectory config) targetPath
     = Ok {| applied := ∅;
             summary := showInformationMessage noProblemsMessage;
             consoleError := if JSString.truthy stderr then Some stderr else None |}
  /\ interpret host fuel config workspaceRoot targetPath
               (Resolved EmptyString stderr)
     = Completed {| applied := ∅;
                    summary := showInformationMessage noProblemsMessage;
                    consoleError :=
                      if JSString.truthy stderr then Some stderr else None |}.
Proof.
  assert (Hsummary : summaryOf ∅ = showInformationMessage noProblemsMessage).
  { unfold summaryOf. rewrite totalErrors_empty. reflexivity. }
  split; [reflexivity|].
  split; simpl; unfold processPhpstanOutput; simpl; rewrite Hsummary; reflexivity.
Qed.

(** ** The command *)

(** C6. For the file [/ws/src/Foo.php] of the workspace [/ws] and the
    working directory [/var/www/html] of the container, the path handed
    to the analyzer is [/var/www/html/src/Foo.php], and it is the last
    word of the command; the other settings and the host play no part. *)
Theorem remote_path_of_single_file (host : Host)
        (container configuration analysisLevel analyzer : string) :
  let config := {| containerName := container;
                   workDirectory := "/var/www/html";
                   configFile := configuration;
                   level := analysisLevel;
                   phpstanPath := analyzer |} in
  Path.relative (cwd host) "/ws" "/ws/src/Foo.php" = "src/Foo.php"
  /\ containerPath host config "/ws" "/ws/src/Foo.php"
     = "/var/www/html/src/Foo.php"
  /\ pathArgument host config "/ws" (Some "/ws/src/Foo.php")
     = "/var/www/html/src/Foo.php"
  /\ exists command,
      phpstanCommand host config "/ws" (Some "/ws/src/Foo.php")
      = command +:+ " " +:+ "/var/www/html/src/Foo.php".
Proof.
  intros config. repeat split; try reflexivity.
  unfold phpstanCommand. eexists. reflexivity.
Qed.

(** ** The exit code of the analyzer *)



(** ** The part of the file system *)

Section SameHost.
Import JSString RegExp.

Variables h1 h2 : Host.
Hypothesis same : sameHost h1 h2.

Variable fuel : nat.
Variables workspaceRoot remote : string.
Variable targetPath : option string.

Lemma scanEntries_same (dir fileName : string) (files stack : list string) :
  scanEntries h1 dir fileName files stack = scanEntries h2 dir fileName files stack.
Proof.
  destruct same as (_ & _ & Hstat & _).
  revert stack. induction files as [|file files IH]; intros stack; simpl.
  - reflexivity.
  - rewrite Hstat. destruct (statSync h2 (Path.join [dir; file])) as [[|]|];
      try reflexivity; [apply IH|].
    destruct (String.eqb file fileName); [reflexivity | apply IH].
Qed.

Lemma searchLoop_same (n : nat) (fileName : string) (stack : list string) :
  searchLoop h1 n fileName stack = searchLoop h2 n fileName stack.
Proof.
  destruct same as (_ & _ & _ & Hreaddir).
  revert stack. induction n as [|n IH]; intros stack; simpl.
  - reflexivity.
  - destruct (pop stack) as [[dir below]|]; [|reflexivity].
    destruct (negb (truthy dir)); [apply IH|].
    rewrite Hreaddir. destruct (readdirSync h2 dir) as [files|]; [|reflexivity].
    rewrite scanEntries_same.
    destruct (scanEntries h2 dir fileName files below) as [[p|stack']| | |];
      simpl; try reflexivity. apply IH.
Qed.

Lemma findFileInWorkspace_same (root fileName : string) (searchDir : option string) :
  findFileInWorkspace h1 fuel root fileName searchDir
  = findFileInWorkspace h2 fuel root fileName searchDir.
Proof.
  destruct same as (_ & Hexists & Hstat & _).
  unfold findFileInWorkspace, searchRootOf.
  destruct searchDir as [d|]; simpl; [|apply searchLoop_same].
  rewrite Hexists, Hstat.
  destruct (truthy d && existsSync h2 d); simpl; [|apply searchLoop_same].
  destruct (statSync h2 d) as [[|]|]; simpl; try reflexivity; apply searchLoop_same.
Qed.

Lemma resolveFile_same (containerFilePath : string) :
  resolveFile h1 fuel workspaceRoot remote targetPath containerFilePath
  = resolveFile h2 fuel workspaceRoot remote targetPath containerFilePath.
Proof.
  pose proof same as (Hcwd & Hexists & _ & _).
  assert (Hchain :
    resolveContainerPath h1 fuel workspaceRoot remote targetPath containerFilePath
    = resolveContainerPath h2 fuel workspaceRoot remote targetPath containerFilePath).
  { unfold resolveContainerPath. rewrite Hcwd, !Hexists, findFileInWorkspace_same.
    reflexivity. }
  unfold resolveFile, knownFilePath. rewrite Hchain.
  destruct targetPath as [t|]; [|reflexivity]. rewrite Hexists. reflexivity.
Qed.

Lemma processLine_same (st : ScanState) (line : string) :
  processLine h1 fuel workspaceRoot remote targetPath st line
  = processLine h2 fuel workspaceRoot remote targetPath st line.
Proof.
  rewrite !processLine_classify.
  destruct (classify line); try reflexivity.
  rewrite resolveFile_same. reflexivity.
Qed.

Lemma scan_same (st : ScanState) (lines : list string) :
  scan h1 fuel workspaceRoot remote targetPath st lines
  = scan h2 fuel workspaceRoot remote targetPath st lines.
Proof.
  revert st. induction lines as [|line lines IH]; intros st; simpl.
  - reflexivity.
  - rewrite processLine_same.
    destruct (processLine h2 fuel workspaceRoot remote targetPath st line);
      simpl; auto.
Qed.

End SameHost.

(** C3, as the code has it. The parse is a function of the report, the
    workspace root, the working directory of the container, the target
    and the answers of the host: on two hosts that give the same working
    directory and the same answers to [existsSync], [statSync] and
    [readdirSync], the same report parses to the same diagnostic set
    under the same roots and target, and [processPhpstanOutput] ends
    alike. *)
Theorem parse_is_a_function_of_report_and_host (h1 h2 : Host) (fuel : nat)
        (stdout stderr workspaceRoot remote : string)
        (targetPath : option string) :
  sameHost h1 h2 ->
  parseReport h1 fuel workspaceRoot remote targetPath stdout
  = parseReport h2 fuel workspaceRoot remote targetPath stdout
  /\ processPhpstanOutput h1 fuel stdout stderr workspaceRoot remote targetPath
     = processPhpstanOutput h2 fuel stdout stderr workspaceRoot remote targetPath.
Proof.
  intros Hsame.
  assert (Hparse : parseReport h1 fuel workspaceRoot remote targetPath stdout
                   = parseReport h2 fuel workspaceRoot remote targetPath stdout).
  { unfold parseReport. rewrite (scan_same h1 h2 Hsame). reflexivity. }
  split; [exact Hparse|].
  unfold processPhpstanOutput. rewrite Hparse. reflexivity.
Qed.

Lemma parse_is_a_function_of_report_and_host_witness :
  sameHost Hosts.project Hosts.projectAgain
  /\ parseReport Hosts.project 8 "/ws" "/var/www/html" None
                 (report Reports.movedLines)
     = parseReport Hosts.projectAgain 8 "/ws" "/var/www/html" None
                   (report Reports.movedLines).
Proof.
  assert (Hsame : sameHost Hosts.project Hosts.projectAgain).
  { repeat split; intros p; simpl; try reflexivity.
    rewrite orb_false_r. reflexivity. }
  split; [exact Hsame|].
  apply (parse_is_a_function_of_report_and_host Hosts.project Hosts.projectAgain
           8 (report Reports.movedLines) EmptyString "/ws" "/var/www/html" None
           Hsame).
Defined.

(** C3, as the claim has it, fails: the report, the workspace root, the
    working directory and the target do not fix the result. The same
    report parsed before and after [/ws/src/Foo.php] is created puts its
    diagnostic under two different paths. *)
Lemma parse_depends_on_the_file_system :
  parseReport Hosts.bare 8 "/ws" "/var/www/html" None (report Reports.movedLines)
  = Ok {[ "/ws/lib/Foo.php" := [warningAt 11 "Undefined method foo()."] ]}
  /\ parseReport Hosts.project 8 "/ws" "/var/www/html" None
                 (report Reports.movedLines)
     = Ok {[ "/ws/src/Foo.php" := [warningAt 11 "Undefined method foo()."] ]}
  /\ parseReport Hosts.bare 8 "/ws" "/var/www/html" None
                 (report Reports.movedLines)
     <> parseReport Hosts.project 8 "/ws" "/var/www/html" None
                    (report Reports.movedLines).
Proof.
  assert (H1 : parseReport Hosts.bare 8 "/ws" "/var/www/html" None
                 (report Reports.movedLines)
               = Ok {[ "/ws/lib/Foo.php" :=
                         [warningAt 11 "Undefined method foo()."] ]})
    by (vm_compute; reflexivity).
  assert (H2 : parseReport Hosts.project 8 "/ws" "/var/www/html" None
                 (report Reports.movedLines)
               = Ok {[ "/ws/src/Foo.php" :=
                         [warningAt 11 "Undefined method foo()."] ]})
    by (vm_compute; reflexivity).
  split; [exact H1|]. split; [exact H2|].
  rewrite H1, H2. intros Heq.
  assert (Hlookup : forall d1 d2 : DiagnosticSet,
             Ok d1 = Ok d2 -> d1 !! "/ws/src/Foo.php" = d2 !! "/ws/src/Foo.php")
    by (intros d1 d2 Hd; congruence).
  apply Hlookup in Heq.
  rewrite lookup_singleton_ne, lookup_singleton_eq in Heq by discriminate.
  discriminate.
Qed.

(** ** The keys and the order of the diagnostics *)

Section Keys.
Import JSString RegExp.

Variable host : Host.
Variable fuel : nat.
Variables workspaceRoot remote : string.
Variable targetPath : option string.

Local Abbreviation processLine' := (processLine host fuel workspaceRoot remote targetPath).
Local Abbreviation scan' := (scan host fuel workspaceRoot remote targetPath).
Local Abbreviation resolveFile' := (resolveFile host fuel workspaceRoot remote targetPath).
Local Abbreviation namedBy' := (namedBy host fuel workspaceRoot remote targetPath).
Local Abbreviation keysNamedBy' := (keysNamedBy host fuel workspaceRoot remote targetPath).

(** The three things a line can do to the state. *)
Lemma processLine_step (st st' : ScanState) (line : string) :
  processLine' st line = Ok st' ->
  st' = st
  \/ (exists d,
        rowOf line = Some d
        /\ truthy (currentFile st) = true
        /\ st' = {| diagnostics := push (currentFile st) d (diagnostics st);
                    currentFile := currentFile st |})
  \/ (exists fileMatch file,
        classify line = FileLine fileMatch
        /\ resolveFile' (group 1 fileMatch) = Ok file
        /\ st' = {| diagnostics := diagnostics st; currentFile := file |}).
Proof.
  rewrite processLine_classify. unfold rowOf.
  destruct (classify line) as [| |errorMatch|fileMatch|];
    try (intros [= <-]; left; reflexivity).
  - cbv zeta. destruct (truthy (currentFile st)) eqn:Hcur; simpl.
    + destruct (0 <=? parseInt (group 1 errorMatch) - 1); simpl.
      * destruct (truthy (trim (group 2 errorMatch)));
          [|rewrite andb_false_r; discriminate].
        destruct (heldExactly (parseInt (group 1 errorMatch) - 1));
          [|discriminate].
        intros [= <-]. right. left. eexists. repeat split; reflexivity.
      * intros [= <-]. left. reflexivity.
    + intros [= <-]. left. reflexivity.
  - destruct (resolveFile' (group 1 fileMatch)) as [file| | |] eqn:Hfile;
      simpl; try discriminate.
    intros [= <-]. right. right. exists fileMatch, file.
    split; [reflexivity|]. split; [exact Hfile | reflexivity].
Qed.

Lemma keysNamedBy_step (report : list string) (st st' : ScanState) (line : string) :
  In line report ->
  processLine' st line = Ok st' ->
  keysNamedBy' report st -> keysNamedBy' report st'.
Proof.
  intros Hin Hstep [Hcur Hkeys].
  apply processLine_step in Hstep
    as [-> | [(d & _ & Htruthy & ->) | (fileMatch & file & Hkind & Hfile & ->)]].
  - split; assumption.
  - split; [exact Hcur|]. simpl. intros file Hsome.
    apply push_is_Some in Hsome as [->|Hsome]; [|auto].
    split; [apply truthy_nonempty; exact Htruthy|].
    destruct Hcur as [Hcur|Hcur]; [|exact Hcur].
    rewrite Hcur in Htruthy. discriminate.
  - split; [|exact Hkeys]. right. exists line, fileMatch. auto.
Qed.

Lemma keysNamedBy_scan (report lines : list string) (st st' : ScanState) :
  (forall line, In line lines -> In line report) ->
  scan' st lines = Ok st' ->
  keysNamedBy' report st -> keysNamedBy' report st'.
Proof.
  revert st. induction lines as [|line lines IH]; intros st Hsub; simpl.
  - intros [= <-]. auto.
  - destruct (processLine' st line) as [st1| | |] eqn:Hstep; simpl; try discriminate.
    intros Hscan Hst. apply (IH st1); [| exact Hscan |].
    + intros l Hl. apply Hsub. right. exact Hl.
    + apply (keysNamedBy_step report st st1 line); auto. apply Hsub. left. reflexivity.
Qed.

(** The scan' only appends, and what it appends to a file is taken from
    the rows of the lines, in their order. *)
Lemma scan_appends_rows (lines : list string) (st st' : ScanState) (file : string) :
  scan' st lines = Ok st' ->
  exists added,
    default [] (diagnostics st' !! file)
    = default [] (diagnostics st !! file) ++ added
    /\ sublist added (reportRows lines).
Proof.
  revert st. induction lines as [|line lines IH]; intros st; simpl.
  - intros [= <-]. exists []. rewrite app_nil_r. split; [reflexivity | constructor].
  - destruct (processLine' st line) as [st1| | |] eqn:Hstep; simpl; try discriminate.
    intros Hscan. destruct (IH st1 Hscan) as (added & Hadded & Hsub).
    unfold reportRows in *. simpl.
    apply processLine_step in Hstep
      as [-> | [(d & Hrow & _ & ->) | (fileMatch & path & _ & _ & ->)]].
    + exists added. split; [exact Hadded|].
      destruct (rowOf line); [apply sublist_cons|]; exact Hsub.
    + rewrite Hrow. simpl in Hadded. rewrite push_lookup in Hadded.
      destruct (decide (currentFile st = file)).
      * exists (d :: added). split.
        -- rewrite Hadded, <- app_assoc. reflexivity.
        -- apply sublist_skip. exact Hsub.
      * exists added. split.
        -- rewrite Hadded, app_nil_r. reflexivity.
        -- apply sublist_cons. exact Hsub.
    + exists added. split; [exact Hadded|].
      destruct (rowOf line); [apply sublist_cons|]; exact Hsub.
Qed.

End Keys.

(** ** When the known file is taken *)

Section Shortcut.
Import JSString RegExp.

Variable host : Host.
Variable fuel : nat.
Variables workspaceRoot remote : string.

Lemma knownFilePath_spec (targetPath : option string) (known : string) :
  knownFilePath host targetPath = Some known <->
  targetPath = Some known
  /\ endsWith ".php" known = true
  /\ existsSync host known = true.
Proof.
  unfold knownFilePath. destruct targetPath as [t|].
  - destruct (truthy t) eqn:Htruthy, (endsWith ".php" t) eqn:Hphp,
             (existsSync host t) eqn:Hexists; simpl; split;
      try (intros [= <-]; auto);
      try (intros ([= <-] & Hp & He); congruence).
    intros ([= <-] & Hp & He).
    rewrite (endsWith_truthy ".php" t eq_refl Hp) in Htruthy. discriminate.
  - split; [discriminate | intros ([=] & _)].
Qed.

Variable missing : string.
Hypothesis missing_absent : existsSync host missing = false.





End Shortcut.



(** ** More on the scan *)

Section Shapes.
Import JSString RegExp.

Variable host : Host.
Variable fuel : nat.
Variables workspaceRoot remote : string.
Variable targetPath : option string.

Local Abbreviation processLine' := (processLine host fuel workspaceRoot remote targetPath).
Local Abbreviation scan' := (scan host fuel workspaceRoot remote targetPath).
Local Abbreviation resolveFile' := (resolveFile host fuel workspaceRoot remote targetPath).

Lemma skipped_processLine (st : ScanState) (line : string) :
  skipped line = true -> processLine' st line = Ok st.
Proof.
  unfold skipped. rewrite processLine_classify.
  destruct (classify line); intros H; try discriminate; reflexivity.
Qed.

Lemma rowOf_fullLineWarning (line : string) (d : Diagnostic) :
  rowOf line = Some d -> fullLineWarning d.
Proof.
  unfold rowOf. destruct (classify line); try discriminate. cbv zeta.
  destruct ((0 <=? parseInt (group 1 errorMatch) - 1)
            && heldExactly (parseInt (group 1 errorMatch) - 1)
            && truthy (trim (group 2 errorMatch))) eqn:Hrow; [|discriminate].
  intros [= <-]. apply andb_prop in Hrow as [Hrow _].
  apply andb_prop in Hrow as [Hle _].
  apply Z.leb_le in Hle. repeat split; simpl; auto.
Qed.

Lemma reportRows_fullLineWarning (lines : list string) :
  Forall fullLineWarning (reportRows lines).
Proof.
  unfold reportRows. induction lines as [|line lines IH]; simpl; [constructor|].
  destruct (rowOf line) as [d|] eqn:Hrow; [|exact IH].
  constructor; [exact (rowOf_fullLineWarning line d Hrow) | exact IH].
Qed.

Lemma Forall_sublist {A : Type} (P : A -> Prop) (l1 l2 : list A) :
  sublist l1 l2 -> Forall P l2 -> Forall P l1.
Proof.
  induction 1 as [|x l1 l2 _ IH|x l1 l2 _ IH]; intros Hall.
  - constructor.
  - inversion Hall; subst. constructor; auto.
  - inversion Hall; subst. auto.
Qed.

Lemma push_noEmptyList (file : string) (d : Diagnostic) (ds : DiagnosticSet) :
  noEmptyList ds -> noEmptyList (push file d ds).
Proof.
  intros Hds key diags. unfold push.
  destruct (decide (file = key)) as [->|Hne].
  - rewrite lookup_insert_eq. intros [= <-].
    destruct (default [] (ds !! key)); discriminate.
  - rewrite lookup_insert_ne by exact Hne. apply Hds.
Qed.

Lemma noEmptyList_scan (lines : list string) (st st' : ScanState) :
  scan' st lines = Ok st' ->
  noEmptyList (diagnostics st) -> noEmptyList (diagnostics st').
Proof.
  revert st. induction lines as [|line lines IH]; intros st; simpl.
  - intros [= <-]. auto.
  - destruct (processLine' st line) as [st1| | |] eqn:Hstep; simpl; try discriminate.
    intros Hscan Hst. apply (IH st1 Hscan).
    apply processLine_step in Hstep
      as [-> | [(d & _ & _ & ->) | (fileMatch & file & _ & _ & ->)]];
      simpl; auto using push_noEmptyList.
Qed.

Lemma noEmptyList_empty : noEmptyList ∅.
Proof. intros file diags H. rewrite lookup_empty in H. discriminate. Qed.

End Shapes.

(** X1. Blank lines, lines with a run of six dashes and lines that are
    neither a row nor a file line can be taken out of a report: the scan
    of what is left ends as the scan of the whole report does, from any
    state. *)
Theorem skipped_lines_can_be_removed (host : Host) (fuel : nat)
        (workspaceRoot remote : string) (targetPath : option string)
        (st : ScanState) (lines : list string) :
  scan host fuel workspaceRoot remote targetPath st
       (filter (fun line => skipped line = false) lines)
  = scan host fuel workspaceRoot remote targetPath st lines.
Proof.
  revert st. induction lines as [|line lines IH]; intros st; [reflexivity|].
  destruct (skipped line) eqn:Hskip.
  - rewrite filter_cons_False by (rewrite Hskip; discriminate).
    simpl. rewrite (skipped_processLine host fuel workspaceRoot remote
                      targetPath st line Hskip).
    simpl. apply IH.
  - rewrite filter_cons_True by exact Hskip. simpl.
    destruct (processLine host fuel workspaceRoot remote targetPath st line);
      simpl; auto.
Qed.

(** X2. Every list of a parsed diagnostic set holds at least one
    diagnostic, and each diagnostic is a warning of source PHPStan on one
    line with a line number of at least 0, from column 0 to column
    1000. *)
Theorem diagnostics_are_full_line_warnings (host : Host) (fuel : nat)
        (workspaceRoot remote : string) (targetPath : option string)
        (stdout : string) (ds : DiagnosticSet)
        (file : string) (diags : list Diagnostic) :
  parseReport host fuel workspaceRoot remote targetPath stdout = Ok ds ->
  ds !! file = Some diags ->
  diags <> [] /\ Forall fullLineWarning diags.
Proof.
  unfold parseReport.
  destruct (scan host fuel workspaceRoot remote targetPath initialState
              (JSString.split "010" stdout)) as [st| | |] eqn:Hscan;
    simpl; try discriminate.
  intros [= <-] Hfile. split.
  - exact (noEmptyList_scan host fuel workspaceRoot remote targetPath _ _ _
             Hscan noEmptyList_empty file diags Hfile).
  - destruct (scan_appends_rows host fuel workspaceRoot remote targetPath
                _ initialState st file Hscan) as (added & Hadded & Hsub).
    rewrite Hfile in Hadded. simpl in Hadded. rewrite lookup_empty in Hadded.
    simpl in Hadded. subst added.
    exact (Forall_sublist _ _ _ Hsub (reportRows_fullLineWarning _)).
Qed.

Lemma diagnostics_are_full_line_warnings_witness :
  [warningAt 11 "Undefined method foo()."; warningAt 29 "Dead code."] <> []
  /\ Forall fullLineWarning
            [warningAt 11 "Undefined method foo()."; warningAt 29 "Dead code."].
Proof.
  apply (diagnostics_are_full_line_warnings Hosts.project 8 "/ws" "/var/www/html"
           (Some "/ws/src/Foo.php") (report Reports.remoteLines)
           {[ "/ws/src/Foo.php" :=
                [warningAt 11 "Undefined method foo()."; warningAt 29 "Dead code."] ]}
           "/ws/src/Foo.php").
  - vm_compute. reflexivity.
  - apply lookup_singleton_eq.
Defined.

(** ** The summary *)

Section Summary.
Import JSString RegExp.

Lemma totalErrors_insert (file : string) (diags : list Diagnostic)
      (ds : DiagnosticSet) :
  ds !! file = None ->
  totalErrors (<[file := diags]> ds) = (totalErrors ds + length diags)%nat.
Proof.
  intros Hnone. unfold totalErrors.
  rewrite map_fold_insert_L; [reflexivity | | exact Hnone].
  intros; lia.
Qed.

Lemma totalErrors_delete (file : string) (diags : list Diagnostic)
      (ds : DiagnosticSet) :
  ds !! file = Some diags ->
  totalErrors ds = (totalErrors (delete file ds) + length diags)%nat.
Proof.
  intros Hsome. unfold totalErrors.
  rewrite (map_fold_delete_L _ _ file diags ds); [reflexivity | | exact Hsome].
  intros; lia.
Qed.

Lemma totalErrors_push (file : string) (d : Diagnostic) (ds : DiagnosticSet) :
  totalErrors (push file d ds) = S (totalErrors ds).
Proof.
  unfold push. destruct (ds !! file) as [diags|] eqn:Hfile; simpl.
  - rewrite <- insert_delete_eq.
    rewrite totalErrors_insert by apply lookup_delete_eq.
    rewrite (totalErrors_delete file diags ds Hfile), length_app. simpl. lia.
  - rewrite totalErrors_insert by exact Hfile. simpl. lia.
Qed.

Lemma size_le_totalErrors (ds : DiagnosticSet) :
  noEmptyList ds -> (size ds <= totalErrors ds)%nat.
Proof.
  induction ds as [|file diags ds Hnone IH] using map_ind; intros Hlists.
  - rewrite map_size_empty. lia.
  - rewrite map_size_insert_None by exact Hnone.
    rewrite totalErrors_insert by exact Hnone.
    assert (Hdiags : diags <> [])
      by (apply (Hlists file); apply lookup_insert_eq).
    assert (Hrest : noEmptyList ds).
    { intros key l Hkey. apply (Hlists key).
      rewrite lookup_insert_ne; [exact Hkey|]. intros ->. congruence. }
    specialize (IH Hrest). destruct diags; [congruence|]. simpl. lia.
Qed.

End Summary.

(** X3. The summary of a parsed report is the message that no problems
    were found exactly when the diagnostic set is empty; otherwise it is
    the warning with the number of diagnostics and the number of files,
    and there are at least as many diagnostics as files. *)
Theorem summary_tells_empty_from_problems (host : Host) (fuel : nat)
        (workspaceRoot remote : string) (targetPath : option string)
        (stdout : string) (ds : DiagnosticSet) :
  parseReport host fuel workspaceRoot remote targetPath stdout = Ok ds ->
  (size ds <= totalErrors ds)%nat
  /\ (summaryOf ds = showInformationMessage noProblemsMessage <-> ds = ∅)
  /\ (ds <> ∅ ->
      summaryOf ds
      = showWarningMessage (problemsMessage (totalErrors ds) (size ds))).
Proof.
  unfold parseReport.
  destruct (scan host fuel workspaceRoot remote targetPath initialState
              (JSString.split "010" stdout)) as [st| | |] eqn:Hscan;
    simpl; try discriminate.
  intros [= <-].
  pose proof (noEmptyList_scan host fuel workspaceRoot remote targetPath _ _ _
                Hscan noEmptyList_empty) as Hlists.
  pose proof (size_le_totalErrors _ Hlists) as Hle.
  assert (Hwarn : diagnostics st <> ∅ ->
                  summaryOf (diagnostics st)
                  = showWarningMessage
                      (problemsMessage (totalErrors (diagnostics st))
                                       (size (diagnostics st)))).
  { intros Hne. apply map_size_non_empty_iff in Hne. unfold summaryOf.
    destruct (0 <? totalErrors (diagnostics st))%nat eqn:Hpos; [reflexivity|].
    apply Nat.ltb_ge in Hpos. lia. }
  split; [exact Hle|]. split; [|exact Hwarn]. split.
  - intros Hinfo. destruct (decide (diagnostics st = ∅)) as [|Hne]; [assumption|].
    rewrite (Hwarn Hne) in Hinfo. discriminate.
  - intros ->. unfold summaryOf. rewrite totalErrors_empty. reflexivity.
Qed.

Lemma summary_tells_empty_from_problems_witness :
  summaryOf ({[ "/ws/src/Foo.php" :=
                  [warningAt 11 "Undefined method foo()."; warningAt 29 "Dead code."] ]}
             : DiagnosticSet)
  = showWarningMessage (problemsMessage 2 1).
Proof.
  assert (Hparse :
    parseReport Hosts.project 8 "/ws" "/var/www/html" (Some "/ws/src/Foo.php")
                (report Reports.remoteLines)
    = Ok {[ "/ws/src/Foo.php" :=
              [warningAt 11 "Undefined method foo()."; warningAt 29 "Dead code."] ]})
    by (vm_compute; reflexivity).
  destruct (summary_tells_empty_from_problems Hosts.project 8 "/ws"
              "/var/www/html" (Some "/ws/src/Foo.php")
              (report Reports.remoteLines) _ Hparse) as (_ & _ & Hwarn).
  rewrite Hwarn.
  - vm_compute. reflexivity.
  - intros Hempty.
    apply (f_equal (fun m : DiagnosticSet => m !! "/ws/src/Foo.php")) in Hempty.
    rewrite lookup_singleton_eq, lookup_empty in Hempty. discriminate.
Defined.

(** ** From the first file line on *)

Section AfterFileLine.
Import JSString RegExp.

Variable host : Host.
Variable fuel : nat.
Variables workspaceRoot remote : string.
Variable targetPath : option string.

Local Abbreviation processLine' := (processLine host fuel workspaceRoot remote targetPath).
Local Abbreviation scan' := (scan host fuel workspaceRoot remote targetPath).
Local Abbreviation resolveFile' := (resolveFile host fuel workspaceRoot remote targetPath).

Lemma resolve_truthy (dir : string) (args : list string) :
  truthy (Path.resolve dir args) = true.
Proof.
  unfold Path.resolve.
  destruct (Path.resolveLoop (rev args ++ [dir]) EmptyString) as [p absolute].
  destruct absolute; [reflexivity|].
  destruct (truthy (Path.normalizeString p (negb false))) eqn:Hbody;
    [exact Hbody | reflexivity].
Qed.

Lemma isAbsolute_truthy (p : string) : Path.isAbsolute p = true -> truthy p = true.
Proof. destruct p; [discriminate | reflexivity]. Qed.

(** The resolution never answers the empty path. *)
Lemma resolveFile_truthy (containerFilePath file : string) :
  resolveFile' containerFilePath = Ok file -> truthy file = true.
Proof.
  assert (Hchain : resolveContainerPath host fuel workspaceRoot remote targetPath
                     containerFilePath = Ok file -> truthy file = true).
  { unfold resolveContainerPath.
    destruct (Path.isAbsolute containerFilePath && existsSync host containerFilePath)
      eqn:Hdirect.
    - intros [= <-]. apply andb_prop in Hdirect as [Habs _].
      exact (isAbsolute_truthy _ Habs).
    - match goal with
      | |- context [negb (existsSync host ?p)] =>
          assert (Hjoined : truthy p = true)
            by (destruct (startsWith remote containerFilePath); apply resolve_truthy);
          generalize dependent p; intros joined Hjoined
      end.
      destruct (negb (existsSync host joined)); [|intros [= <-]; exact Hjoined].
      destruct (findFileInWorkspace host fuel workspaceRoot
                  (Path.basename containerFilePath) targetPath)
        as [[found|]| | |]; simpl; try discriminate.
      + destruct (truthy found) eqn:Hfound; intros [= <-]; assumption.
      + intros [= <-]. exact Hjoined. }
  unfold resolveFile. destruct (knownFilePath host targetPath) as [known|].
  - destruct (truthy known) eqn:Hknown; [|exact Hchain].
    intros [= <-]. exact Hknown.
  - exact Hchain.
Qed.

(** With a current file, every row counts. *)
Lemma scan_counts (lines : list string) (st st' : ScanState) :
  truthy (currentFile st) = true ->
  scan' st lines = Ok st' ->
  truthy (currentFile st') = true
  /\ totalErrors (diagnostics st')
     = (totalErrors (diagnostics st) + length (reportRows lines))%nat.
Proof.
  revert st. induction lines as [|line lines IH]; intros st Hcur; simpl.
  - intros [= <-]. split; [exact Hcur | unfold reportRows; simpl; lia].
  - destruct (processLine' st line) as [st1| | |] eqn:Hstep; simpl; try discriminate.
    intros Hscan. rewrite processLine_classify in Hstep.
    unfold reportRows, rowOf in *. simpl.
    destruct (classify line) as [| |errorMatch|fileMatch|];
      try (injection Hstep as <-; exact (IH st Hcur Hscan)).
    + cbv zeta in Hstep. rewrite Hcur in Hstep. simpl in Hstep. cbv zeta.
      destruct (0 <=? parseInt (group 1 errorMatch) - 1); simpl in Hstep |- *;
        [|injection Hstep as <-; exact (IH st Hcur Hscan)].
      destruct (truthy (trim (group 2 errorMatch)));
        [|rewrite andb_false_r; discriminate].
      destruct (heldExactly (parseInt (group 1 errorMatch) - 1));
        [|discriminate].
      injection Hstep as <-.
      apply IH in Hscan as [Hcur' Htotal]; [|exact Hcur].
      split; [exact Hcur'|].
      rewrite Htotal. simpl. rewrite totalErrors_push. lia.
    + destruct (resolveFile' (group 1 fileMatch)) as [file| | |] eqn:Hfile;
        simpl in Hstep; try discriminate.
      injection Hstep as <-.
      apply IH in Hscan; [exact Hscan|].
      exact (resolveFile_truthy _ _ Hfile).
Qed.

End AfterFileLine.

(** X4. The number of diagnostics of a parsed report, the one the summary
    shows, is the number of rows with a line number of at least 1 that
    come after the first file line: once a file line has been met the
    current file is never empty again, so no later row is dropped. *)
Theorem rows_after_the_first_file_line_are_counted (host : Host) (fuel : nat)
        (workspaceRoot remote : string) (targetPath : option string)
        (stdout : string) (ds : DiagnosticSet)
        (before after : list string) (fileLine : string) :
  JSString.split lineFeed stdout = before ++ fileLine :: after ->
  Forall (fun line => isFileLine line = false) before ->
  isFileLine fileLine = true ->
  parseReport host fuel workspaceRoot remote targetPath stdout = Ok ds ->
  totalErrors ds = length (reportRows after).
Proof.
  intros Hsplit Hbefore Hfile. unfold parseReport. fold lineFeed.
  rewrite Hsplit, scan_app.
  rewrite (scan_no_file host fuel workspaceRoot remote targetPath
             initialState before eq_refl Hbefore).
  simpl. rewrite processLine_classify. unfold isFileLine in Hfile.
  destruct (classify fileLine) as [| | |fileMatch|]; try discriminate.
  destruct (resolveFile host fuel workspaceRoot remote targetPath
              (group 1 fileMatch)) as [file| | |] eqn:Hresolve;
    simpl; try discriminate.
  destruct (scan host fuel workspaceRoot remote targetPath _ after)
    as [st| | |] eqn:Hscan; simpl; try discriminate.
  intros [= <-].
  apply scan_counts in Hscan as [_ Htotal].
  - rewrite Htotal. simpl. rewrite totalErrors_empty. reflexivity.
  - simpl. exact (resolveFile_truthy host fuel workspaceRoot remote targetPath
                    _ _ Hresolve).
Qed.

Lemma rows_after_the_first_file_line_are_counted_witness :
  totalErrors ({[ "/ws/lib/Bar.php" :=
                    [warningAt 11 "Undefined method foo()."; warningAt 29 "Dead code."] ]}
               : DiagnosticSet)
  = 2%nat.
Proof.
  apply (rows_after_the_first_file_line_are_counted Hosts.bare 8 "/ws"
           "/var/www/html" None (report Reports.remoteLines) _
           [" ------ ------------------------------ "]
           [" ------ ------------------------------ ";
            "  12     Undefined method foo().";
            "  30     Dead code.";
            " ------ ------------------------------ "]
           "  Line   /var/www/html/lib/Bar.php").
  - vm_compute. reflexivity.
  - repeat constructor.
  - vm_compute. reflexivity.
  - vm_compute. reflexivity.
Defined.

(** X5. While the scan has a current file, lines up to the next file
    line that the loop gets through (no row with a blank text or with a
    number above 2^53) do not fail, leave the current file in place,
    append their rows to its list in the order of the report and touch
    no other file. *)
Theorem rows_go_to_the_current_file (host : Host) (fuel : nat)
        (workspaceRoot remote : string) (targetPath : option string)
        (st : ScanState) (lines : list string) :
  JSString.truthy (currentFile st) = true ->
  Forall (fun line => isFileLine line = false) lines ->
  Forall (fun line => regular line = true) lines ->
  exists st' : ScanState,
    scan host fuel workspaceRoot remote targetPath st lines = Ok st'
    /\ currentFile st' = currentFile st
    /\ default [] (diagnostics st' !! currentFile st)
       = default [] (diagnostics st !! currentFile st) ++ reportRows lines
    /\ forall other, other <> currentFile st ->
                     diagnostics st' !! other = diagnostics st !! other.
Proof.
  intros Hcur Hfiles Hregular. revert st Hcur.
  induction lines as [|line lines IH]; intros st Hcur; simpl.
  - exists st. unfold reportRows. simpl. rewrite app_nil_r. auto.
  - inversion Hfiles as [|? ? Hfile Hfiles']; subst.
    inversion Hregular as [|? ? Hline Hregular']; subst.
    specialize (IH Hfiles' Hregular').
    rewrite processLine_classify. unfold reportRows, rowOf, isFileLine, regular in *.
    simpl. destruct (classify line) as [| |errorMatch|fileMatch|];
      try discriminate; try exact (IH st Hcur).
    cbv zeta in Hline |- *. rewrite Hcur. simpl.
    destruct (0 <=? JSString.parseInt (group 1 errorMatch) - 1);
      simpl in Hline |- *; [|exact (IH st Hcur)].
    apply andb_prop in Hline as [Hheld Htext]. rewrite Hheld, Htext. simpl.
    edestruct IH as (st' & Hscan & Hsame & Hrows & Hother);
      [|exists st'; split; [exact Hscan|]]; [exact Hcur|].
    simpl in *. split; [exact Hsame|]. split.
    + rewrite Hrows, push_lookup, decide_True by reflexivity.
      rewrite <- app_assoc. reflexivity.
    + intros other Hne. rewrite (Hother other Hne). unfold push.
      rewrite lookup_insert_ne by congruence. reflexivity.
Qed.

Lemma rows_go_to_the_current_file_witness :
  exists st' : ScanState,
    scan Hosts.locked 0 "/ws" "/var/www/html" None Reports.stateInFoo
         Reports.orphanLines = Ok st'
    /\ currentFile st' = "/ws/src/Foo.php"
    /\ default [] (diagnostics st' !! "/ws/src/Foo.php")
       = [] ++ [warningAt 11 "Undefined method foo()."; warningAt 6 "Dead code."]
    /\ forall other, other <> "/ws/src/Foo.php" ->
                     diagnostics st' !! other = (∅ : DiagnosticSet) !! other.
Proof.
  apply (rows_go_to_the_current_file Hosts.locked 0 "/ws" "/var/www/html" None
           Reports.stateInFoo Reports.orphanLines).
  - reflexivity.
  - repeat constructor.
  - unfold Reports.orphanLines.
    repeat (constructor; [vm_compute; reflexivity|]). constructor.
Defined.

(** ** The rows of the known file *)

Section KnownRows.
Import JSString RegExp.

Variable host : Host.
Variable fuel : nat.
Variables workspaceRoot remote : string.
Variable known : string.

Hypothesis known_php : endsWith ".php" known = true.
Hypothesis known_exists : existsSync host known = true.

Lemma scan_known_rows (lines : list string) (st : ScanState) :
  currentFile st = known ->
  Forall (fun line => regular line = true) lines ->
  exists st',
    scan host fuel workspaceRoot remote (Some known) st lines = Ok st'
    /\ currentFile st' = known
    /\ default [] (diagnostics st' !! known)
       = default [] (diagnostics st !! known) ++ reportRows lines
    /\ forall other, other <> known ->
                     diagnostics st' !! other = diagnostics st !! other.
Proof.
  pose proof (known_truthy known known_php) as Htruthy.
  intros Hcur Hregular. revert st Hcur.
  induction Hregular as [|line lines Hline _ IH]; intros st Hcur; simpl.
  - exists st. unfold reportRows. simpl. rewrite app_nil_r. auto.
  - rewrite processLine_classify. unfold reportRows, rowOf, regular in *. simpl.
    destruct (classify line) as [| |errorMatch|fileMatch|];
      try exact (IH st Hcur).
    + cbv zeta in Hline |- *. rewrite Hcur, Htruthy. simpl.
      destruct (0 <=? parseInt (group 1 errorMatch) - 1);
        simpl in Hline |- *; [|exact (IH st Hcur)].
      apply andb_prop in Hline as [Hheld Htext]. rewrite Hheld, Htext. simpl.
      edestruct IH as (st' & Hscan & Hfile & Hrows & Hother);
        [|exists st'; split; [exact Hscan|]]; [reflexivity|].
      simpl in *. split; [exact Hfile|]. split.
      * rewrite Hrows, push_lookup, decide_True by reflexivity.
        rewrite <- app_assoc. reflexivity.
      * intros other Hne. rewrite (Hother other Hne). unfold push.
        rewrite lookup_insert_ne by congruence. reflexivity.
    + rewrite (resolveFile_known host fuel workspaceRoot remote known
                 known_php known_exists). simpl.
      destruct (IH {| diagnostics := diagnostics st; currentFile := known |}
                   eq_refl) as (st' & Hscan & Hrest).
      exists st'. split; [exact Hscan | exact Hrest].
Qed.

End KnownRows.

(** X6. When the target is one existing [.php] file and the loop gets
    through every line after the first file line (no row with a blank
    text or with a number above 2^53), the parse succeeds and its result
    is settled by the rows alone: the list of the target is the rows that
    come after the first file line, all of them and in their order,
    whatever the file lines name, and no other file has a list. *)
Theorem known_file_holds_the_rows_after_the_first_file_line
        (host : Host) (fuel : nat) (workspaceRoot remote known : string)
        (stdout : string) (before after : list string) (fileLine : string) :
  JSString.endsWith ".php" known = true ->
  existsSync host known = true ->
  JSString.split lineFeed stdout = before ++ fileLine :: after ->
  Forall (fun line => isFileLine line = false) before ->
  isFileLine fileLine = true ->
  Forall (fun line => regular line = true) after ->
  exists ds : DiagnosticSet,
    parseReport host fuel workspaceRoot remote (Some known) stdout = Ok ds
    /\ default [] (ds !! known) = reportRows after
    /\ forall other, other <> known -> ds !! other = None.
Proof.
  intros Hphp Hexists Hsplit Hbefore Hfile Hregular. unfold parseReport.
  fold lineFeed. rewrite Hsplit, scan_app.
  rewrite (scan_no_file host fuel workspaceRoot remote (Some known)
             initialState before eq_refl Hbefore).
  simpl. rewrite processLine_classify. unfold isFileLine in Hfile.
  destruct (classify fileLine) as [| | |fileMatch|]; try discriminate.
  rewrite (resolveFile_known host fuel workspaceRoot remote known Hphp Hexists).
  simpl.
  destruct (scan_known_rows host fuel workspaceRoot remote known Hphp Hexists
              after {| diagnostics := ∅; currentFile := known |} eq_refl
              Hregular)
    as (st & Hscan & _ & Hrows & Hother).
  rewrite Hscan. simpl. exists (diagnostics st). split; [reflexivity|].
  simpl in *. split.
  - rewrite Hrows, lookup_empty. reflexivity.
  - intros other Hne. rewrite (Hother other Hne). apply lookup_empty.
Qed.

Lemma known_file_holds_the_rows_after_the_first_file_line_witness :
  exists ds : DiagnosticSet,
    parseReport Hosts.project 0 "/ws" "/var/www/html" (Some "/ws/src/Foo.php")
                (report Reports.remoteLines) = Ok ds
    /\ default [] (ds !! "/ws/src/Foo.php")
       = reportRows [" ------ ------------------------------ ";
                     "  12     Undefined method foo().";
                     "  30     Dead code.";
                     " ------ ------------------------------ "]
    /\ forall other, other <> "/ws/src/Foo.php" -> ds !! other = None.
Proof.
  apply (known_file_holds_the_rows_after_the_first_file_line Hosts.project 0
           "/ws" "/var/www/html" "/ws/src/Foo.php" (report Reports.remoteLines)
           [" ------ ------------------------------ "]
           [" ------ ------------------------------ ";
            "  12     Undefined method foo().";
            "  30     Dead code.";
            " ------ ------------------------------ "]
           "  Line   /var/www/html/lib/Bar.php").
  - reflexivity.
  - reflexivity.
  - vm_compute. reflexivity.
  - repeat constructor.
  - vm_compute. reflexivity.
  - repeat (constructor; [vm_compute; reflexivity|]). constructor.
Defined.

(** ** Exceptions of the directory walk *)

Section Exceptions.
Import JSString RegExp.

Variable host : Host.
Variable fuel : nat.
Variables workspaceRoot remote : string.
Variable targetPath : option string.

(** A line that fails in every state makes the scan fail. *)
Lemma scan_stops_at (before after : list string) (line : string) (st st' : ScanState) :
  (forall st1 st2, processLine host fuel workspaceRoot remote targetPath st1 line
                   <> Ok st2) ->
  scan host fuel workspaceRoot remote targetPath st (before ++ line :: after)
  <> Ok st'.
Proof.
  intros Hline. rewrite scan_app.
  destruct (scan host fuel workspaceRoot remote targetPath st before) as [st1| | |];
    simpl; try discriminate.
  destruct (processLine host fuel workspaceRoot remote targetPath st1 line)
    as [st2| | |] eqn:Hstep; simpl; try discriminate.
  exfalso. exact (Hline st1 st2 Hstep).
Qed.

End Exceptions.

(** X7. A file line that needs the walk of a workspace root that cannot
    be listed makes the whole run fail: when the path of the file line is
    found neither as it is nor joined onto the workspace root, the
    exception of [readdirSync] leaves the parse without a result, whatever
    the lines before it collected and whatever follows, and the run ends
    in the error of the outer [catch], under exit code 0 as under exit
    code 1. *)
Theorem unreadable_root_fails_the_run (host : Host) (fuel : nat)
        (config : Config) (workspaceRoot stdout stderr : string)
        (before after : list string) (fileLine : string)
        (fileMatch : list string) :
  JSString.truthy workspaceRoot = true ->
  readdirSync host workspaceRoot = None ->
  JSString.split lineFeed stdout = before ++ fileLine :: after ->
  classify fileLine = FileLine fileMatch ->
  Path.isAbsolute (group 1 fileMatch) && existsSync host (group 1 fileMatch)
  = false ->
  existsSync host
    (if JSString.startsWith (workDirectory config) (group 1 fileMatch) then
       Path.resolve (cwd host)
         [workspaceRoot;
          JSString.stripLeadingSlash
            (JSString.substring (String.length (workDirectory config))
                                (group 1 fileMatch))]
     else Path.resolve (cwd host) [workspaceRoot; group 1 fileMatch])
  = false ->
  (forall ds, parseReport host (S fuel) workspaceRoot (workDirectory config)
                          None stdout <> Ok ds)
  /\ (forall r, interpret host (S fuel) config workspaceRoot None
                          (Resolved stdout stderr) <> Completed r)
  /\ (forall r, interpret host (S fuel) config workspaceRoot None
                          (Rejected (ExitCode 1) (Some stdout) (Some stderr))
                <> Completed r)
  /\ (before = [] ->
      interpret host (S fuel) config workspaceRoot None (Resolved stdout stderr)
      = ExecutionError).
Proof.
  intros Hroot Hreaddir Hsplit Hkind Hdirect Hjoined.
  assert (Hresolve :
    resolveFile host (S fuel) workspaceRoot (workDirectory config) None
                (group 1 fileMatch) = Throw).
  { unfold resolveFile, knownFilePath, resolveContainerPath.
    rewrite Hdirect, Hjoined. simpl.
    unfold findFileInWorkspace, searchRootOf. simpl.
    rewrite Hroot. simpl. rewrite Hreaddir. reflexivity. }
  assert (Hline : forall st1 st2,
             processLine host (S fuel) workspaceRoot (workDirectory config) None
                         st1 fileLine <> Ok st2).
  { intros st1 st2. rewrite processLine_classify, Hkind, Hresolve. discriminate. }
  assert (Hparse : forall ds,
             parseReport host (S fuel) workspaceRoot (workDirectory config)
                         None stdout <> Ok ds).
  { intros ds. unfold parseReport. fold lineFeed. rewrite Hsplit.
    destruct (scan host (S fuel) workspaceRoot (workDirectory config) None
                   initialState (before ++ fileLine :: after)) as [st| | |] eqn:Hscan;
      simpl; try discriminate.
    exfalso. exact (scan_stops_at host (S fuel) workspaceRoot
                      (workDirectory config) None before after fileLine
                      initialState st Hline Hscan). }
  assert (Hrun : forall r err,
             finish (processPhpstanOutput host (S fuel) stdout err workspaceRoot
                       (workDirectory config) None) <> Completed r).
  { intros r err. unfold processPhpstanOutput.
    destruct (parseReport host (S fuel) workspaceRoot (workDirectory config)
                None stdout) as [ds| | |] eqn:Hds; simpl; try discriminate.
    exfalso. exact (Hparse ds eq_refl). }
  split; [exact Hparse|]. split; [intros r; apply Hrun|].
  split; [intros r; apply Hrun|].
  intros ->. simpl. unfold processPhpstanOutput, parseReport. fold lineFeed.
  rewrite Hsplit. simpl. rewrite processLine_classify, Hkind, Hresolve.
  reflexivity.
Qed.

Lemma unreadable_root_fails_the_run_witness :
  interpret Hosts.locked 1 Hosts.config "/ws" None
            (Resolved (report ["  Line   /var/www/html/lib/Bar.php";
                               "  12     Undefined method foo()."])
                      EmptyString)
  = ExecutionError.
Proof.
  apply (unreadable_root_fails_the_run Hosts.locked 0 Hosts.config "/ws"
           (report ["  Line   /var/www/html/lib/Bar.php";
                    "  12     Undefined method foo()."])
           EmptyString []
           ["  12     Undefined method foo()."]
           "  Line   /var/www/html/lib/Bar.php"
           ["/var/www/html/lib/Bar.php"]);
    reflexivity.
Defined.

(** ** The directory walk *)

Section Walk.
Import JSString RegExp.

Variable host : Host.

Lemma pop_Some (stack below : list string) (top : string) :
  pop stack = Some (top, below) -> stack = below ++ [top].
Proof.
  unfold pop. destruct (rev stack) as [|x l] eqn:Hrev; [discriminate|].
  intros [= <- <-]. rewrite <- (rev_involutive stack), Hrev. reflexivity.
Qed.

(** What the loop over the entries of a directory ends in. *)
Lemma scanEntries_result (dir fileName : string) (files stack : list string)
      (r : entries) :
  scanEntries host dir fileName files stack = Ok r ->
  match r with
  | Return fullPath =>
      fullPath = Path.join [dir; fileName]
      /\ In fileName files
      /\ statSync host fullPath = Some false
  | Continue stack' =>
      forall d, In d stack' ->
                In d stack
                \/ exists file, In file files
                                /\ d = Path.join [dir; file]
                                /\ statSync host d = Some true
  end.
Proof.
  revert stack. induction files as [|file files IH]; intros stack; simpl.
  - intros [= <-]. auto.
  - destruct (statSync host (Path.join [dir; file])) as [[|]|] eqn:Hstat;
      try discriminate.
    + intros Hscan. specialize (IH _ Hscan). destruct r as [fullPath|stack'].
      * destruct IH as (-> & Hin & Hfile). auto.
      * intros d Hd. destruct (IH d Hd) as [Hold | (f & Hf & -> & Hdir)].
        -- apply in_app_or in Hold as [Hold | [<- | []]]; [auto|].
           right. exists file. auto.
        -- right. exists f. auto.
    + destruct (String.eqb file fileName) eqn:Hname.
      * apply String.eqb_eq in Hname as ->. intros [= <-]. auto.
      * intros Hscan. specialize (IH _ Hscan). destruct r as [fullPath|stack'].
        -- destruct IH as (-> & Hin & Hfile). auto.
        -- intros d Hd. destruct (IH d Hd) as [Hold | (f & Hf & -> & Hdir)];
             [auto|]. right. exists f. auto.
Qed.

Lemma searchLoop_sound (start fileName found : string) (n : nat)
      (stack : list string) :
  (forall d, In d stack -> reachable host start d) ->
  searchLoop host n fileName stack = Ok (Some found) ->
  exists dir files,
    reachable host start dir
    /\ readdirSync host dir = Some files
    /\ In fileName files
    /\ found = Path.join [dir; fileName]
    /\ statSync host found = Some false.
Proof.
  revert stack. induction n as [|n IH]; intros stack Hstack; simpl.
  - destruct (pop stack) as [[dir below]|]; discriminate.
  - destruct (pop stack) as [[dir below]|] eqn:Hpop; [|discriminate].
    apply pop_Some in Hpop. subst stack.
    assert (Hbelow : forall d, In d below -> reachable host start d)
      by (intros d Hd; apply Hstack, in_or_app; auto).
    assert (Hdir : reachable host start dir)
      by (apply Hstack, in_or_app; right; left; reflexivity).
    destruct (negb (truthy dir)); [exact (IH below Hbelow)|].
    destruct (readdirSync host dir) as [files|] eqn:Hfiles; [|discriminate].
    destruct (scanEntries host dir fileName files below) as [r| | |] eqn:Hscan;
      simpl; try discriminate.
    apply scanEntries_result in Hscan. destruct r as [fullPath|stack'].
    + intros [= <-]. destruct Hscan as (-> & Hin & Hfile).
      exists dir, files. auto.
    + apply IH. intros d Hd.
      destruct (Hscan d Hd) as [Hold | (file & Hfile & -> & Hstat)]; [auto|].
      exact (reachable_entry host start dir file files Hdir Hfiles Hfile Hstat).
Qed.

Lemma scanEntries_direct (dir fileName : string) (files stack : list string) :
  (forall file, In file files -> statSync host (Path.join [dir; file]) <> None) ->
  In fileName files ->
  statSync host (Path.join [dir; fileName]) = Some false ->
  scanEntries host dir fileName files stack
  = Ok (Return (Path.join [dir; fileName])).
Proof.
  intros Hstat Hin Hfile. revert stack.
  induction files as [|file files IH]; intros stack; [destruct Hin|]. simpl.
  assert (Hrest : forall f, In f files ->
                            statSync host (Path.join [dir; f]) <> None)
    by (intros f Hf; apply Hstat; right; exact Hf).
  destruct (statSync host (Path.join [dir; file])) as [[|]|] eqn:Hentry.
  - destruct Hin as [-> | Hin]; [congruence|]. exact (IH Hrest Hin _).
  - destruct (String.eqb file fileName) eqn:Hname.
    + apply String.eqb_eq in Hname as ->. reflexivity.
    + apply String.eqb_neq in Hname.
      destruct Hin as [-> | Hin]; [congruence|]. exact (IH Hrest Hin _).
  - exfalso. apply (Hstat file); [left; reflexivity | exact Hentry].
Qed.

End Walk.

(** X8. A path found by [findFileInWorkspace] is the join of a directory
    and the name that was asked for: the directory is reached from the
    start of the walk through entries that are directories, it lists the
    name, and the path is not a directory. The walk starts at the target
    when the target is given, exists and is a directory; it starts at the
    workspace root when no target is given, when the target is empty or
    does not exist, and when the target is no directory. *)
Theorem found_file_has_the_name_and_is_reached (host : Host) (fuel : nat)
        (root fileName : string) (searchDir : option string) (found : string) :
  findFileInWorkspace host fuel root fileName searchDir = Ok (Some found) ->
  exists start dir files,
    ((searchDir = Some start
      /\ JSString.truthy start = true
      /\ existsSync host start = true
      /\ statSync host start = Some true)
     \/ (start = root
         /\ (searchDir = None
             \/ exists d,
                 searchDir = Some d
                 /\ (JSString.truthy d && existsSync host d = false
                     \/ statSync host d = Some false))))
    /\ reachable host start dir
    /\ readdirSync host dir = Some files
    /\ In fileName files
    /\ found = Path.join [dir; fileName]
    /\ statSync host found = Some false.
Proof.
  unfold findFileInWorkspace.
  destruct (searchRootOf host root searchDir) as [start| | |] eqn:Hstart;
    simpl; try discriminate.
  intros Hloop.
  destruct (searchLoop_sound host start fileName found fuel [start])
    as (dir & files & Hreach); [| exact Hloop |].
  - intros d [<- | []]. constructor.
  - exists start, dir, files. split; [|exact Hreach].
    unfold searchRootOf in Hstart. destruct searchDir as [d|].
    + destruct (JSString.truthy d && existsSync host d) eqn:Hguard.
      * destruct (statSync host d) as [[|]|] eqn:Hstat; try discriminate;
          injection Hstart as <-.
        -- apply andb_prop in Hguard as [Htruthy Hexists]. left. auto.
        -- right. split; [reflexivity|]. right. exists d. auto.
      * injection Hstart as <-. right. split; [reflexivity|]. right.
        exists d. auto.
    + injection Hstart as <-. right. auto.
Qed.

Lemma found_file_has_the_name_and_is_reached_witness :
  exists start dir files,
    ((Some "/ws/src" = Some start
      /\ JSString.truthy start = true
      /\ existsSync Hosts.project start = true
      /\ statSync Hosts.project start = Some true)
     \/ (start = "/ws"
         /\ (Some "/ws/src" = None
             \/ exists d,
                 Some "/ws/src" = Some d
                 /\ (JSString.truthy d && existsSync Hosts.project d = false
                     \/ statSync Hosts.project d = Some false))))
    /\ reachable Hosts.project start dir
    /\ readdirSync Hosts.project dir = Some files
    /\ In "Foo.php" files
    /\ "/ws/src/Foo.php" = Path.join [dir; "Foo.php"]
    /\ statSync Hosts.project "/ws/src/Foo.php" = Some false.
Proof.
  apply (found_file_has_the_name_and_is_reached Hosts.project 1 "/ws" "Foo.php"
           (Some "/ws/src") "/ws/src/Foo.php").
  reflexivity.
Defined.

(** X9. A file of the name asked for that lies in the start directory
    itself is what the walk returns, before any subdirectory is entered,
    as soon as the walk may take one turn and [statSync] answers for
    every entry of the start directory. *)
Theorem file_in_the_start_directory_is_found (host : Host) (fuel : nat)
        (root fileName : string) (files : list string) :
  JSString.truthy root = true ->
  readdirSync host root = Some files ->
  (forall file, In file files -> statSync host (Path.join [root; file]) <> None) ->
  In fileName files ->
  statSync host (Path.join [root; fileName]) = Some false ->
  findFileInWorkspace host (S fuel) root fileName None
  = Ok (Some (Path.join [root; fileName])).
Proof.
  intros Hroot Hfiles Hstat Hin Hfile.
  unfold findFileInWorkspace. simpl. rewrite Hroot. simpl. rewrite Hfiles.
  rewrite (scanEntries_direct host root fileName files [] Hstat Hin Hfile).
  reflexivity.
Qed.

Lemma file_in_the_start_directory_is_found_witness :
  findFileInWorkspace Hosts.project 1 "/ws/src" "Foo.php" None
  = Ok (Some "/ws/src/Foo.php").
Proof.
  apply (file_in_the_start_directory_is_found Hosts.project 0 "/ws/src"
           "Foo.php" ["Foo.php"]).
  - reflexivity.
  - reflexivity.
  - intros file [<- | []]. discriminate.
  - left. reflexivity.
  - reflexivity.
Defined.

(** ** The two regular expressions *)

Section Matching.
Import JSString RegExp.

Lemma append_cons (c : ascii) (a b : string) :
  String c a +:+ b = String c (a +:+ b).
Proof. reflexivity. Qed.

Lemma append_nil_l (a : string) : EmptyString +:+ a = a.
Proof. reflexivity. Qed.

Lemma append_assoc (a b c : string) : (a +:+ b) +:+ c = a +:+ (b +:+ c).
Proof.
  induction a as [|x a IH]; [reflexivity|].
  rewrite !append_cons, IH. reflexivity.
Qed.

Lemma append_nil_r (a : string) : a +:+ EmptyString = a.
Proof.
  induction a as [|x a IH]; [reflexivity|].
  rewrite append_cons, IH. reflexivity.
Qed.

Lemma length_append (a b : string) :
  String.length (a +:+ b) = (String.length a + String.length b)%nat.
Proof.
  induction a as [|x a IH]; [reflexivity|].
  rewrite append_cons. simpl. rewrite IH. reflexivity.
Qed.

Lemma substring_prefix (a b : string) :
  String.substring 0 (String.length a) (a +:+ b) = a.
Proof.
  induction a as [|x a IH].
  - rewrite append_nil_l. destruct b; reflexivity.
  - rewrite append_cons. simpl. rewrite IH. reflexivity.
Qed.

Lemma consumed_append (run rest : string) : consumed (run +:+ rest) rest = run.
Proof.
  unfold consumed. rewrite length_append.
  replace (String.length run + String.length rest - String.length rest)%nat
    with (String.length run) by lia.
  apply substring_prefix.
Qed.

Lemma matchHere_many_nil (n : nat) (cls : ascii -> bool) (r : regexp)
      (b : bool) (opens caps : list string) :
  matchHere (Many n cls :: r) b EmptyString opens caps
  = match n with
    | O => matchHere r b EmptyString opens caps
    | S _ => None
    end.
Proof. reflexivity. Qed.

Lemma matchHere_many_cons (n : nat) (cls : ascii -> bool) (r : regexp)
      (b : bool) (c : ascii) (s : string) (opens caps : list string) :
  matchHere (Many n cls :: r) b (String c s) opens caps
  = let stop := match n with
                | O => matchHere r b (String c s) opens caps
                | S _ => None
                end in
    if cls c then
      match matchHere (Many (Nat.pred n) cls :: r) false s opens caps with
      | Some res => Some res
      | None => stop
      end
    else stop.
Proof. reflexivity. Qed.

Lemma matchHere_lit (p : string) (r : regexp) (b : bool) (s : string)
      (opens caps : list string) :
  matchHere (Lit p :: r) b s opens caps
  = match stripLit p s with
    | Some s' => matchHere r (b && negb (truthy p)) s' opens caps
    | None => None
    end.
Proof. reflexivity. Qed.

(** A repetition that lets the pattern match took a run of its class. *)
Lemma many_inv (cls : ascii -> bool) (r : regexp) (opens caps res : list string)
      (s : string) (n : nat) (b : bool) :
  matchHere (Many n cls :: r) b s opens caps = Some res ->
  exists run rest b',
    s = run +:+ rest
    /\ every cls run = true
    /\ (n <= String.length run)%nat
    /\ matchHere r b' rest opens caps = Some res.
Proof.
  revert n b. induction s as [|c s IH]; intros n b.
  - rewrite matchHere_many_nil. destruct n; [|discriminate].
    intros H. exists EmptyString, EmptyString, b. auto.
  - rewrite matchHere_many_cons. cbv zeta.
    assert (Hstop : match n with
                    | O => matchHere r b (String c s) opens caps
                    | S _ => None
                    end = Some res ->
                    exists run rest b',
                      String c s = run +:+ rest
                      /\ every cls run = true
                      /\ (n <= String.length run)%nat
                      /\ matchHere r b' rest opens caps = Some res).
    { destruct n; [|discriminate]. intros H.
      exists EmptyString, (String c s), b. auto. }
    destruct (cls c) eqn:Hc; [|exact Hstop].
    destruct (matchHere (Many (Nat.pred n) cls :: r) false s opens caps)
      as [res'|] eqn:Hrec; [|exact Hstop].
    intros [= <-]. destruct (IH _ _ Hrec) as (run & rest & b' & -> & Hrun & Hn & Hr).
    exists (String c run), rest, b'. simpl. rewrite Hc, Hrun.
    repeat split; [lia | exact Hr].
Qed.

(** A repetition takes a whole run of its class when the pattern goes on
    from the end of the run. *)
Lemma many_intro (cls : ascii -> bool) (r : regexp) (opens caps res : list string)
      (run rest : string) (n : nat) (b : bool) :
  every cls run = true ->
  stopsAt cls rest = true ->
  (n <= String.length run)%nat ->
  matchHere r (b && negb (truthy run)) rest opens caps = Some res ->
  matchHere (Many n cls :: r) b (run +:+ rest) opens caps = Some res.
Proof.
  revert n b. induction run as [|c run IH]; intros n b Hrun Hstop Hn Hr.
  - rewrite append_nil_l. simpl in Hr, Hn. rewrite andb_true_r in Hr.
    destruct n; [|lia].
    destruct rest as [|c rest].
    + rewrite matchHere_many_nil. exact Hr.
    + rewrite matchHere_many_cons. cbv zeta. simpl in Hstop.
      apply negb_true_iff in Hstop. rewrite Hstop. exact Hr.
  - simpl in Hrun. apply andb_prop in Hrun as [Hc Hrun].
    rewrite append_cons, matchHere_many_cons. cbv zeta.
    rewrite Hc. rewrite (IH (Nat.pred n) false Hrun Hstop); [reflexivity | simpl in Hn; lia |].
    simpl in Hr. rewrite andb_false_r in Hr. exact Hr.
Qed.

Lemma search_inv (r : regexp) (s : string) (b : bool) (res : list string) :
  search r b s = Some res ->
  exists pre rest b',
    s = pre +:+ rest /\ matchHere r b' rest [] [] = Some res.
Proof.
  revert b. induction s as [|c s IH]; intros b; simpl.
  - destruct (matchHere r b EmptyString [] []) eqn:Hm; [|discriminate].
    intros [= <-]. exists EmptyString, EmptyString, b. auto.
  - destruct (matchHere r b (String c s) [] []) eqn:Hm.
    + intros [= <-]. exists EmptyString, (String c s), b. auto.
    + intros Hs. destruct (IH _ Hs) as (pre & rest & b' & -> & Hr).
      exists (String c pre), rest, b'. auto.
Qed.

Lemma search_bol_false (r : regexp) (s : string) : search (Bol :: r) false s = None.
Proof. induction s as [|c s IH]; simpl; [reflexivity | exact IH]. Qed.

Lemma exec_bol (r : regexp) (s : string) :
  exec (Bol :: r) s = matchHere r true s [] [].
Proof.
  unfold exec. destruct s as [|c s]; simpl.
  - destruct (matchHere r true EmptyString [] []); reflexivity.
  - destruct (matchHere r true (String c s) [] []); [reflexivity|].
    apply search_bol_false.
Qed.

Lemma stripLit_Some (p s rest : string) :
  stripLit p s = Some rest -> s = p +:+ rest.
Proof.
  revert s. induction p as [|a p IH]; intros s; simpl.
  - intros [= ->]. reflexivity.
  - destruct s as [|c s]; [discriminate|].
    destruct (Ascii.eqb a c) eqn:Hac; [|discriminate].
    apply Ascii.eqb_eq in Hac as ->. intros H. rewrite (IH _ H). reflexivity.
Qed.

(** What a line that matches the regular expression of the rows is
    made of. *)
Lemma errorRegex_inv (line : string) (errorMatch : list string) :
  exec errorRegex line = Some errorMatch ->
  exists indent digits gap text,
    line = indent +:+ digits +:+ gap +:+ text
    /\ errorMatch = [digits; text]
    /\ every isWhiteSpace indent = true
    /\ every isDigit digits = true /\ (1 <= String.length digits)%nat
    /\ every isWhiteSpace gap = true /\ (1 <= String.length gap)%nat
    /\ every notLineTerminator text = true /\ (1 <= String.length text)%nat.
Proof.
  unfold errorRegex. rewrite exec_bol. intros H.
  apply many_inv in H as (indent & s1 & b1 & -> & Hindent & _ & H).
  change (matchHere (Many 1 isDigit :: Close :: Many 1 isWhiteSpace :: Open
                       :: Many 1 notLineTerminator :: Close :: [Eol])
                    b1 s1 [s1] [] = Some errorMatch) in H.
  apply many_inv in H as (digits & s2 & b2 & Hs1 & Hdigits & Hn1 & H).
  change (matchHere (Many 1 isWhiteSpace :: Open
                       :: Many 1 notLineTerminator :: Close :: [Eol])
                    b2 s2 [] ([] ++ [consumed s1 s2]) = Some errorMatch) in H.
  apply many_inv in H as (gap & s3 & b3 & Hs2 & Hgap & Hn2 & H).
  change (matchHere (Many 1 notLineTerminator :: Close :: [Eol])
                    b3 s3 [s3] ([] ++ [consumed s1 s2]) = Some errorMatch) in H.
  apply many_inv in H as (text & s4 & b4 & Hs3 & Htext & Hn3 & H).
  simpl in H. destruct s4; [|discriminate]. injection H as <-.
  rewrite append_nil_r in Hs3. subst s3. subst s2. subst s1.
  exists indent, digits, gap, text.
  rewrite consumed_append.
  replace (consumed text EmptyString) with text
    by (rewrite <- (append_nil_r text) at 2; symmetry; apply consumed_append).
  repeat split; auto.
Qed.

End Matching.

Section Classes.
Import JSString RegExp.

Lemma every_append (cls : ascii -> bool) (a b : string) :
  every cls (a +:+ b) = every cls a && every cls b.
Proof.
  induction a as [|x a IH]; [reflexivity|].
  rewrite append_cons. simpl. rewrite IH, andb_assoc. reflexivity.
Qed.

Lemma isDigit_not_isWhiteSpace (c : ascii) :
  isDigit c = true -> isWhiteSpace c = false.
Proof.
  unfold isDigit, isWhiteSpace. intros H. apply andb_prop in H as [Hlo Hhi].
  apply N.leb_le in Hlo. apply N.leb_le in Hhi.
  destruct (code c) as [|p]; [reflexivity|].
  do 8 (destruct p as [p|p|]; try reflexivity; try lia).
Qed.

Lemma isWhiteSpace_not_isDigit (c : ascii) :
  isWhiteSpace c = true -> isDigit c = false.
Proof.
  intros Hws. destruct (isDigit c) eqn:Hd; [|reflexivity].
  rewrite (isDigit_not_isWhiteSpace c Hd) in Hws. discriminate.
Qed.

Lemma digitValue_bounds (c : ascii) : isDigit c = true -> 0 <= digitValue c <= 9.
Proof.
  unfold isDigit, digitValue. intros H. apply andb_prop in H as [Hlo Hhi].
  apply N.leb_le in Hlo. apply N.leb_le in Hhi. lia.
Qed.

Lemma parseInt_nonneg (digits : string) :
  every isDigit digits = true -> 0 <= parseInt digits.
Proof.
  unfold parseInt.
  assert (Hfold : forall acc, 0 <= acc -> every isDigit digits = true ->
            0 <= fold_left (fun a c => a * 10 + digitValue c)
                           (list_ascii_of_string digits) acc).
  { induction digits as [|c digits IH]; intros acc Hacc Hall; simpl.
    - exact Hacc.
    - simpl in Hall. apply andb_prop in Hall as [Hc Hall].
      apply IH; [|exact Hall]. pose proof (digitValue_bounds c Hc). lia. }
  intros Hall. apply Hfold; [lia | exact Hall].
Qed.

Lemma trimStart_blanks (indent s : string) :
  every isWhiteSpace indent = true -> trimStart (indent +:+ s) = trimStart s.
Proof.
  induction indent as [|c indent IH]; intros Hall; [reflexivity|].
  simpl in Hall. apply andb_prop in Hall as [Hc Hall].
  rewrite append_cons. simpl. rewrite Hc. exact (IH Hall).
Qed.

Lemma trimEnd_truthy (c : ascii) (s : string) :
  isWhiteSpace c = false -> truthy (trimEnd (String c s)) = true.
Proof.
  intros Hc. simpl. destruct (trimEnd s); [rewrite Hc|]; reflexivity.
Qed.

(** A line with a character that is no blank is not blank. *)
Lemma trim_truthy (indent s : string) (c : ascii) :
  every isWhiteSpace indent = true -> isWhiteSpace c = false ->
  String.eqb (trim (indent +:+ String c s)) EmptyString = false.
Proof.
  intros Hindent Hc. unfold trim. rewrite (trimStart_blanks _ _ Hindent).
  simpl trimStart. rewrite Hc.
  pose proof (trimEnd_truthy c s Hc) as Htruthy.
  destruct (trimEnd (String c s)); [discriminate | reflexivity].
Qed.

Lemma last_of_append (a text s : string) (c : ascii) :
  a +:+ text = s +:+ String c EmptyString ->
  text <> EmptyString ->
  exists t, text = t +:+ String c EmptyString.
Proof.
  revert s. induction a as [|x a IH]; intros s Heq Htext.
  - exists s. exact Heq.
  - destruct s as [|y s].
    + rewrite append_cons, append_nil_l in Heq. injection Heq as _ Heq.
      destruct a; [|discriminate]. rewrite append_nil_l in Heq. congruence.
    + rewrite !append_cons in Heq. injection Heq as _ Heq. exact (IH s Heq Htext).
Qed.

Lemma endsWith_append (p a : string) : endsWith p (a +:+ p) = true.
Proof.
  induction a as [|x a IH].
  - rewrite append_nil_l. destruct p; simpl; [reflexivity|].
    rewrite Ascii.eqb_refl, String.eqb_refl. reflexivity.
  - rewrite append_cons. simpl. rewrite IH. apply orb_true_r.
Qed.

End Classes.

(** X10. A line that matches the regular expression of the rows is made
    of blanks, a run of at least one digit, at least one blank and a text
    of at least one character without line terminator, and nothing else;
    the first group is the digits, the second the text, and the number
    read from the digits is not negative, so the line number of the row
    is at least -1. *)
Theorem row_is_blanks_digits_blanks_text (line : string)
        (errorMatch : list string) :
  RegExp.exec errorRegex line = Some errorMatch ->
  exists indent digits gap text : string,
    line = indent +:+ digits +:+ gap +:+ text
    /\ group 1 errorMatch = digits
    /\ group 2 errorMatch = text
    /\ every JSString.isWhiteSpace indent = true
    /\ every JSString.isDigit digits = true /\ (1 <= String.length digits)%nat
    /\ every JSString.isWhiteSpace gap = true /\ (1 <= String.length gap)%nat
    /\ every JSString.notLineTerminator text = true
    /\ (1 <= String.length text)%nat
    /\ -1 <= JSString.parseInt (group 1 errorMatch) - 1.
Proof.
  intros Hmatch.
  destruct (errorRegex_inv line errorMatch Hmatch)
    as (indent & digits & gap & text & -> & -> & Hindent & Hdigits & Hn1
        & Hgap & Hn2 & Htext & Hn3).
  exists indent, digits, gap, text.
  pose proof (parseInt_nonneg digits Hdigits).
  change (group 1 [digits; text]) with digits.
  change (group 2 [digits; text]) with text.
  repeat split; auto. lia.
Qed.

Lemma row_is_blanks_digits_blanks_text_witness :
  exists indent digits gap text : string,
    "   12   Undefined method foo()." = indent +:+ digits +:+ gap +:+ text
    /\ group 1 ["12"; "Undefined method foo()."] = digits
    /\ group 2 ["12"; "Undefined method foo()."] = text
    /\ every JSString.isWhiteSpace indent = true
    /\ every JSString.isDigit digits = true /\ (1 <= String.length digits)%nat
    /\ every JSString.isWhiteSpace gap = true /\ (1 <= String.length gap)%nat
    /\ every JSString.notLineTerminator text = true
    /\ (1 <= String.length text)%nat
    /\ -1 <= JSString.parseInt (group 1 ["12"; "Undefined method foo()."]) - 1.
Proof.
  apply (row_is_blanks_digits_blanks_text "   12   Undefined method foo()."
           ["12"; "Undefined method foo()."]).
  vm_compute. reflexivity.
Defined.

(** X11. Blanks, a run of digits, blanks and a text that starts with a
    character that is no blank and holds no line terminator make a row:
    the regular expression matches the line with the digits and the text
    as its groups, and unless the line holds a run of six dashes it is
    classified as that row. When the number is at least 1 and at most
    2^53, the row stands for the diagnostic of the trimmed text on the
    line before the number, and with a current file the loop appends that
    diagnostic to the list of the current file. *)
Theorem blanks_digits_blanks_text_is_a_row (host : Host) (fuel : nat)
        (workspaceRoot remote : string) (targetPath : option string)
        (indent digits gap text : string) :
  every JSString.isWhiteSpace indent = true ->
  every JSString.isDigit digits = true -> (1 <= String.length digits)%nat ->
  every JSString.isWhiteSpace gap = true -> (1 <= String.length gap)%nat ->
  every JSString.notLineTerminator text = true ->
  (1 <= String.length text)%nat ->
  stopsAt JSString.isWhiteSpace text = true ->
  let line := indent +:+ digits +:+ gap +:+ text in
  RegExp.exec errorRegex line = Some [digits; text]
  /\ (isSeparator line = false ->
      classify line = Row [digits; text]
      /\ (1 <= JSString.parseInt digits <= 2 ^ 53 ->
          rowOf line
          = Some (warningAt (JSString.parseInt digits - 1)
                            (JSString.trim text))
          /\ forall st : ScanState,
              JSString.truthy (currentFile st) = true ->
              processLine host fuel workspaceRoot remote targetPath st line
              = Ok {| diagnostics :=
                        push (currentFile st)
                             (warningAt (JSString.parseInt digits - 1)
                                        (JSString.trim text))
                             (diagnostics st);
                      currentFile := currentFile st |})).
Proof.
  intros Hindent Hdigits Hn1 Hgap Hn2 Htext Hn3 Hstart line.
  assert (Hexec : RegExp.exec errorRegex line = Some [digits; text]).
  { unfold errorRegex, line. rewrite exec_bol.
    apply many_intro; [exact Hindent | | lia |].
    { destruct digits as [|d digits]; [simpl in Hn1; lia|].
      rewrite append_cons. simpl in *. apply andb_prop in Hdigits as [Hd _].
      rewrite (isDigit_not_isWhiteSpace d Hd). reflexivity. }
    change (RegExp.matchHere
              (RegExp.Many 1 JSString.isDigit :: RegExp.Close
                 :: RegExp.Many 1 JSString.isWhiteSpace :: RegExp.Open
                 :: RegExp.Many 1 JSString.notLineTerminator :: RegExp.Close
                 :: [RegExp.Eol])
              (true && negb (JSString.truthy indent))
              (digits +:+ gap +:+ text) [digits +:+ gap +:+ text] []
            = Some [digits; text]).
    apply many_intro; [exact Hdigits | | exact Hn1 |].
    { destruct gap as [|g gap]; [simpl in Hn2; lia|].
      rewrite append_cons. simpl in *. apply andb_prop in Hgap as [Hg _].
      rewrite (isWhiteSpace_not_isDigit g Hg). reflexivity. }
    change (RegExp.matchHere
              (RegExp.Many 1 JSString.isWhiteSpace :: RegExp.Open
                 :: RegExp.Many 1 JSString.notLineTerminator :: RegExp.Close
                 :: [RegExp.Eol])
              (true && negb (JSString.truthy indent)
               && negb (JSString.truthy digits))
              (gap +:+ text) []
              ([] ++ [RegExp.consumed (digits +:+ gap +:+ text) (gap +:+ text)])
            = Some [digits; text]).
    rewrite consumed_append.
    apply many_intro; [exact Hgap | exact Hstart | exact Hn2 |].
    rewrite <- (append_nil_r text) at 1.
    match goal with
    | |- RegExp.matchHere (RegExp.Open :: ?r) ?b ?s ?o ?k = ?res =>
        change (RegExp.matchHere r b s (s :: o) k = res)
    end.
    apply many_intro; [exact Htext | reflexivity | exact Hn3 |].
    simpl. rewrite consumed_append. reflexivity. }
  split; [exact Hexec|]. intros Hsep.
  assert (Hkind : classify line = Row [digits; text]).
  { unfold classify. rewrite Hsep, Hexec.
    destruct digits as [|d digits]; [simpl in Hn1; lia|].
    simpl in Hdigits. apply andb_prop in Hdigits as [Hd _].
    unfold line. rewrite append_cons.
    rewrite (trim_truthy indent _ d Hindent (isDigit_not_isWhiteSpace d Hd)).
    reflexivity. }
  split; [exact Hkind|]. intros [Hpos Hmax].
  assert (Hle : (0 <=? JSString.parseInt digits - 1) = true)
    by (apply Z.leb_le; lia).
  assert (Hheld : heldExactly (JSString.parseInt digits - 1) = true)
    by (apply Z.ltb_lt; lia).
  assert (Hmessage : JSString.truthy (JSString.trim text) = true).
  { destruct text as [|c text]; [simpl in Hn3; lia|]. simpl in Hstart.
    apply negb_true_iff in Hstart. unfold JSString.trim.
    simpl JSString.trimStart. rewrite Hstart.
    exact (trimEnd_truthy c text Hstart). }
  split.
  - unfold rowOf. rewrite Hkind. cbv zeta.
    change (group 1 [digits; text]) with digits.
    change (group 2 [digits; text]) with text.
    rewrite Hle, Hheld, Hmessage. reflexivity.
  - intros st Hcur. rewrite processLine_classify, Hkind. cbv zeta.
    change (group 1 [digits; text]) with digits.
    change (group 2 [digits; text]) with text.
    rewrite Hcur, Hle, Hheld, Hmessage. reflexivity.
Qed.

Lemma blanks_digits_blanks_text_is_a_row_witness :
  rowOf ("   " +:+ "12" +:+ "   " +:+ "Undefined method foo().  ")
  = Some (warningAt (JSString.parseInt "12" - 1)
                    (JSString.trim "Undefined method foo().  ")).
Proof.
  assert (Hone : forall n, (1 <= S n)%nat) by (intros n; lia).
  destruct (blanks_digits_blanks_text_is_a_row Hosts.bare 0 "/ws"
              "/var/www/html" None "   " "12" "   "
              "Undefined method foo().  " eq_refl eq_refl (Hone _) eq_refl
              (Hone _) eq_refl (Hone _) eq_refl) as [_ Hrow].
  destruct Hrow as [_ Hrow]; [reflexivity|].
  apply Hrow. vm_compute. split; discriminate.
Defined.

(** X12. A line that ends with a carriage return or a line feed is
    never a row: the text of a row runs to the end of the line and holds
    no line terminator. So a report whose lines all end with a carriage
    return, as with CRLF line ends, yields no diagnostic at all. *)
Theorem carriage_return_hides_the_rows (host : Host) (fuel : nat)
        (workspaceRoot remote : string) (targetPath : option string) :
  (forall (s : string) (c : ascii),
      JSString.isLineTerminator c = true ->
      RegExp.exec errorRegex (s +:+ String c EmptyString) = None
      /\ rowOf (s +:+ String c EmptyString) = None)
  /\ (forall (lines : list string) (st : ScanState),
        (forall line, In line lines ->
                      line = EmptyString
                      \/ exists s, line = s +:+ String carriageReturn EmptyString) ->
        scan host fuel workspaceRoot remote targetPath initialState lines = Ok st ->
        diagnostics st = ∅).
Proof.
  assert (Hexec : forall (s : string) (c : ascii),
             JSString.isLineTerminator c = true ->
             RegExp.exec errorRegex (s +:+ String c EmptyString) = None).
  { intros s c Hc.
    destruct (RegExp.exec errorRegex (s +:+ String c EmptyString))
      as [errorMatch|] eqn:Hmatch; [|reflexivity]. exfalso.
    destruct (errorRegex_inv _ _ Hmatch)
      as (indent & digits & gap & text & Hline & _ & _ & _ & _ & _ & _
          & Htext & Hn).
    rewrite <- !append_assoc in Hline. symmetry in Hline.
    apply last_of_append in Hline as [t ->];
      [|destruct text; [simpl in Hn; lia | discriminate]].
    rewrite every_append in Htext. apply andb_prop in Htext as [_ Htext].
    simpl in Htext. unfold JSString.notLineTerminator in Htext.
    rewrite Hc in Htext. discriminate. }
  assert (Hrow : forall (s : string) (c : ascii),
             JSString.isLineTerminator c = true ->
             rowOf (s +:+ String c EmptyString) = None).
  { intros s c Hc. unfold rowOf, classify. rewrite (Hexec s c Hc).
    destruct (String.eqb _ EmptyString); [reflexivity|].
    destruct (isSeparator _); [reflexivity|].
    destruct (JSString.includes ".php" _); [|reflexivity].
    destruct (RegExp.exec fileRegex _); reflexivity. }
  split; [intros s c Hc; split; auto|].
  intros lines st Hlines Hscan.
  assert (Hrows : reportRows lines = []).
  { unfold reportRows. clear Hscan.
    induction lines as [|line lines IH]; [reflexivity|]. simpl.
    assert (Hnone : rowOf line = None).
    { destruct (Hlines line) as [-> | [s ->]]; [left; reflexivity | reflexivity|].
      apply Hrow. reflexivity. }
    rewrite Hnone. apply IH. intros l Hl. apply Hlines. right. exact Hl. }
  apply map_empty. intros file.
  destruct (diagnostics st !! file) as [diags|] eqn:Hfile; [|reflexivity].
  exfalso.
  destruct (scan_appends_rows host fuel workspaceRoot remote targetPath
              lines initialState st file Hscan) as (added & Hadded & Hsub).
  rewrite Hrows in Hsub. apply sublist_nil_r in Hsub. subst added.
  rewrite Hfile in Hadded. simpl in Hadded. rewrite lookup_empty in Hadded.
  simpl in Hadded. subst diags.
  exact (noEmptyList_scan host fuel workspaceRoot remote targetPath _ _ _
           Hscan noEmptyList_empty file [] Hfile eq_refl).
Qed.

Lemma carriage_return_hides_the_rows_witness :
  parseReport Hosts.project 8 "/ws" "/var/www/html" (Some "/ws/src/Foo.php")
              (report Reports.terminalLines) = Ok ∅
  /\ forall st,
      scan Hosts.project 8 "/ws" "/var/www/html" (Some "/ws/src/Foo.php")
           initialState Reports.terminalLines = Ok st ->
      diagnostics st = ∅.
Proof.
  split; [vm_compute; reflexivity|].
  intros st.
  destruct (carriage_return_hides_the_rows Hosts.project 8 "/ws" "/var/www/html"
              (Some "/ws/src/Foo.php")) as [_ Hreport].
  apply Hreport. intros line Hline. right.
  unfold Reports.terminalLines in Hline. apply in_map_iff in Hline as (l & <- & _).
  exists l. reflexivity.
Defined.

(** X13. The path taken from a file line is a piece of the line without
    any blank in it that ends with [.php] after at least one other
    character: a path that holds a blank is cut at the blank. *)
Theorem file_token_has_no_blank (line : string) (fileMatch : list string) :
  RegExp.exec fileRegex line = Some fileMatch ->
  exists pre stem post : string,
    line = pre +:+ (stem +:+ ".php") +:+ post
    /\ group 1 fileMatch = stem +:+ ".php"
    /\ every JSString.notWhiteSpace (group 1 fileMatch) = true
    /\ JSString.endsWith ".php" (group 1 fileMatch) = true
    /\ (1 <= String.length stem)%nat.
Proof.
  unfold RegExp.exec, fileRegex. intros Hsearch.
  apply search_inv in Hsearch as (pre & s & b & -> & Hmatch).
  change (RegExp.matchHere
            (RegExp.Many 1 JSString.notWhiteSpace :: RegExp.Lit ".php"
               :: [RegExp.Close]) b s [s] [] = Some fileMatch) in Hmatch.
  apply many_inv in Hmatch as (stem & rest & b' & -> & Hstem & Hn & Hmatch).
  rewrite matchHere_lit in Hmatch.
  destruct (RegExp.stripLit ".php" rest) as [post|] eqn:Hlit; [|discriminate].
  apply stripLit_Some in Hlit as ->. simpl in Hmatch. injection Hmatch as <-.
  exists pre, stem, post.
  assert (Htoken : RegExp.consumed (stem +:+ ".php" +:+ post) post
                   = stem +:+ ".php").
  { rewrite <- append_assoc. apply consumed_append. }
  change (group 1 [RegExp.consumed (stem +:+ ".php" +:+ post) post])
    with (RegExp.consumed (stem +:+ ".php" +:+ post) post).
  rewrite Htoken, append_assoc. repeat split.
  - rewrite every_append, Hstem. reflexivity.
  - apply endsWith_append.
  - exact Hn.
Qed.

Lemma file_token_has_no_blank_witness :
  exists pre stem post : string,
    "  Line   /var/www/My Project/src/Foo.php  " = pre +:+ (stem +:+ ".php") +:+ post
    /\ group 1 ["Project/src/Foo.php"] = stem +:+ ".php"
    /\ every JSString.notWhiteSpace (group 1 ["Project/src/Foo.php"]) = true
    /\ JSString.endsWith ".php" (group 1 ["Project/src/Foo.php"]) = true
    /\ (1 <= String.length stem)%nat.
Proof.
  apply (file_token_has_no_blank "  Line   /var/www/My Project/src/Foo.php  "
           ["Project/src/Foo.php"]).
  vm_compute. reflexivity.
Defined.

(** ** Paths made of plain names *)

Section PlainPaths.
Import JSString.

Lemma slash_append (s : string) : "/" +:+ s = String "/" s.
Proof. reflexivity. Qed.

Lemma plainName_parts (s : string) :
  plainName s = true ->
  truthy s = true /\ s <> "." /\ s <> ".." /\ every plainChar s = true.
Proof.
  unfold plainName. intros H.
  apply andb_prop in H as [H Hchars]. apply andb_prop in H as [H Hdots].
  apply andb_prop in H as [Htruthy Hdot].
  apply negb_true_iff, String.eqb_neq in Hdot.
  apply negb_true_iff, String.eqb_neq in Hdots. auto.
Qed.

Lemma plainChar_notSlash (s : string) :
  every plainChar s = true -> every notSlash s = true.
Proof.
  induction s as [|c s IH]; [reflexivity|]. simpl. intros H.
  apply andb_prop in H as [Hc Hs]. unfold plainChar in Hc.
  apply andb_prop in Hc as [Hc _]. unfold notSlash. rewrite Hc. exact (IH Hs).
Qed.

Lemma plainName_notSlash (s : string) :
  plainName s = true -> every notSlash s = true.
Proof. intros H. apply plainChar_notSlash, (plainName_parts s H). Qed.

Lemma split_plain (x t : string) :
  every notSlash x = true ->
  split Path.sep (x +:+ String "/" t) = x :: split Path.sep t.
Proof.
  induction x as [|c x IH]; intros Hx.
  - reflexivity.
  - simpl in Hx. apply andb_prop in Hx as [Hc Hx].
    rewrite append_cons. simpl. unfold notSlash, Path.sep in *.
    apply negb_true_iff in Hc. rewrite Hc, (IH Hx). reflexivity.
Qed.

Lemma split_plain_end (x : string) :
  every notSlash x = true -> split Path.sep x = [x].
Proof.
  induction x as [|c x IH]; intros Hx; [reflexivity|].
  simpl in Hx. apply andb_prop in Hx as [Hc Hx].
  simpl. unfold notSlash, Path.sep in *.
  apply negb_true_iff in Hc. rewrite Hc, (IH Hx). reflexivity.
Qed.

Lemma join_cons (sep x y : string) (l : list string) :
  join sep (x :: y :: l) = x +:+ sep +:+ join sep (y :: l).
Proof. reflexivity. Qed.

Lemma split_join (names : list string) (t : string) :
  Forall (fun name => plainName name = true) names ->
  names <> [] ->
  split Path.sep (join "/" names +:+ String "/" t) = names ++ split Path.sep t.
Proof.
  intros Hall. induction Hall as [|x names Hx Hall IH]; intros Hne; [congruence|].
  destruct names as [|y names].
  - simpl join. apply split_plain, plainName_notSlash, Hx.
  - rewrite join_cons, !append_assoc, slash_append.
    rewrite split_plain by apply plainName_notSlash, Hx.
    rewrite IH by discriminate. reflexivity.
Qed.

Lemma split_join_end (names : list string) :
  Forall (fun name => plainName name = true) names ->
  names <> [] ->
  split Path.sep (join "/" names) = names.
Proof.
  intros Hall. induction Hall as [|x names Hx Hall IH]; intros Hne; [congruence|].
  destruct names as [|y names].
  - simpl join. apply split_plain_end, plainName_notSlash, Hx.
  - rewrite join_cons, slash_append.
    rewrite split_plain by apply plainName_notSlash, Hx.
    rewrite IH by discriminate. reflexivity.
Qed.

Lemma normalizeSegment_plain (allow : bool) (res : list string) (name : string) :
  plainName name = true ->
  Path.normalizeSegment allow res name = res ++ [name].
Proof.
  intros H. destruct (plainName_parts name H) as (Htruthy & Hdot & Hdots & _).
  unfold Path.normalizeSegment.
  destruct name; [discriminate|].
  apply String.eqb_neq in Hdot. apply String.eqb_neq in Hdots.
  rewrite Hdot, Hdots. reflexivity.
Qed.

Lemma normalize_plain (allow : bool) (names res : list string) :
  Forall (fun name => plainName name = true) names ->
  fold_left (Path.normalizeSegment allow) names res = res ++ names.
Proof.
  intros Hall. revert res.
  induction Hall as [|x names Hx Hall IH]; intros res; simpl.
  - rewrite app_nil_r. reflexivity.
  - rewrite (normalizeSegment_plain allow res x Hx), IH, <- app_assoc.
    reflexivity.
Qed.

(** The segments of an absolute path of plain names that goes on after
    a separator. *)
Lemma normalizeSegments_absolute (allow : bool) (names : list string) (t : string) :
  Forall (fun name => plainName name = true) names ->
  Path.normalizeSegments allow (absolutePath names +:+ "/" +:+ t)
  = fold_left (Path.normalizeSegment allow) (split Path.sep t) names.
Proof.
  intros Hall. unfold Path.normalizeSegments, absolutePath.
  rewrite !slash_append, append_cons.
  destruct names as [|x names].
  - reflexivity.
  - change (String "/" (join "/" (x :: names) +:+ String "/" t))
      with (EmptyString +:+ String "/" (join "/" (x :: names) +:+ String "/" t)).
    rewrite split_plain by reflexivity.
    rewrite split_join by (auto; discriminate).
    change (fold_left (Path.normalizeSegment allow)
              (EmptyString :: (x :: names) ++ split Path.sep t) [])
      with (fold_left (Path.normalizeSegment allow)
              ((x :: names) ++ split Path.sep t) []).
    rewrite fold_left_app, (normalize_plain allow (x :: names) [] Hall).
    reflexivity.
Qed.

Lemma join_truthy (names : list string) :
  Forall (fun name => plainName name = true) names ->
  names <> [] ->
  truthy (join "/" names) = true.
Proof.
  intros Hall Hne. destruct Hall as [|x names Hx Hall]; [congruence|].
  destruct (plainName_parts x Hx) as (Htruthy & _).
  destruct x; [discriminate|]. destruct names; reflexivity.
Qed.

Lemma join_not_absolute (names : list string) :
  Forall (fun name => plainName name = true) names ->
  Path.isAbsolute (join "/" names) = false.
Proof.
  intros Hall. destruct Hall as [|x names Hx Hall]; [reflexivity|].
  pose proof (plainName_notSlash x Hx) as Hslash.
  destruct (plainName_parts x Hx) as (Htruthy & _).
  destruct x as [|c x]; [discriminate|]. simpl in Hslash.
  apply andb_prop in Hslash as [Hc _]. unfold notSlash in Hc.
  apply negb_true_iff, Ascii.eqb_neq in Hc.
  assert (Hhead : forall rest, Path.isAbsolute (String c rest) = false).
  { intros rest. unfold Path.isAbsolute.
    destruct (Ascii.eqb_spec c "/") as [->|Hneq]; [congruence|].
    destruct c as [[] [] [] [] [] [] [] []]; try reflexivity. congruence. }
  destruct names; [apply Hhead|]. rewrite join_cons, append_cons. apply Hhead.
Qed.

Lemma join_app (a b : list string) :
  a <> [] -> b <> [] ->
  join "/" (a ++ b) = join "/" a +:+ "/" +:+ join "/" b.
Proof.
  intros Ha Hb. induction a as [|x a IH]; [congruence|].
  destruct a as [|y a].
  - destruct b; [congruence|]. reflexivity.
  - change ((x :: y :: a) ++ b) with (x :: (y :: a) ++ b).
    change ((y :: a) ++ b) with (y :: a ++ b) at 1.
    rewrite join_cons. change (y :: a ++ b) with ((y :: a) ++ b).
    rewrite IH by discriminate. rewrite join_cons, !append_assoc. reflexivity.
Qed.

(** [path.resolve] leaves an absolute path of plain names as it is, and
    joins a relative path of plain names onto it. *)
Lemma resolve_absolute (dir : string) (names : list string) :
  Forall (fun name => plainName name = true) names ->
  Path.resolve dir [absolutePath names] = absolutePath names.
Proof.
  intros Hall. unfold Path.resolve. simpl rev. simpl app.
  unfold Path.resolveLoop.
  change (truthy (absolutePath names)) with true.
  change (Path.isAbsolute (absolutePath names)) with true. cbv iota.
  unfold Path.normalizeString.
  rewrite (normalizeSegments_absolute _ names EmptyString Hall).
  reflexivity.
Qed.

Lemma resolve_onto (dir : string) (names more : list string) :
  Forall (fun name => plainName name = true) names ->
  Forall (fun name => plainName name = true) more ->
  more <> [] ->
  Path.resolve dir [absolutePath names; join "/" more]
  = absolutePath (names ++ more).
Proof.
  intros Hnames Hmore Hne. unfold Path.resolve. simpl rev. simpl app.
  unfold Path.resolveLoop.
  rewrite (join_truthy more Hmore Hne), (join_not_absolute more Hmore).
  change (truthy (absolutePath names)) with true.
  change (Path.isAbsolute (absolutePath names)) with true. cbv iota.
  unfold Path.normalizeString.
  rewrite (normalizeSegments_absolute _ names _ Hnames).
  rewrite (slash_append EmptyString), split_join by assumption.
  rewrite fold_left_app, (normalize_plain _ more names Hmore). reflexivity.
Qed.

End PlainPaths.

Section Mapping.
Import JSString.

Lemma filter_plain (names : list string) :
  Forall (fun name => plainName name = true) names ->
  filter (fun s => truthy s = true) names = names.
Proof.
  intros Hall. induction Hall as [|x names Hx Hall IH]; [reflexivity|].
  rewrite filter_cons_True by apply (plainName_parts x Hx).
  rewrite IH. reflexivity.
Qed.

Lemma segments_absolute (names : list string) :
  Forall (fun name => plainName name = true) names ->
  Path.segments (absolutePath names) = names.
Proof.
  intros Hall. unfold Path.segments, absolutePath. rewrite slash_append.
  change (String "/" (join "/" names))
    with (EmptyString +:+ String "/" (join "/" names)).
  rewrite split_plain by reflexivity.
  rewrite filter_cons_False by discriminate.
  destruct names as [|x names]; [reflexivity|].
  rewrite split_join_end by (auto; discriminate).
  apply filter_plain, Hall.
Qed.

Lemma dropCommon_prefix (a b : list string) :
  Path.dropCommon a (a ++ b) = ([], b).
Proof.
  induction a as [|x a IH]; simpl.
  - destruct b; reflexivity.
  - rewrite String.eqb_refl. exact IH.
Qed.

Lemma absolutePath_longer (a b : list string) :
  Forall (fun name => plainName name = true) a ->
  Forall (fun name => plainName name = true) b ->
  b <> [] ->
  absolutePath a <> absolutePath (a ++ b).
Proof.
  intros Ha Hb Hne Heq. apply (f_equal Path.segments) in Heq.
  rewrite !segments_absolute in Heq by (try apply Forall_app; auto).
  rewrite <- (app_nil_r a) in Heq at 1. apply app_inv_head in Heq. congruence.
Qed.

(** [path.relative] from a directory to a path below it. *)
Lemma relative_below (dir : string) (a b : list string) :
  Forall (fun name => plainName name = true) a ->
  Forall (fun name => plainName name = true) b ->
  b <> [] ->
  Path.relative dir (absolutePath a) (absolutePath (a ++ b)) = join "/" b.
Proof.
  intros Ha Hb Hne. unfold Path.relative.
  pose proof (absolutePath_longer a b Ha Hb Hne) as Hneq.
  apply String.eqb_neq in Hneq. rewrite Hneq.
  rewrite !resolve_absolute by (try apply Forall_app; auto).
  rewrite Hneq.
  rewrite !segments_absolute by (try apply Forall_app; auto).
  rewrite dropCommon_prefix. reflexivity.
Qed.

Lemma endsWith_cons (p : string) (c : ascii) (s : string) :
  endsWith p (String c s) = String.eqb (String c s) p || endsWith p s.
Proof. reflexivity. Qed.

Lemma endsWith_slash_plain (t name : string) :
  every notSlash name = true -> truthy name = true ->
  endsWith "/" (t +:+ name) = false.
Proof.
  intros Hname Htruthy.
  assert (Hbase : endsWith "/" name = false).
  { clear Htruthy. induction name as [|c name IH]; [reflexivity|].
    simpl in Hname. apply andb_prop in Hname as [Hc Hname].
    unfold notSlash in Hc. apply negb_true_iff, Ascii.eqb_neq in Hc.
    rewrite endsWith_cons, (IH Hname), orb_false_r.
    apply String.eqb_neq. congruence. }
  induction t as [|x t IH]; [exact Hbase|].
  rewrite append_cons, endsWith_cons, IH, orb_false_r.
  apply String.eqb_neq. intros Heq. injection Heq as _ Heq.
  destruct t; [|discriminate]. rewrite append_nil_l in Heq.
  rewrite Heq in Htruthy. discriminate.
Qed.

Lemma endsWith_slash_join (t : string) (names : list string) :
  Forall (fun name => plainName name = true) names ->
  names <> [] ->
  endsWith "/" (t +:+ join "/" names) = false.
Proof.
  intros Hall. revert t. induction Hall as [|x names Hx Hall IH]; intros t Hne;
    [congruence|].
  destruct names as [|y names].
  - simpl join. apply endsWith_slash_plain;
      [apply plainName_notSlash, Hx | apply (plainName_parts x Hx)].
  - rewrite join_cons, <- !append_assoc. apply IH. discriminate.
Qed.

(** [path.join] of an absolute directory and a relative path of plain
    names. *)
Lemma join_onto (names more : list string) :
  Forall (fun name => plainName name = true) names ->
  Forall (fun name => plainName name = true) more ->
  more <> [] ->
  Path.join [absolutePath names; join "/" more] = absolutePath (names ++ more).
Proof.
  intros Hnames Hmore Hne. unfold Path.join.
  rewrite filter_cons_True by reflexivity.
  rewrite filter_cons_True by exact (join_truthy more Hmore Hne).
  rewrite filter_nil. rewrite join_cons. simpl (join "/" [_]).
  unfold Path.normalize.
  assert (Hends : endsWith "/" (absolutePath names +:+ "/" +:+ join "/" more)
                  = false)
    by (rewrite <- append_assoc; apply endsWith_slash_join; assumption).
  rewrite Hends.
  change (Path.isAbsolute (absolutePath names +:+ "/" +:+ join "/" more))
    with true. cbv iota.
  unfold Path.normalizeString.
  rewrite (normalizeSegments_absolute _ names _ Hnames).
  rewrite split_join_end by assumption.
  rewrite (normalize_plain _ more names Hmore).
  assert (Hbody : truthy (join "/" (names ++ more)) = true).
  { apply join_truthy; [apply Forall_app; auto|].
    destruct names; [exact Hne | discriminate]. }
  unfold absolutePath at 1. rewrite slash_append, append_cons.
  destruct (join "/" (names ++ more)) eqn:Hjoin; [discriminate|].
  unfold absolutePath. rewrite Hjoin. reflexivity.
Qed.

Lemma backslashToSlash_plain (s : string) :
  every (fun c => negb (Ascii.eqb c "\")) s = true -> backslashToSlash s = s.
Proof.
  induction s as [|c s IH]; [reflexivity|]. simpl. intros H.
  apply andb_prop in H as [Hc Hs]. apply negb_true_iff in Hc.
  rewrite Hc, (IH Hs). reflexivity.
Qed.

Lemma plainName_no_backslash (s : string) :
  plainName s = true -> every (fun c => negb (Ascii.eqb c "\")) s = true.
Proof.
  intros H. destruct (plainName_parts s H) as (_ & _ & _ & Hchars).
  clear H. induction s as [|c s IH]; [reflexivity|]. simpl in *.
  apply andb_prop in Hchars as [Hc Hs]. unfold plainChar in Hc.
  apply andb_prop in Hc as [_ Hc]. rewrite Hc. exact (IH Hs).
Qed.

Lemma absolutePath_no_backslash (names : list string) :
  Forall (fun name => plainName name = true) names ->
  backslashToSlash (absolutePath names) = absolutePath names.
Proof.
  intros Hall. apply backslashToSlash_plain. unfold absolutePath.
  rewrite slash_append. simpl.
  induction Hall as [|x names Hx Hall IH]; [reflexivity|].
  destruct names as [|y names].
  - simpl join. apply plainName_no_backslash, Hx.
  - rewrite join_cons, !every_append, (plainName_no_backslash x Hx), IH.
    reflexivity.
Qed.

Lemma substring_append (a b : string) :
  substring (String.length a) (a +:+ b) = b.
Proof.
  induction a as [|x a IH]; [destruct b; reflexivity|].
  rewrite append_cons. simpl. exact IH.
Qed.

(** A path below a directory is the directory, then a separator unless
    the directory is the root, then the relative path. *)
Lemma absolutePath_app (names more : list string) :
  more <> [] ->
  exists tail,
    absolutePath (names ++ more) = absolutePath names +:+ tail
    /\ (tail = "/" +:+ join "/" more \/ (names = [] /\ tail = join "/" more)).
Proof.
  intros Hne. destruct names as [|x names].
  - exists (join "/" more). split; [reflexivity | right; auto].
  - exists ("/" +:+ join "/" more). split; [|left; reflexivity].
    unfold absolutePath. rewrite join_app by (auto; discriminate).
    rewrite !append_assoc. reflexivity.
Qed.

End Mapping.

Lemma container_path_chain (host : Host) (config : Config)
      (root remote below : list string) :
  workDirectory config = absolutePath remote ->
  Forall (fun name => plainName name = true) root ->
  Forall (fun name => plainName name = true) remote ->
  Forall (fun name => plainName name = true) below ->
  below <> [] ->
  containerPath host config (absolutePath root) (absolutePath (root ++ below))
  = absolutePath (remote ++ below).
Proof.
  intros Hremote Hroot Hwd Hbelow Hne. unfold containerPath.
  rewrite (relative_below (cwd host) root below Hroot Hbelow Hne), Hremote.
  rewrite (join_onto remote below Hwd Hbelow Hne).
  apply absolutePath_no_backslash, Forall_app. auto.
Qed.

(** X14. For a workspace root, a working directory of the container
    and a target below the workspace root that are absolute paths of
    plain names, the path handed to the analyzer is the working directory
    followed by the names that lead from the workspace root to the
    target. *)
Theorem container_path_of_a_target_below_the_root (host : Host) (config : Config)
        (root remote below : list string) :
  workDirectory config = absolutePath remote ->
  Forall (fun name => plainName name = true) root ->
  Forall (fun name => plainName name = true) remote ->
  Forall (fun name => plainName name = true) below ->
  below <> [] ->
  containerPath host config (absolutePath root) (absolutePath (root ++ below))
  = absolutePath (remote ++ below)
  /\ pathArgument host config (absolutePath root)
                  (Some (absolutePath (root ++ below)))
     = absolutePath (remote ++ below).
Proof.
  intros Hremote Hroot Hwd Hbelow Hne.
  assert (Hpath : containerPath host config (absolutePath root)
                                (absolutePath (root ++ below))
                  = absolutePath (remote ++ below)).
    by (apply container_path_chain; assumption).
  split; [exact Hpath|]. unfold pathArgument.
  change (JSString.truthy (absolutePath (root ++ below))) with true.
  exact Hpath.
Qed.

Lemma container_path_of_a_target_below_the_root_witness :
  containerPath Hosts.project Hosts.config (absolutePath ["ws"])
                (absolutePath (["ws"] ++ ["src"; "Foo.php"]))
  = absolutePath (["var"; "www"; "html"] ++ ["src"; "Foo.php"]).
Proof.
  apply (container_path_of_a_target_below_the_root Hosts.project Hosts.config
           ["ws"] ["var"; "www"; "html"] ["src"; "Foo.php"]).
  - reflexivity.
  - repeat constructor.
  - repeat constructor.
  - repeat constructor.
  - discriminate.
Defined.

Section FileLines.
Import JSString RegExp.

(** The pattern of the file lines finds no match that starts in the
    text in front of the path. *)
Lemma fileRegex_lead (pre rest : string) (n : nat) (b : bool)
      (opens caps : list string) :
  pre <> EmptyString -> leadsIn pre = true ->
  matchHere [Many n notWhiteSpace; Lit ".php"; Close] b (pre +:+ rest)
            opens caps = None.
Proof.
  revert n b. induction pre as [|c pre IH]; intros n b Hne Hlead; [congruence|].
  rewrite append_cons, matchHere_many_cons. cbv zeta.
  simpl in Hlead. apply andb_prop in Hlead as [Hdot Hlead].
  apply negb_true_iff in Hdot.
  assert (Hstop : match n with
                  | O => matchHere [Lit ".php"; Close] b
                                   (String c (pre +:+ rest)) opens caps
                  | S _ => None
                  end = None).
  { destruct n; [|reflexivity]. rewrite matchHere_lit.
    change (stripLit ".php" (String c (pre +:+ rest)))
      with (if Ascii.eqb "." c then stripLit "php" (pre +:+ rest) else None).
    rewrite Ascii.eqb_sym, Hdot. reflexivity. }
  rewrite Hstop. destruct pre as [|x pre].
  - unfold notWhiteSpace. rewrite Hlead. reflexivity.
  - rewrite (IH (Nat.pred n) false) by (discriminate || exact Hlead).
    destruct (notWhiteSpace c); reflexivity.
Qed.

Lemma search_cons (r : regexp) (b : bool) (c : ascii) (s : string) :
  search r b (String c s)
  = match matchHere r b (String c s) [] [] with
    | Some caps => Some caps
    | None => search r false s
    end.
Proof. reflexivity. Qed.

Lemma search_lead (pre rest : string) (b : bool) :
  leadsIn pre = true ->
  search fileRegex b (pre +:+ rest)
  = search fileRegex (b && negb (truthy pre)) rest.
Proof.
  revert b. induction pre as [|c pre IH]; intros b Hlead.
  - rewrite append_nil_l, andb_true_r. reflexivity.
  - assert (Hhere : matchHere fileRegex b (String c pre +:+ rest) [] [] = None)
      by (apply (fileRegex_lead (String c pre) rest 1 b); [discriminate | exact Hlead]).
    rewrite append_cons in *. rewrite search_cons, Hhere.
    rewrite andb_false_r. rewrite IH.
    + reflexivity.
    + simpl in Hlead. apply andb_prop in Hlead as [_ Hlead].
      destruct pre; [reflexivity | exact Hlead].
Qed.

Lemma search_here (r : regexp) (b : bool) (s : string) (caps : list string) :
  matchHere r b s [] [] = Some caps -> search r b s = Some caps.
Proof. intros H. destruct s; simpl; rewrite H; reflexivity. Qed.

(** The repetition takes the whole path and gives back its last four
    characters: the path up to the last [.php] is the token. *)
Lemma fileRegex_token (stem post : string) (n : nat) (b : bool)
      (o : string) (os caps : list string) :
  every notWhiteSpace stem = true ->
  (n <= String.length stem)%nat ->
  stopsAt notWhiteSpace post = true ->
  matchHere [Many n notWhiteSpace; Lit ".php"; Close] b
            (stem +:+ ".php" +:+ post) (o :: os) caps
  = Some (caps ++ [consumed o post]).
Proof.
  revert n b. induction stem as [|x stem IH]; intros n b Hstem Hn Hpost.
  - simpl in Hn. assert (n = O) by lia. subst n. rewrite append_nil_l.
    change (".php" +:+ post)
      with (String "." (String "p" (String "h" (String "p" post)))).
    assert (Hend : forall m k, matchHere [Many m notWhiteSpace; Lit ".php"; Close]
                               k post (o :: os) caps = None).
    { intros m k. destruct post as [|c post].
      - rewrite matchHere_many_nil. destruct m; reflexivity.
      - rewrite matchHere_many_cons. cbv zeta. simpl in Hpost.
        apply negb_true_iff in Hpost. rewrite Hpost.
        destruct m; [|reflexivity]. rewrite matchHere_lit.
        change (stripLit ".php" (String c post))
          with (if Ascii.eqb "." c then stripLit "php" post else None).
        destruct (Ascii.eqb_spec "." c) as [<-|]; [discriminate|reflexivity]. }
    rewrite matchHere_many_cons. cbv zeta.
    change (notWhiteSpace ".") with true. cbv iota.
    rewrite matchHere_many_cons. cbv zeta.
    change (notWhiteSpace "p") with true. cbv iota.
    rewrite matchHere_many_cons. cbv zeta.
    change (notWhiteSpace "h") with true. cbv iota.
    rewrite matchHere_many_cons. cbv zeta.
    change (notWhiteSpace "p") with true. cbv iota.
    rewrite Hend. rewrite !matchHere_lit.
    reflexivity.
  - simpl in Hstem. apply andb_prop in Hstem as [Hx Hstem].
    rewrite append_cons, matchHere_many_cons. cbv zeta. rewrite Hx.
    rewrite (IH (Nat.pred n) false Hstem) by (simpl in Hn; lia || exact Hpost).
    reflexivity.
Qed.

(** The token of a line that holds a path ending in [.php] between a
    text in which no file name starts and a blank or the end of the
    line. *)
Lemma fileRegex_exec (pre stem post : string) :
  leadsIn pre = true ->
  every notWhiteSpace stem = true ->
  (1 <= String.length stem)%nat ->
  stopsAt notWhiteSpace post = true ->
  exec fileRegex (pre +:+ (stem +:+ ".php") +:+ post)
  = Some [stem +:+ ".php"].
Proof.
  intros Hlead Hstem Hn Hpost. unfold exec. rewrite (search_lead _ _ _ Hlead).
  apply search_here.
  change (matchHere fileRegex (true && negb (truthy pre))
                    ((stem +:+ ".php") +:+ post) [] [])
    with (matchHere [Many 1 notWhiteSpace; Lit ".php"; Close]
                    (true && negb (truthy pre))
                    ((stem +:+ ".php") +:+ post)
                    [(stem +:+ ".php") +:+ post] []).
  rewrite (append_assoc stem ".php" post) at 1.
  rewrite (fileRegex_token stem post 1 _ _ [] [] Hstem Hn Hpost).
  rewrite consumed_append. reflexivity.
Qed.

(** A line that holds a character that is no blank is not blank. *)
Lemma trim_nonblank (a b : string) (c : ascii) :
  isWhiteSpace c = false ->
  String.eqb (trim (a +:+ String c b)) EmptyString = false.
Proof.
  intros Hc. unfold trim.
  assert (Hstart : exists a', trimStart (a +:+ String c b) = a' +:+ String c b).
  { induction a as [|x a IH].
    - exists EmptyString. rewrite !append_nil_l. simpl. rewrite Hc. reflexivity.
    - rewrite append_cons. simpl. destruct (isWhiteSpace x); [exact IH|].
      exists (String x a). rewrite append_cons. reflexivity. }
  destruct Hstart as [a' ->].
  assert (Hend : truthy (trimEnd (a' +:+ String c b)) = true).
  { induction a' as [|x a' IH].
    - rewrite append_nil_l. exact (trimEnd_truthy c b Hc).
    - rewrite append_cons. simpl.
      destruct (trimEnd (a' +:+ String c b)); [discriminate | reflexivity]. }
  destruct (trimEnd (a' +:+ String c b)); [discriminate | reflexivity].
Qed.

Lemma join_last (l : list string) (a b : string) :
  join "/" (l ++ [a +:+ b]) = join "/" (l ++ [a]) +:+ b.
Proof.
  induction l as [|x l IH]; [reflexivity|].
  destruct l as [|y l].
  - change (join "/" ([x] ++ [a +:+ b])) with (x +:+ "/" +:+ (a +:+ b)).
    change (join "/" ([x] ++ [a])) with (x +:+ "/" +:+ a).
    rewrite !append_assoc. reflexivity.
  - change ((x :: y :: l) ++ [a +:+ b]) with (x :: y :: (l ++ [a +:+ b])).
    change ((x :: y :: l) ++ [a]) with (x :: y :: (l ++ [a])).
    rewrite !join_cons.
    change (y :: l ++ [a +:+ b]) with ((y :: l) ++ [a +:+ b]).
    change (y :: l ++ [a]) with ((y :: l) ++ [a]).
    rewrite IH, !append_assoc. reflexivity.
Qed.

Lemma every_join (cls : ascii -> bool) (l : list string) :
  cls "/"%char = true ->
  Forall (fun name => every cls name = true) l ->
  every cls (join "/" l) = true.
Proof.
  intros Hsep Hall. induction Hall as [|x l Hx Hall IH]; [reflexivity|].
  destruct l as [|y l]; [exact Hx|].
  rewrite join_cons, !every_append, Hx, IH. simpl. rewrite Hsep. reflexivity.
Qed.

End FileLines.

(** X15. The mapping of paths goes there and back through the report.
    Take an existing file with a name that ends in [.php], below the
    workspace root; let the names of its path in the container hold no
    blank, and let that path be no path of the host (unless the two
    roots are the same). A line of the report that shows the container
    path, after a text in which no file name starts and before a blank
    or the end of the line, and that is neither a separator nor a row,
    gives the container path as its token and makes the file the current
    file, for a run on the file itself as for a run with no known file.
    No directory walk is needed. *)
Theorem container_path_resolves_back (host : Host) (fuel : nat) (config : Config)
        (root remote dirs : list string) (name pre post : string) :
  workDirectory config = absolutePath remote ->
  Forall (fun name => plainName name = true) root ->
  Forall (fun name => plainName name = true) remote ->
  Forall (fun name => plainName name = true) (dirs ++ [name +:+ ".php"]) ->
  Forall (fun name => every JSString.notWhiteSpace name = true)
         (remote ++ dirs ++ [name +:+ ".php"]) ->
  existsSync host (absolutePath (root ++ dirs ++ [name +:+ ".php"])) = true ->
  (existsSync host (absolutePath (remote ++ dirs ++ [name +:+ ".php"])) = true ->
   remote = root) ->
  leadsIn pre = true ->
  stopsAt JSString.notWhiteSpace post = true ->
  let local := absolutePath (root ++ dirs ++ [name +:+ ".php"]) in
  let sent := containerPath host config (absolutePath root) local in
  let line := pre +:+ sent +:+ post in
  isSeparator line = false ->
  RegExp.exec errorRegex line = None ->
  sent = absolutePath (remote ++ dirs ++ [name +:+ ".php"])
  /\ RegExp.exec fileRegex line = Some [sent]
  /\ forall (targetPath : option string) (st : ScanState),
      targetPath = Some local \/ knownFilePath host targetPath = None ->
      processLine host fuel (absolutePath root) (workDirectory config)
                  targetPath st line
      = Ok {| diagnostics := diagnostics st; currentFile := local |}.
Proof.
  intros Hremote Hroot Hwd Hbelow Hblank Hexists Hclash Hlead Hpost
         local sent line Hsep Hrow.
  set (below := dirs ++ [name +:+ ".php"]) in *.
  assert (Hne : below <> []) by (unfold below; destruct dirs; discriminate).
  assert (Hsent : sent = absolutePath (remote ++ below))
    by (apply container_path_chain; assumption).
  assert (Hchain : forall targetPath,
             resolveContainerPath host fuel (absolutePath root)
                                  (workDirectory config) targetPath sent
             = Ok local).
  { intros targetPath. unfold resolveContainerPath. rewrite Hsent.
    change (Path.isAbsolute (absolutePath (remote ++ below))) with true.
    rewrite andb_true_l.
    destruct (existsSync host (absolutePath (remote ++ below))) eqn:Hthere.
    - rewrite (Hclash eq_refl). reflexivity.
    - destruct (absolutePath_app remote below Hne) as (tail & Happ & Htail).
      rewrite Hremote, Happ.
      assert (Hstarts : JSString.startsWith (absolutePath remote)
                          (absolutePath remote +:+ tail) = true)
        by (apply startsWith_spec; eauto).
      rewrite Hstarts, substring_append.
      assert (Hstrip : JSString.stripLeadingSlash tail = JSString.join "/" below).
      { destruct Htail as [-> | [_ ->]]; [reflexivity|].
        pose proof (join_not_absolute below Hbelow) as Habs.
        destruct (JSString.join "/" below) as [|c rest]; [reflexivity|].
        unfold Path.isAbsolute in Habs. unfold JSString.stripLeadingSlash.
        destruct c as [[] [] [] [] [] [] [] []]; try reflexivity. discriminate. }
      rewrite Hstrip, (resolve_onto (cwd host) root below Hroot Hbelow Hne).
      rewrite Hexists. reflexivity. }
  assert (Hresolve : forall targetPath,
             targetPath = Some local \/ knownFilePath host targetPath = None ->
             resolveFile host fuel (absolutePath root) (workDirectory config)
                         targetPath sent = Ok local).
  { intros targetPath [-> | Hnone]; unfold resolveFile.
    - destruct (knownFilePath host (Some local)) as [known|] eqn:Hknown;
        [|apply Hchain].
      apply knownFilePath_spec in Hknown as ([= <-] & _ & _).
      reflexivity.
    - rewrite Hnone. apply Hchain. }
  set (stem := absolutePath (remote ++ dirs ++ [name])).
  assert (Hshape : sent = stem +:+ ".php").
  { rewrite Hsent. unfold below, stem, absolutePath.
    rewrite !app_assoc, join_last, append_assoc, <- !app_assoc. reflexivity. }
  assert (Hstem : every JSString.notWhiteSpace stem = true).
  { unfold stem, absolutePath. rewrite slash_append. simpl.
    apply every_join; [reflexivity|].
    unfold below in Hblank. rewrite app_assoc in Hblank. rewrite app_assoc.
    apply Forall_app in Hblank as [Hdirs Hname]. apply Forall_app.
    split; [exact Hdirs|]. constructor; [|constructor].
    apply Forall_inv in Hname. rewrite every_append in Hname.
    apply andb_prop in Hname as [Hname _]. exact Hname. }
  assert (Hlen : (1 <= String.length stem)%nat)
    by (unfold stem, absolutePath; rewrite slash_append; simpl; lia).
  assert (Htoken : RegExp.exec fileRegex line = Some [sent]).
  { unfold line. rewrite Hshape.
    rewrite <- (append_assoc pre (stem +:+ ".php") post).
    rewrite (append_assoc pre (stem +:+ ".php") post).
    exact (fileRegex_exec pre stem post Hlead Hstem Hlen Hpost). }
  split; [exact Hsent|]. split; [exact Htoken|].
  intros targetPath st Htarget.
  assert (Hkind : classify line = FileLine [sent]).
  { unfold classify. rewrite Hsep, Hrow, Htoken.
    assert (Hblankline : String.eqb (JSString.trim line) EmptyString = false).
    { unfold line. rewrite Hshape. unfold stem, absolutePath.
      rewrite slash_append, !append_cons.
      apply trim_nonblank. reflexivity. }
    rewrite Hblankline.
    assert (Hphp : JSString.includes ".php" line = true).
    { apply includes_spec. exists (pre +:+ stem), post. unfold line.
      rewrite Hshape, !append_assoc. reflexivity. }
    rewrite Hphp. reflexivity. }
  rewrite processLine_classify, Hkind.
  change (group 1 [sent]) with sent.
  rewrite (Hresolve targetPath Htarget). reflexivity.
Qed.

Lemma container_path_resolves_back_witness :
  processLine Hosts.project 0 (absolutePath ["ws"])
              (workDirectory Hosts.config) None Reports.stateInFoo
              ("  Line   "
               +:+ containerPath Hosts.project Hosts.config (absolutePath ["ws"])
                     (absolutePath (["ws"] ++ ["src"] ++ ["Foo" +:+ ".php"]))
               +:+ " ")
  = Ok {| diagnostics := diagnostics Reports.stateInFoo;
          currentFile := absolutePath (["ws"] ++ ["src"] ++ ["Foo" +:+ ".php"]) |}.
Proof.
  assert (Hplain : forall names,
             forallb plainName names = true ->
             Forall (fun name => plainName name = true) names).
  { induction names as [|x names IH]; simpl; intros H; constructor;
      apply andb_prop in H as [Hx Hnames]; auto. }
  assert (Hblank : forall names,
             forallb (every JSString.notWhiteSpace) names = true ->
             Forall (fun name => every JSString.notWhiteSpace name = true) names).
  { induction names as [|x names IH]; simpl; intros H; constructor;
      apply andb_prop in H as [Hx Hnames]; auto. }
  assert (Hclash : existsSync Hosts.project
                     (absolutePath (["var"; "www"; "html"]
                                    ++ ["src"] ++ ["Foo" +:+ ".php"]))
                   = true -> ["var"; "www"; "html"] = ["ws"])
    by (intros H; discriminate H).
  destruct (container_path_resolves_back Hosts.project 0 Hosts.config
              ["ws"] ["var"; "www"; "html"] ["src"] "Foo" "  Line   " " "
              eq_refl (Hplain ["ws"] eq_refl)
              (Hplain ["var"; "www"; "html"] eq_refl)
              (Hplain ["src"; "Foo.php"] eq_refl)
              (Hblank ["var"; "www"; "html"; "src"; "Foo.php"] eq_refl)
              eq_refl Hclash eq_refl eq_refl eq_refl eq_refl)
    as (_ & _ & Hline).
  exact (Hline None Reports.stateInFoo (or_intror eq_refl)).
Defined.

Section RootTarget.
Import JSString.

Lemma normalize_absolute (names : list string) :
  Forall (fun name => plainName name = true) names ->
  Path.normalize (absolutePath names) = absolutePath names.
Proof.
  intros Hall. destruct names as [|x names]; [reflexivity|].
  assert (Hne : x :: names <> []) by discriminate.
  unfold Path.normalize.
  assert (Hends : endsWith "/" (absolutePath (x :: names)) = false)
    by (apply endsWith_slash_join; assumption).
  rewrite Hends.
  change (Path.isAbsolute (absolutePath (x :: names))) with true. cbv iota.
  assert (Hbody : Path.normalizeString (absolutePath (x :: names)) (negb true)
                  = join "/" (x :: names)).
  { unfold Path.normalizeString, Path.normalizeSegments, absolutePath.
    rewrite slash_append.
    change (String "/" (join "/" (x :: names)))
      with (EmptyString +:+ String "/" (join "/" (x :: names))).
    rewrite split_plain by reflexivity.
    rewrite split_join_end by assumption.
    change (fold_left (Path.normalizeSegment (negb true))
              (EmptyString :: x :: names) [])
      with (fold_left (Path.normalizeSegment (negb true)) (x :: names) []).
    rewrite (normalize_plain _ (x :: names) [] Hall). reflexivity. }
  rewrite Hbody.
  pose proof (join_truthy (x :: names) Hall Hne) as Htruthy.
  unfold absolutePath at 1. rewrite slash_append.
  destruct (join "/" (x :: names)) eqn:Hjoin; [discriminate|].
  unfold absolutePath. rewrite Hjoin. reflexivity.
Qed.

Lemma every_backslashToSlash (s : string) :
  every (fun c => negb (Ascii.eqb c "\")) (backslashToSlash s) = true.
Proof.
  induction s as [|c s IH]; [reflexivity|]. simpl. rewrite IH, andb_true_r.
  destruct (Ascii.eqb c "\") eqn:Hc; [reflexivity|]. rewrite Hc. reflexivity.
Qed.

(** The path argument of a run on the workspace root itself. *)
Lemma pathArgument_root (host : Host) (config : Config)
      (workspaceRoot : string) (remote : list string) :
  truthy workspaceRoot = true ->
  workDirectory config = absolutePath remote ->
  Forall (fun name => plainName name = true) remote ->
  pathArgument host config workspaceRoot (Some workspaceRoot)
  = workDirectory config.
Proof.
  intros Hroot Hremote Hplain.
  unfold pathArgument, containerPath, Path.relative.
  rewrite Hroot, String.eqb_refl, Hremote. unfold Path.join.
  rewrite filter_cons_True by reflexivity.
  rewrite filter_cons_False by discriminate.
  rewrite filter_nil. simpl JSString.join.
  assert (Hnormal : Path.normalize (absolutePath remote) = absolutePath remote)
    by apply normalize_absolute, Hplain.
  unfold absolutePath at 1. rewrite slash_append. fold (absolutePath remote).
  change (String "/" (JSString.join "/" remote)) with (absolutePath remote).
  rewrite Hnormal. apply absolutePath_no_backslash, Hplain.
Qed.

End RootTarget.

(** X16. A run on the workspace root itself, which is what the
    directory command does when it is given no directory, composes the
    command of a run on the whole project, when the working directory of
    the container is an absolute path of plain names. *)
Theorem root_target_is_the_whole_project (host : Host) (config : Config)
        (workspaceRoot : string) (remote : list string) :
  JSString.truthy workspaceRoot = true ->
  workDirectory config = absolutePath remote ->
  Forall (fun name => plainName name = true) remote ->
  pathArgument host config workspaceRoot (Some workspaceRoot)
  = workDirectory config
  /\ dockerCommand host config workspaceRoot (Some workspaceRoot)
     = dockerCommand host config workspaceRoot None.
Proof.
  intros Hroot Hremote Hplain.
  assert (Hpath : pathArgument host config workspaceRoot (Some workspaceRoot)
                  = workDirectory config)
    by (apply (pathArgument_root host config workspaceRoot remote); assumption).
  split; [exact Hpath|].
  unfold dockerCommand, phpstanCommand. rewrite Hpath. reflexivity.
Qed.

Lemma root_target_is_the_whole_project_witness :
  dockerCommand Hosts.project Hosts.config "/ws" (Some "/ws")
  = dockerCommand Hosts.project Hosts.config "/ws" None.
Proof.
  apply (root_target_is_the_whole_project Hosts.project Hosts.config "/ws"
           ["var"; "www"; "html"]).
  - reflexivity.
  - reflexivity.
  - repeat constructor.
Defined.

(** X17. The path handed to the analyzer for a target never holds a
    backslash, whatever the target, the workspace root and the working
    directory are: every backslash, also one that is part of a file name
    of the host, has become a separator. *)
Theorem container_path_has_no_backslash (host : Host) (config : Config)
        (workspaceRoot targetPath : string) :
  every (fun c => negb (Ascii.eqb c "\"))
        (containerPath host config workspaceRoot targetPath) = true
  /\ (JSString.truthy targetPath = true ->
      every (fun c => negb (Ascii.eqb c "\"))
            (pathArgument host config workspaceRoot (Some targetPath)) = true).
Proof.
  split.
  - unfold containerPath. apply every_backslashToSlash.
  - intros Htruthy. unfold pathArgument. rewrite Htruthy.
    unfold containerPath. apply every_backslashToSlash.
Qed.

(** X18. A rejection of the command with anything but exit code 1 ends
    the run in the error of the outer [catch], whatever was captured; a
    rejection with exit code 1 that captured no standard output, or an
    empty one, is taken for a clean report: the run completes with no
    diagnostic and the message that no problems were found. *)
Theorem rejections_by_exit_code (host : Host) (fuel : nat) (config : Config)
        (workspaceRoot : string) (targetPath : option string)
        (code : ErrorCode) (stdout stderr : option string) :
  (code <> ExitCode 1 ->
   interpret host fuel config workspaceRoot targetPath
             (Rejected code stdout stderr) = ExecutionError)
  /\ (stdout = None \/ stdout = Some EmptyString ->
      interpret host fuel config workspaceRoot targetPath
                (Rejected (ExitCode 1) stdout stderr)
      = Completed {| applied := ∅;
                     summary := showInformationMessage noProblemsMessage;
                     consoleError :=
                       if JSString.truthy (orEmpty stderr)
                       then Some (orEmpty stderr) else None |}).
Proof.
  split.
  - intros Hcode. destruct code as [n|]; [|reflexivity].
    destruct n as [|p|p]; try reflexivity.
    destruct p; try reflexivity. congruence.
  - intros Hout.
    assert (Hempty : orEmpty stdout = EmptyString)
      by (destruct Hout as [-> | ->]; reflexivity).
    simpl. rewrite Hempty. unfold processPhpstanOutput. simpl.
    unfold summaryOf. rewrite totalErrors_empty. reflexivity.
Qed.

Lemma rejections_by_exit_code_witness :
  interpret Hosts.locked 0 Hosts.config "/ws" None
            (Rejected (ExitCode 2) (Some "  12   Row.") None) = ExecutionError
  /\ interpret Hosts.locked 0 Hosts.config "/ws" None
               (Rejected (ExitCode 1) None (Some "no such container"))
     = Completed {| applied := ∅;
                    summary := showInformationMessage noProblemsMessage;
                    consoleError := Some "no such container" |}.
Proof.
  destruct (rejections_by_exit_code Hosts.locked 0 Hosts.config "/ws" None
              (ExitCode 2) (Some "  12   Row.") None) as [Hother _].
  destruct (rejections_by_exit_code Hosts.locked 0 Hosts.config "/ws" None
              (ExitCode 1) None (Some "no such container")) as [_ Hone].
  split.
  - apply Hother. discriminate.
  - apply Hone. left. reflexivity.
Defined.

(** ** The commands *)

Section CommandFacts.
Import JSString.

Variable host : Host.
Variable fuel : nat.
Variable config : Config.

(** A completed run on an existing [.php] file has no key but the file. *)
Lemma runPhpstan_known (workspaceFolder : option string)
      (execAsync : string -> ExecResult) (known : string) (r : Processed) :
  endsWith ".php" known = true ->
  existsSync host known = true ->
  runPhpstan host fuel config workspaceFolder execAsync (Some known)
  = Completed r ->
  forall file, is_Some (applied r !! file) -> file = known.
Proof.
  intros Hphp Hexists. unfold runPhpstan.
  destruct workspaceFolder as [workspaceRoot|]; [|discriminate].
  destruct (truthy workspaceRoot); [|discriminate].
  assert (Hkeys : forall stdout stderr,
             finish (processPhpstanOutput host fuel stdout stderr workspaceRoot
                       (workDirectory config) (Some known)) = Completed r ->
             forall file, is_Some (applied r !! file) -> file = known).
  { intros stdout stderr. unfold processPhpstanOutput, parseReport.
    assert (Hinit : attributedToKnown known initialState).
    { split; [left; reflexivity|].
      intros file [x Hx]. simpl in Hx. rewrite lookup_empty in Hx.
      discriminate. }
    pose proof (scan_known host fuel workspaceRoot (workDirectory config) known
                  Hphp Hexists (split "010" stdout) initialState Hinit)
      as Hscan.
    destruct (scan host fuel workspaceRoot (workDirectory config) (Some known)
                   initialState (split "010" stdout)) as [st| | |];
      simpl; try discriminate.
    intros [= <-]. exact (proj2 Hscan). }
  unfold interpret.
  destruct (execAsync (dockerCommand host config workspaceRoot (Some known)))
    as [stdout stderr | code stdout stderr].
  - apply Hkeys.
  - destruct code as [n|]; [|discriminate].
    destruct n as [|p|p]; try discriminate.
    destruct p; try discriminate. apply Hkeys.
Qed.

End CommandFacts.

(** X19. The file command and the save listener start a run only on a
    file whose name ends in [.php], and then on that file. Without an
    active editor, or on a file of another name, the file command shows
    its warning and the listener does nothing; without [autoRun] the
    listener does nothing on any file; and a warning or nothing starts no
    run. When the file they run on exists on the host, every diagnostic
    of a completed run is attributed to that file. *)
Theorem php_file_commands_run_on_the_file (host : Host) (fuel : nat)
        (config : Config) (workspaceFolder : option string)
        (execAsync : string -> ExecResult) :
  (forall fileName,
      JSString.endsWith ".php" fileName = true ->
      runPhpstanFileCommand (Some fileName) = Run (Some fileName)
      /\ onSaveListener true fileName = Run (Some fileName))
  /\ runPhpstanFileCommand None
     = Warn "Por favor, abre un archivo PHP primero"
  /\ (forall fileName,
        JSString.endsWith ".php" fileName = false ->
        runPhpstanFileCommand (Some fileName)
        = Warn "Por favor, abre un archivo PHP primero"
        /\ onSaveListener true fileName = Idle)
  /\ (forall fileName, onSaveListener false fileName = Idle)
  /\ (forall text,
        perform host fuel config workspaceFolder execAsync (Warn text) = None)
  /\ perform host fuel config workspaceFolder execAsync Idle = None
  /\ (forall (c : Command) (fileName : string) (r : Processed),
        c = runPhpstanFileCommand (Some fileName)
        \/ c = onSaveListener true fileName ->
        existsSync host fileName = true ->
        perform host fuel config workspaceFolder execAsync c
        = Some (Completed r) ->
        forall file, is_Some (applied r !! file) -> file = fileName).
Proof.
  split; [|split; [|split; [|split; [|split; [|split]]]]].
  - intros fileName Hphp. unfold runPhpstanFileCommand, onSaveListener.
    rewrite Hphp. split; reflexivity.
  - reflexivity.
  - intros fileName Hphp. unfold runPhpstanFileCommand, onSaveListener.
    rewrite Hphp. split; reflexivity.
  - reflexivity.
  - reflexivity.
  - reflexivity.
  - intros c fileName r Hc Hexists.
    assert (Hrun : JSString.endsWith ".php" fileName = true ->
                   perform host fuel config workspaceFolder execAsync
                           (Run (Some fileName)) = Some (Completed r) ->
                   forall file, is_Some (applied r !! file) -> file = fileName).
    { intros Hphp [= Hcompleted].
      exact (runPhpstan_known host fuel config workspaceFolder execAsync
               fileName r Hphp Hexists Hcompleted). }
    destruct Hc as [-> | ->]; simpl;
      destruct (JSString.endsWith ".php" fileName) eqn:Hphp;
      try discriminate; exact (Hrun eq_refl).
Qed.

Lemma php_file_commands_run_on_the_file_witness :
  perform Hosts.project 0 Hosts.config (Some "/ws")
          (fun _ => Rejected (ExitCode 1)
                      (Some (report Reports.remoteLines)) None)
          (runPhpstanFileCommand (Some "/ws/src/Foo.php"))
  = Some (Completed
            {| applied :=
                 {[ "/ws/src/Foo.php" :=
                      [warningAt 11 "Undefined method foo().";
                       warningAt 29 "Dead code."] ]};
               summary := showWarningMessage (problemsMessage 2 1);
               consoleError := None |})
  /\ forall file,
      is_Some (({[ "/ws/src/Foo.php" :=
                     [warningAt 11 "Undefined method foo().";
                      warningAt 29 "Dead code."] ]} : DiagnosticSet) !! file) ->
      file = "/ws/src/Foo.php".
Proof.
  assert (Hrun :
    perform Hosts.project 0 Hosts.config (Some "/ws")
            (fun _ => Rejected (ExitCode 1)
                        (Some (report Reports.remoteLines)) None)
            (runPhpstanFileCommand (Some "/ws/src/Foo.php"))
    = Some (Completed
              {| applied :=
                   {[ "/ws/src/Foo.php" :=
                        [warningAt 11 "Undefined method foo().";
                         warningAt 29 "Dead code."] ]};
                 summary := showWarningMessage (problemsMessage 2 1);
                 consoleError := None |}))
    by (vm_compute; reflexivity).
  split; [exact Hrun|].
  destruct (php_file_commands_run_on_the_file Hosts.project 0 Hosts.config
              (Some "/ws")
              (fun _ => Rejected (ExitCode 1)
                          (Some (report Reports.remoteLines)) None))
    as (_ & _ & _ & _ & _ & _ & Hkeys).
  exact (Hkeys (runPhpstanFileCommand (Some "/ws/src/Foo.php"))
               "/ws/src/Foo.php" _ (or_introl eq_refl) eq_refl Hrun).
Defined.

Section SameResolution.
Import JSString.

Variable host : Host.
Variable fuel : nat.
Variables workspaceRoot remote : string.
Variables target1 target2 : option string.

Hypothesis same_resolution :
  forall containerFilePath,
    resolveFile host fuel workspaceRoot remote target1 containerFilePath
    = resolveFile host fuel workspaceRoot remote target2 containerFilePath.

(** Two targets under which every path resolves alike give the same
    scan. *)
Lemma scan_same_resolution (st : ScanState) (lines : list string) :
  scan host fuel workspaceRoot remote target1 st lines
  = scan host fuel workspaceRoot remote target2 st lines.
Proof.
  revert st. induction lines as [|line lines IH]; intros st; simpl.
  - reflexivity.
  - rewrite !processLine_classify.
    destruct (classify line); simpl; try apply IH.
    + destruct (truthy (currentFile st) && _); [|apply IH].
      destruct (truthy (trim _)); [|reflexivity].
      destruct (heldExactly _); [apply IH | reflexivity].
    + rewrite same_resolution.
      destruct (resolveFile host fuel workspaceRoot remote target2 _);
        simpl; auto.
Qed.

End SameResolution.

(** X20. The directory command called without a resource falls back to
    the first workspace folder, and without either shows its warning and
    runs nothing. On a workspace root that does not end in [.php], with a
    working directory that is an absolute path of plain names and a host
    on which [statSync] answers for the root if it exists, the fallback
    does exactly what the project command does: the same command is
    executed and its output is interpreted alike. *)
Theorem directory_command_falls_back_to_the_project (host : Host) (fuel : nat)
        (config : Config) (workspaceRoot : string) (remote : list string)
        (execAsync : string -> ExecResult) :
  runPhpstanDirectoryCommand None None
  = Warn "No se pudo determinar el directorio de trabajo"
  /\ (JSString.truthy workspaceRoot = true ->
      JSString.endsWith ".php" workspaceRoot = false ->
      workDirectory config = absolutePath remote ->
      Forall (fun name => plainName name = true) remote ->
      (existsSync host workspaceRoot = true ->
       statSync host workspaceRoot <> None) ->
      runPhpstanDirectoryCommand None (Some workspaceRoot)
      = Run (Some workspaceRoot)
      /\ perform host fuel config (Some workspaceRoot) execAsync
                 (runPhpstanDirectoryCommand None (Some workspaceRoot))
         = perform host fuel config (Some workspaceRoot) execAsync
                   runPhpstanCommand).
Proof.
  split; [reflexivity|].
  intros Hroot Hphp Hremote Hplain Hstat.
  assert (Hcommand : runPhpstanDirectoryCommand None (Some workspaceRoot)
                     = Run (Some workspaceRoot))
    by (unfold runPhpstanDirectoryCommand; rewrite Hroot; reflexivity).
  split; [exact Hcommand|]. rewrite Hcommand.
  unfold runPhpstanCommand, perform.
  apply (f_equal Some). unfold runPhpstan. rewrite Hroot.
  assert (Hdocker : dockerCommand host config workspaceRoot (Some workspaceRoot)
                    = dockerCommand host config workspaceRoot None).
  { unfold dockerCommand, phpstanCommand.
    rewrite (pathArgument_root host config workspaceRoot remote Hroot Hremote
               Hplain).
    reflexivity. }
  rewrite Hdocker.
  assert (Hresolve : forall containerFilePath,
             resolveFile host fuel workspaceRoot (workDirectory config)
                         (Some workspaceRoot) containerFilePath
             = resolveFile host fuel workspaceRoot (workDirectory config)
                           None containerFilePath).
  { intros containerFilePath. unfold resolveFile, knownFilePath.
    rewrite Hphp, andb_false_r. simpl.
    unfold resolveContainerPath, findFileInWorkspace, searchRootOf.
    rewrite Hroot. simpl.
    destruct (existsSync host workspaceRoot) eqn:Hexists; [|reflexivity].
    specialize (Hstat eq_refl).
    destruct (statSync host workspaceRoot) as [[|]|]; try reflexivity.
    congruence. }
  assert (Hprocess : forall stdout stderr,
             processPhpstanOutput host fuel stdout stderr workspaceRoot
                                  (workDirectory config) (Some workspaceRoot)
             = processPhpstanOutput host fuel stdout stderr workspaceRoot
                                    (workDirectory config) None).
  { intros stdout stderr. unfold processPhpstanOutput, parseReport.
    rewrite (scan_same_resolution host fuel workspaceRoot
               (workDirectory config) (Some workspaceRoot) None Hresolve).
    reflexivity. }
  unfold interpret.
  destruct (execAsync (dockerCommand host config workspaceRoot None))
    as [stdout stderr | code stdout stderr]; [rewrite Hprocess; reflexivity|].
  destruct code as [n|]; [|reflexivity].
  destruct n as [|p|p]; try reflexivity.
  destruct p; try reflexivity. rewrite Hprocess. reflexivity.
Qed.

Lemma directory_command_falls_back_to_the_project_witness :
  perform Hosts.project 8 Hosts.config (Some "/ws")
          (fun _ => Resolved (report Reports.movedLines) EmptyString)
          (runPhpstanDirectoryCommand None (Some "/ws"))
  = perform Hosts.project 8 Hosts.config (Some "/ws")
            (fun _ => Resolved (report Reports.movedLines) EmptyString)
            runPhpstanCommand.
Proof.
  assert (Hplain : Forall (fun name => plainName name = true)
                          ["var"; "www"; "html"])
    by (repeat constructor).
  assert (Hstat : existsSync Hosts.project "/ws" = true ->
                  statSync Hosts.project "/ws" <> None)
    by (intros _; discriminate).
  exact (proj2 (proj2 (directory_command_falls_back_to_the_project
                         Hosts.project 8 Hosts.config "/ws"
                         ["var"; "www"; "html"]
                         (fun _ => Resolved (report Reports.movedLines)
                                            EmptyString))
                      eq_refl eq_refl eq_refl Hplain Hstat)).
Defined.

(** ** A walk that finds nothing *)

Section NotFound.
Import JSString.

Variable host : Host.

Lemma scanEntries_continue (dir fileName : string) (files stack stack' : list string) :
  scanEntries host dir fileName files stack = Ok (Continue stack') ->
  (forall d, In d stack -> In d stack')
  /\ forall file, In file files ->
       (statSync host (Path.join [dir; file]) = Some true ->
        In (Path.join [dir; file]) stack')
       /\ (statSync host (Path.join [dir; file]) = Some false ->
           file <> fileName).
Proof.
  revert stack. induction files as [|file files IH]; intros stack; simpl.
  - intros [= <-]. split; [auto | intros file []].
  - destruct (statSync host (Path.join [dir; file])) as [[|]|] eqn:Hstat;
      try discriminate.
    + intros Hscan. destruct (IH _ Hscan) as [Hkeep Hfiles]. split.
      * intros d Hd. apply Hkeep, in_or_app. auto.
      * intros f [<- | Hf]; [|exact (Hfiles f Hf)]. split.
        -- intros _. apply Hkeep, in_or_app. right. left. reflexivity.
        -- congruence.
    + destruct (String.eqb file fileName) eqn:Hname; [discriminate|].
      apply String.eqb_neq in Hname.
      intros Hscan. destruct (IH _ Hscan) as [Hkeep Hfiles].
      split; [exact Hkeep|].
      intros f [<- | Hf]; [|exact (Hfiles f Hf)]. split; congruence.
Qed.

(** A reached directory is the start, or is reached from a directory
    among the entries of the start. *)
Lemma reachable_head (start dir : string) :
  reachable host start dir ->
  dir = start
  \/ exists files file,
      readdirSync host start = Some files
      /\ In file files
      /\ statSync host (Path.join [start; file]) = Some true
      /\ reachable host (Path.join [start; file]) dir.
Proof.
  induction 1 as [|dir file files Hreach IH Hfiles Hin Hstat]; [left; reflexivity|].
  right. destruct IH as [-> | (files0 & file0 & Hfiles0 & Hin0 & Hstat0 & Hrest)].
  - exists files, file. repeat split; auto. constructor.
  - exists files0, file0. repeat split; auto.
    exact (reachable_entry host _ dir file files Hrest Hfiles Hin Hstat).
Qed.

Lemma normalize_truthy (p : string) : truthy (Path.normalize p) = true.
Proof.
  unfold Path.normalize. destruct p as [|c p]; [reflexivity|].
  destruct (Path.normalizeString (String c p)
              (negb (Path.isAbsolute (String c p)))) as [|b body].
  - destruct (Path.isAbsolute (String c p)); [reflexivity|].
    destruct (endsWith "/" (String c p)); reflexivity.
  - destruct (Path.isAbsolute (String c p)); [reflexivity|].
    destruct (endsWith "/" (String c p)); reflexivity.
Qed.

Lemma join_path_truthy (args : list string) : truthy (Path.join args) = true.
Proof.
  unfold Path.join. destruct (filter _ args); [reflexivity|].
  apply normalize_truthy.
Qed.

Lemma searchLoop_complete (fileName : string) (n : nat) (stack : list string) :
  searchLoop host n fileName stack = Ok None ->
  forall start dir,
    In start stack -> truthy start = true -> reachable host start dir ->
    exists files,
      readdirSync host dir = Some files
      /\ forall file, In file files ->
                      statSync host (Path.join [dir; file]) = Some false ->
                      file <> fileName.
Proof.
  revert stack. induction n as [|n IH]; intros stack; simpl.
  - destruct (pop stack) as [[top below]|] eqn:Hpop; [discriminate|].
    intros _ start dir Hin. unfold pop in Hpop.
    destruct (rev stack) eqn:Hrev; [|discriminate].
    apply (f_equal (@rev string)) in Hrev. rewrite rev_involutive in Hrev.
    subst stack. destruct Hin.
  - destruct (pop stack) as [[top below]|] eqn:Hpop.
    + apply pop_Some in Hpop. subst stack.
      destruct (truthy top) eqn:Htop; simpl.
      * destruct (readdirSync host top) as [files|] eqn:Hfiles; [|discriminate].
        destruct (scanEntries host top fileName files below) as [[p|stack']| | |]
          eqn:Hscan; simpl; try discriminate.
        intros Hloop start dir Hin Hstart Hreach.
        destruct (scanEntries_continue _ _ _ _ _ Hscan) as [Hkeep Hentries].
        apply in_app_or in Hin as [Hin | [<- | []]].
        -- exact (IH _ Hloop start dir (Hkeep _ Hin) Hstart Hreach).
        -- apply reachable_head in Hreach
             as [-> | (files0 & file & Hfiles0 & Hfile & Hstat & Hrest)].
           ++ exists files. split; [exact Hfiles|].
              intros file Hfile. apply (Hentries file Hfile).
           ++ rewrite Hfiles in Hfiles0. injection Hfiles0 as <-.
              apply (IH _ Hloop (Path.join [top; file]) dir).
              ** apply (Hentries file Hfile). exact Hstat.
              ** apply join_path_truthy.
              ** exact Hrest.
      * intros Hloop start dir Hin Hstart Hreach.
        apply in_app_or in Hin as [Hin | [<- | []]].
        -- exact (IH _ Hloop start dir Hin Hstart Hreach).
        -- congruence.
    + intros _ start dir Hin. unfold pop in Hpop.
      destruct (rev stack) eqn:Hrev; [|discriminate].
      apply (f_equal (@rev string)) in Hrev. rewrite rev_involutive in Hrev.
      subst stack. destruct Hin.
Qed.

End NotFound.

(** X21. When [findFileInWorkspace] ends without a result, there is
    none to find: every directory reached from the start of the walk
    could be listed, and none of them lists an entry of the name asked
    for that is not a directory. *)
Theorem walk_without_result_has_seen_every_directory (host : Host) (fuel : nat)
        (root fileName : string) (searchDir : option string) :
  findFileInWorkspace host fuel root fileName searchDir = Ok None ->
  exists start,
    (start = root
     \/ (searchDir = Some start
         /\ existsSync host start = true
         /\ statSync host start = Some true))
    /\ (JSString.truthy start = true ->
        forall dir, reachable host start dir ->
          exists files,
            readdirSync host dir = Some files
            /\ forall file, In file files ->
                 statSync host (Path.join [dir; file]) = Some false ->
                 file <> fileName).
Proof.
  unfold findFileInWorkspace.
  destruct (searchRootOf host root searchDir) as [start| | |] eqn:Hstart;
    simpl; try discriminate.
  intros Hloop. exists start. split.
  - unfold searchRootOf in Hstart. destruct searchDir as [d|].
    + destruct (JSString.truthy d && existsSync host d) eqn:Hguard.
      * apply andb_prop in Hguard as [_ Hexists].
        destruct (statSync host d) as [[|]|] eqn:Hstat; try discriminate;
          injection Hstart as <-; auto.
      * injection Hstart as <-. auto.
    + injection Hstart as <-. auto.
  - intros Htruthy dir Hreach.
    exact (searchLoop_complete host fileName fuel [start] Hloop start dir
             (or_introl eq_refl) Htruthy Hreach).
Qed.

Lemma walk_without_result_has_seen_every_directory_witness :
  exists start,
    (start = "/ws"
     \/ (None = Some start
         /\ existsSync Hosts.project start = true
         /\ statSync Hosts.project start = Some true))
    /\ (JSString.truthy start = true ->
        forall dir, reachable Hosts.project start dir ->
          exists files,
            readdirSync Hosts.project dir = Some files
            /\ forall file, In file files ->
                 statSync Hosts.project (Path.join [dir; file]) = Some false ->
                 file <> "Bar.php").
Proof.
  apply (walk_without_result_has_seen_every_directory Hosts.project 3 "/ws"
           "Bar.php" None).
  vm_compute. reflexivity.
Defined.

(** X22. A row whose text is blank, met while a file is current, ends
    the loop in an exception: the message of the diagnostic is the
    trimmed text, the empty string, and the constructor of
    [vscode.Diagnostic] throws on it. Nothing of the report is applied,
    and the run ends in the error of the outer [catch]. *)
Theorem blank_text_row_throws (host : Host) (fuel : nat)
        (workspaceRoot remote : string) (targetPath : option string)
        (st : ScanState) (line : string) (errorMatch : list string) :
  classify line = Row errorMatch ->
  JSString.truthy (currentFile st) = true ->
  1 <= JSString.parseInt (group 1 errorMatch) ->
  JSString.trim (group 2 errorMatch) = EmptyString ->
  processLine host fuel workspaceRoot remote targetPath st line = Throw
  /\ forall before after : list string,
      scan host fuel workspaceRoot remote targetPath initialState before
      = Ok st ->
      scan host fuel workspaceRoot remote targetPath initialState
           (before ++ line :: after) = Throw.
Proof.
  intros Hkind Hcur Hnumber Htext.
  assert (Hthrow : processLine host fuel workspaceRoot remote targetPath st line
                   = Throw).
  { rewrite processLine_classify, Hkind. cbv zeta. rewrite Hcur, Htext.
    assert (Hle : (0 <=? JSString.parseInt (group 1 errorMatch) - 1) = true)
      by (apply Z.leb_le; lia).
    rewrite Hle. reflexivity. }
  split; [exact Hthrow|].
  intros before after Hbefore. rewrite scan_app, Hbefore. simpl.
  rewrite Hthrow. reflexivity.
Qed.

Lemma blank_text_row_throws_witness :
  processLine Hosts.project 8 "/ws" "/var/www/html" None Reports.stateInFoo
              Reports.blankRow = Throw
  /\ parseReport Hosts.project 8 "/ws" "/var/www/html" None
                 (report Reports.blankRowLines) = Throw
  /\ interpret Hosts.project 8 Hosts.config "/ws" None
               (Rejected (ExitCode 1) (Some (report Reports.blankRowLines)) None)
     = ExecutionError.
Proof.
  assert (Hnumber : 1 <= JSString.parseInt (group 1 ["13"; String "009" EmptyString]))
    by (vm_compute; discriminate).
  destruct (blank_text_row_throws Hosts.project 8 "/ws" "/var/www/html" None
              Reports.stateInFoo Reports.blankRow
              ["13"; String "009" EmptyString] eq_refl eq_refl Hnumber eq_refl)
    as [Hline _].
  split; [exact Hline|]. split; vm_compute; reflexivity.
Defined.

(** ** Where the keys come from *)

Section Located.
Import JSString RegExp.

Variable host : Host.
Variable fuel : nat.
Variables workspaceRoot remote : string.
Variable targetPath : option string.

(** What the walk returns is a file that [statSync] has seen, and its
    path is not the empty string. *)
Lemma findFileInWorkspace_found (root fileName : string)
      (searchDir : option string) (found : string) :
  findFileInWorkspace host fuel root fileName searchDir = Ok (Some found) ->
  statSync host found = Some false /\ truthy found = true.
Proof.
  unfold findFileInWorkspace.
  destruct (searchRootOf host root searchDir) as [start| | |]; simpl;
    try discriminate.
  intros Hloop.
  destruct (searchLoop_sound host start fileName found fuel [start])
    as (dir & files & _ & _ & _ & Hfound & Hstat); [| exact Hloop |].
  - intros d [<- | []]. constructor.
  - split; [exact Hstat|]. rewrite Hfound. apply join_path_truthy.
Qed.

(** Every result of the chain is located. *)
Lemma resolveFile_located (containerFilePath file : string) :
  resolveFile host fuel workspaceRoot remote targetPath containerFilePath
  = Ok file ->
  located host fuel workspaceRoot remote targetPath containerFilePath file.
Proof.
  unfold resolveFile.
  destruct (knownFilePath host targetPath) as [known|] eqn:Hknown.
  - apply knownFilePath_spec in Hknown as Hspec.
    destruct Hspec as (_ & Hphp & Hexists).
    rewrite (endsWith_truthy ".php" known eq_refl Hphp).
    intros [= <-]. exact (located_known _ _ _ _ _ _ known Hknown Hexists).
  - unfold resolveContainerPath.
    destruct (Path.isAbsolute containerFilePath
              && existsSync host containerFilePath) eqn:Habsolute.
    + intros [= <-]. apply andb_prop in Habsolute as [Habs Hexists].
      exact (located_absolute _ _ _ _ _ _ Hknown Habs Hexists).
    + change (if startsWith remote containerFilePath
              then Path.resolve (cwd host)
                     [workspaceRoot;
                      stripLeadingSlash
                        (substring (String.length remote) containerFilePath)]
              else Path.resolve (cwd host) [workspaceRoot; containerFilePath])
        with (joinedPath host workspaceRoot remote containerFilePath).
      destruct (existsSync host
                  (joinedPath host workspaceRoot remote containerFilePath))
        eqn:Hjoined; simpl.
      * intros [= <-].
        exact (located_joined _ _ _ _ _ _ Hknown Habsolute Hjoined).
      * destruct (findFileInWorkspace host fuel workspaceRoot
                    (Path.basename containerFilePath) targetPath)
          as [[found|]| | |] eqn:Hfind; simpl; try discriminate.
        -- destruct (findFileInWorkspace_found _ _ _ _ Hfind)
             as [Hstat Htruthy].
           rewrite Htruthy. intros [= <-].
           exact (located_found _ _ _ _ _ _ found Hknown Habsolute Hjoined
                    Hfind Hstat).
        -- intros [= <-].
           exact (located_nowhere _ _ _ _ _ _ Hknown Habsolute Hjoined Hfind).
Qed.

Lemma namedBy_locatedBy (lines : list string) (file : string) :
  namedBy host fuel workspaceRoot remote targetPath lines file ->
  locatedBy host fuel workspaceRoot remote targetPath lines file.
Proof.
  intros (line & fileMatch & Hin & Hkind & Hfile).
  exists line, fileMatch. repeat split; try assumption.
  apply resolveFile_located. exact Hfile.
Qed.

End Located.

(** C4, as the code has it. Every key of a parsed diagnostic set is a
    non-empty path that the resolution gave for some file line of the
    report, and the resolution says where it comes from: it is the known
    file of the run, which exists; or the path of the file line itself,
    absolute and existing; or that path joined onto the workspace root,
    existing; or a file of the same name that the walk of the workspace
    met, which [statSync] reports as no directory; and only when all of
    these have failed is it the joined path although nothing exists
    there. The diagnostics of each file are rows of the report in the
    order of the report. *)
Theorem keys_are_resolved_and_rows_keep_order (host : Host) (fuel : nat)
        (workspaceRoot remote : string) (targetPath : option string)
        (stdout : string) (ds : DiagnosticSet) :
  parseReport host fuel workspaceRoot remote targetPath stdout = Ok ds ->
  forall (file : string) (diags : list Diagnostic),
    ds !! file = Some diags ->
    file <> EmptyString
    /\ locatedBy host fuel workspaceRoot remote targetPath
                 (JSString.split lineFeed stdout) file
    /\ sublist diags (reportRows (JSString.split lineFeed stdout)).
Proof.
  unfold parseReport. fold lineFeed.
  destruct (scan host fuel workspaceRoot remote targetPath initialState
              (JSString.split lineFeed stdout)) as [st| | |] eqn:Hscan;
    simpl; try discriminate.
  intros [= <-] file diags Hfile.
  assert (Hkeys : keysNamedBy host fuel workspaceRoot remote targetPath
                    (JSString.split lineFeed stdout) st).
  { apply (keysNamedBy_scan host fuel workspaceRoot remote targetPath
             _ (JSString.split lineFeed stdout) initialState st); auto.
    split; [left; reflexivity|].
    intros key [x Hx]. simpl in Hx. rewrite lookup_empty in Hx. discriminate. }
  destruct Hkeys as [_ Hkeys].
  destruct (Hkeys file) as [Hne Hnamed]; [eexists; exact Hfile|].
  split; [exact Hne|]. split; [apply namedBy_locatedBy; exact Hnamed|].
  destruct (scan_appends_rows host fuel workspaceRoot remote targetPath
              _ initialState st file Hscan) as (added & Hadded & Hsub).
  rewrite Hfile in Hadded. simpl in Hadded. rewrite lookup_empty in Hadded.
  simpl in Hadded. subst added. exact Hsub.
Qed.

Lemma keys_are_resolved_and_rows_keep_order_witness :
  parseReport Hosts.project 8 "/ws" "/var/www/html" None
              (report Reports.remoteLines)
  = Ok {[ "/ws/lib/Bar.php" :=
            [warningAt 11 "Undefined method foo()."; warningAt 29 "Dead code."] ]}
  /\ "/ws/lib/Bar.php" <> EmptyString
  /\ locatedBy Hosts.project 8 "/ws" "/var/www/html" None
               (JSString.split lineFeed (report Reports.remoteLines))
               "/ws/lib/Bar.php"
  /\ sublist [warningAt 11 "Undefined method foo()."; warningAt 29 "Dead code."]
             (reportRows (JSString.split lineFeed (report Reports.remoteLines))).
Proof.
  assert (Hparse :
    parseReport Hosts.project 8 "/ws" "/var/www/html" None
                (report Reports.remoteLines)
    = Ok {[ "/ws/lib/Bar.php" :=
              [warningAt 11 "Undefined method foo()."; warningAt 29 "Dead code."] ]})
    by (vm_compute; reflexivity).
  split; [exact Hparse|].
  apply (keys_are_resolved_and_rows_keep_order Hosts.project 8 "/ws"
           "/var/www/html" None (report Reports.remoteLines) _ Hparse
           "/ws/lib/Bar.php").
  apply lookup_singleton_eq.
Defined.

(** C4, as the claim has it, fails on its first half: when no step of
    the resolution finds the file, the unresolved path joined onto the
    workspace root becomes the key, and the host has no such file. *)
Lemma unresolved_path_becomes_a_key :
  parseReport Hosts.bare 8 "/ws" "/var/www/html" None (report Reports.movedLines)
  = Ok {[ "/ws/lib/Foo.php" := [warningAt 11 "Undefined method foo()."] ]}
  /\ existsSync Hosts.bare "/ws/lib/Foo.php" = false
  /\ statSync Hosts.bare "/ws/lib/Foo.php" = None.
Proof. vm_compute. repeat split; reflexivity. Qed.
